(** * odds-calculator: the rating core of [elo_calculator.py]

    A shallow embedding of the ELO rating engine, the venue probability
    model, the calibration estimator, the form analyser and the rating
    update of the pipeline, followed by the properties of the
    specification that were checked against them.

    Number model.  Python [int] is [Z].  Python [float] is binary64, and
    is modelled at two levels:
      - exactly, for statements over all inputs: as a real number ([R])
        in the rating engine, whose formulas use [10 ** x] and
        [math.log], and as a rational ([Q]) in the venue model, the
        calibration and the form analyser, which only add, multiply,
        divide, compare and round.  Every branch, every division (a zero
        divisor raises [ZeroDivisionError], as in Python), every [round]
        and the overflow of [10 ** x] ([OverflowError]) are kept; the
        rounding error of the single operations is not, so the
        statements proved at this level carry the tolerance or the range
        that makes them hold of the doubles as well;
      - bit for bit, in [Binary64], on the kernel's binary64 numbers:
        the same formulas with every operation rounded as IEEE 754
        rounds it, for the inputs at which the rounding decides. *)

From Stdlib Require Import ZArith QArith Qround Qabs Qminmax Reals Psatz.
From Stdlib Require Import String Ascii List Sorted Permutation.
From Stdlib Require PrimFloat FloatOps SpecFloat Uint63.
From stdpp Require Import base option list gmap strings.

(** ** Python exceptions and results *)

Inductive PyError : Type :=
  | ZeroDivisionError
  | IndexError
  | OverflowError.

Inductive result (A : Type) : Type :=
  | Ok (a : A)
  | Raise (e : PyError).
Arguments Ok {A} a.
Arguments Raise {A} e.

#[global] Instance result_ret : MRet result := fun A a => Ok a.
#[global] Instance result_bind : MBind result := fun A B f m =>
  match m with
  | Ok a => f a
  | Raise e => Raise e
  end.

(** ** Rounding, on reals *)

Module RealRound.
Local Open Scope R_scope.

(** [round(x)]: nearest integer, ties to the even one. *)
Definition py_round (x : R) : Z :=
  let n := Int_part x in
  let f := frac_part x in
  if Rlt_dec f (1 / 2) then n
  else if Rlt_dec (1 / 2) f then (n + 1)%Z
  else if Z.even n then n else (n + 1)%Z.

(** [round(x, ndigits)] for [ndigits >= 0]. *)
Definition py_round_ndigits (x : R) (ndigits : nat) : R :=
  IZR (py_round (x * IZR (10 ^ Z.of_nat ndigits))) / IZR (10 ^ Z.of_nat ndigits).

End RealRound.

(** ** RatingEngine: class [ELOCalculator] *)

Module RatingEngine.
Import RealRound.
Local Open Scope R_scope.

Record HistoryEntry : Type := mkEntry {
  date : string;
  elo : Z
}.

Record ELOCalculator : Type := mkELOCalculator {
  k_factor : Z;
  home_advantage : Z;
  use_mov : bool;
  default_elo : Z;
  current_elo : gmap string Z;
  elo_history : gmap string (list HistoryEntry)
}.

(** [ELOCalculator()] with the constructor's default arguments. *)
Definition ELOCalculator_default : ELOCalculator :=
  mkELOCalculator 20 100 true 1500 ∅ ∅.

(** A power that is not below [2^1024 - 2^970], half a unit in the last
    place above the largest double [2^1024 - 2^971], is out of the range
    of binary64. *)
Definition DBL_OVERFLOW : R := IZR (2 ^ 1024 - 2 ^ 970).

(** [10 ** x] for a float [x]: the power, or [OverflowError] when it is
    out of range.  (A power too small for binary64 is returned as 0.0 or
    as a subnormal number, without an error.) *)
Definition py_pow10 (x : R) : result R :=
  if Rle_dec DBL_OVERFLOW (Rpower 10 x) then Raise OverflowError
  else Ok (Rpower 10 x).

Definition expected_score (self : ELOCalculator)
    (team_elo opponent_elo : R) (is_home : bool) : result R :=
  let effective_elo :=
    team_elo + (if is_home then IZR (home_advantage self) else 0) in
  let opponent_effective :=
    opponent_elo + (if negb is_home then IZR (home_advantage self) else 0) in
  power ← py_pow10 ((opponent_effective - effective_elo) / 400);
  mret (1 / (1 + power)).

Definition margin_of_victory_multiplier (self : ELOCalculator)
    (goal_diff : Z) (elo_diff : R) : result R :=
  if (goal_diff =? 0)%Z then Ok 1
  else
    let goal_factor := ln (IZR (Z.abs goal_diff + 1)) in
    let denominator := elo_diff * 0.001 + 2.2 in
    if Req_dec_T denominator 0 then Raise ZeroDivisionError
    else
      let dampening := 2.2 / denominator in
      Ok (goal_factor * dampening).

Definition calculate_elo_change (self : ELOCalculator)
    (team_elo opponent_elo : R) (team_goals opponent_goals : Z)
    (is_home : bool) : result R :=
  let actual_score :=
    if (team_goals >? opponent_goals)%Z then 1
    else if (team_goals <? opponent_goals)%Z then 0
    else 0.5 in
  expected ← expected_score self team_elo opponent_elo is_home;
  k ← (if use_mov self && negb (team_goals =? opponent_goals)%Z then
         let goal_diff := Z.abs (team_goals - opponent_goals) in
         let elo_diff :=
           if (team_goals >? opponent_goals)%Z then team_elo - opponent_elo
           else opponent_elo - team_elo in
         mov_mult ← margin_of_victory_multiplier self goal_diff elo_diff;
         mret (IZR (k_factor self) * mov_mult)
       else mret (IZR (k_factor self)));
  mret (k * (actual_score - expected)).

(** [if team not in self.elo_history: self.elo_history[team] = []] *)
Definition history_ensure (team : string)
    (h : gmap string (list HistoryEntry)) : gmap string (list HistoryEntry) :=
  match h !! team with
  | None => <[team := []]> h
  | Some _ => h
  end.

(** [self.elo_history[team].append(entry)]; the history is a
    [defaultdict(list)], so a missing key reads as the empty list. *)
Definition history_push (team : string) (entry : HistoryEntry)
    (h : gmap string (list HistoryEntry)) : gmap string (list HistoryEntry) :=
  <[team := default [] (h !! team) ++ [entry]]> h.

Definition process_match (self : ELOCalculator)
    (home_team away_team : string) (home_goals away_goals : Z)
    (match_date : string) (update_history : bool)
    : result (ELOCalculator * (Z * Z * R * R)) :=
  let home_elo := default (default_elo self) (current_elo self !! home_team) in
  let away_elo := default (default_elo self) (current_elo self !! away_team) in
  home_change ← calculate_elo_change self (IZR home_elo) (IZR away_elo)
                   home_goals away_goals true;
  away_change ← calculate_elo_change self (IZR away_elo) (IZR home_elo)
                   away_goals home_goals false;
  let new_home_elo := py_round (IZR home_elo + home_change) in
  let new_away_elo := py_round (IZR away_elo + away_change) in
  let cur := <[away_team := new_away_elo]>
               (<[home_team := new_home_elo]> (current_elo self)) in
  let hist :=
    if update_history then
      history_push away_team (mkEntry match_date new_away_elo)
        (history_push home_team (mkEntry match_date new_home_elo)
           (history_ensure away_team
              (history_ensure home_team (elo_history self))))
    else elo_history self in
  mret (mkELOCalculator (k_factor self) (home_advantage self) (use_mov self)
          (default_elo self) cur hist,
        (new_home_elo, new_away_elo,
         py_round_ndigits home_change 1, py_round_ndigits away_change 1)).

Definition get_current_elo (self : ELOCalculator) (team : string) : Z :=
  default (default_elo self) (current_elo self !! team).

(** [self.elo_history[team]] read as a [defaultdict(list)] reads it. *)
Definition history_of (self : ELOCalculator) (team : string) : list HistoryEntry :=
  default [] (elo_history self !! team).

(** The exponent of the power of ten in [expected_score]. *)
Definition exponent (self : ELOCalculator) (team_elo opponent_elo : R)
    (is_home : bool) : R :=
  (opponent_elo + (if negb is_home then IZR (home_advantage self) else 0)
   - (team_elo + (if is_home then IZR (home_advantage self) else 0))) / 400.

(** The rating difference handed to the MOV multiplier for a decided
    match: the winner's rating minus the loser's. *)
Definition winner_elo_diff (home_elo away_elo home_goals away_goals : Z) : Z :=
  if (home_goals >? away_goals)%Z then (home_elo - away_elo)%Z
  else (away_elo - home_elo)%Z.

(** The numbers of a match are far inside the range of binary64: the two
    ratings are at most 50000 in size, the home-advantage bonus at most
    23200 and the K factor at most 1000000.  The home rating with its
    bonus and the away rating are then at most 123200 = 308 * 400 points
    apart, so that the exponent of the power of ten is at most 308 in
    size, and no conversion of an [int] to a float overflows. *)
Definition plausible (self : ELOCalculator) (home_elo away_elo : Z) : Prop :=
  (Z.abs home_elo <= 50000 /\ Z.abs away_elo <= 50000
   /\ Z.abs (home_advantage self) <= 23200 /\ Z.abs (k_factor self) <= 1000000)%Z.

(** The MOV multiplier is used and its dampening divides by zero exactly
    when MOV is on, the match is decided and the winner is rated 2200
    below the loser. *)
Definition mov_singular (self : ELOCalculator)
    (home_elo away_elo home_goals away_goals : Z) : Prop :=
  use_mov self = true /\ home_goals <> away_goals /\
  winner_elo_diff home_elo away_elo home_goals away_goals = (-2200)%Z.

End RatingEngine.

(** ** Rounding and division, on rationals *)

Module RatRound.
Local Open Scope Q_scope.

(** [round(q)]: nearest integer, ties to the even one. *)
Definition py_round (q : Q) : Z :=
  let n := Qfloor q in
  match Qcompare (q - inject_Z n) (1 # 2) with
  | Lt => n
  | Gt => (n + 1)%Z
  | Eq => if Z.even n then n else (n + 1)%Z
  end.

(** [round(q, ndigits)] for [ndigits >= 0]. *)
Definition py_round_ndigits (q : Q) (ndigits : nat) : Q :=
  inject_Z (py_round (q * inject_Z (10 ^ Z.of_nat ndigits)))
  / inject_Z (10 ^ Z.of_nat ndigits).

(** [a / b]: true division, raising on a zero divisor. *)
Definition py_div (a b : Q) : result Q :=
  if Qeq_bool b 0 then Raise ZeroDivisionError else Ok (a / b).

End RatRound.

(** ** VenueProbabilityModel *)

Module VenueProbabilityModel.
Import RatRound.
Local Open Scope Q_scope.

Definition HOME_ADVANTAGE_MULTIPLIER : Q := 1.11.
Definition AWAY_DISADVANTAGE_MULTIPLIER : Q := 0.89.
Definition DRAW_HOME_MULTIPLIER : Q := 0.95.
Definition DRAW_AWAY_MULTIPLIER : Q := 1.05.

(** One entry of [elo_bands.json].  The keys read by the core are taken
    as present: the band table is validated input. *)
Record EloBand : Type := mkEloBand {
  band : Z;
  stronger_win_pct : Q;
  draw_pct : Q;
  weaker_win_pct : Q
}.

Record Probabilities : Type := mkProbabilities {
  home_win : Q;
  draw : Q;
  away_win : Q
}.

Definition adjust_probability_for_venue (base_prob : Q)
    (is_stronger_team_home : bool) (market : string) : Q :=
  if String.eqb market "stronger_win" then
    if is_stronger_team_home then base_prob * HOME_ADVANTAGE_MULTIPLIER
    else base_prob * AWAY_DISADVANTAGE_MULTIPLIER
  else if String.eqb market "weaker_win" then
    if is_stronger_team_home then base_prob * AWAY_DISADVANTAGE_MULTIPLIER
    else base_prob * HOME_ADVANTAGE_MULTIPLIER
  else if String.eqb market "draw" then
    if is_stronger_team_home then base_prob * DRAW_HOME_MULTIPLIER
    else base_prob * DRAW_AWAY_MULTIPLIER
  else base_prob.

(** The percentages of a band are frequencies: each between 0 and 1, and
    not all of them zero. *)
Definition frequencies (b : EloBand) : Prop :=
  0 <= stronger_win_pct b <= 1 /\ 0 <= draw_pct b <= 1
  /\ 0 <= weaker_win_pct b <= 1
  /\ 0 < stronger_win_pct b + draw_pct b + weaker_win_pct b.

(** [min(int(elo_diff // 50) + 1, 10)] *)
Definition band_number (elo_diff : Z) : Z := Z.min (elo_diff / 50 + 1) 10.

(** The [for band in elo_bands: if band['band'] == band_num: ... break]
    loop: the first entry with that number, if any. *)
Definition find_band (band_num : Z) (elo_bands : list EloBand) : option EloBand :=
  List.find (fun b => (band b =? band_num)%Z) elo_bands.

Definition get_venue_adjusted_probabilities (home_elo away_elo : Z)
    (elo_bands : list EloBand) : result Probabilities :=
  let elo_diff := Z.abs (home_elo - away_elo) in
  let band_num := band_number elo_diff in
  match find_band band_num elo_bands with
  | None => Ok (mkProbabilities 0.333 0.333 0.334)
  | Some band_data =>
      let is_stronger_home := (home_elo >=? away_elo)%Z in
      let stronger_base := stronger_win_pct band_data in
      let weaker_base := weaker_win_pct band_data in
      let draw_base := draw_pct band_data in
      let stronger_adj :=
        adjust_probability_for_venue stronger_base is_stronger_home "stronger_win" in
      let weaker_adj :=
        adjust_probability_for_venue weaker_base is_stronger_home "weaker_win" in
      let draw_adj :=
        adjust_probability_for_venue draw_base is_stronger_home "draw" in
      let total := stronger_adj + weaker_adj + draw_adj in
      stronger_adj ← py_div stronger_adj total;
      weaker_adj ← py_div weaker_adj total;
      draw_adj ← py_div draw_adj total;
      if is_stronger_home then
        Ok (mkProbabilities (py_round_ndigits stronger_adj 4)
              (py_round_ndigits draw_adj 4) (py_round_ndigits weaker_adj 4))
      else
        Ok (mkProbabilities (py_round_ndigits weaker_adj 4)
              (py_round_ndigits draw_adj 4) (py_round_ndigits stronger_adj 4))
  end.

Record MarketOdds : Type := mkMarketOdds {
  probability : Q;
  fair_odds : Q
}.

Record FairOddsMeta : Type := mkFairOddsMeta {
  meta_elo_diff : Z;
  meta_band : Z;
  meta_stronger_team : string;
  meta_home_elo : Z;
  meta_away_elo : Z
}.

Record FairOdds : Type := mkFairOdds {
  odds_home_win : MarketOdds;
  odds_draw : MarketOdds;
  odds_away_win : MarketOdds;
  odds_meta : option FairOddsMeta
}.

(** ['market': {'probability': p, 'fair_odds': round(1 / q, 2)}] *)
Definition market_odds (p q : Q) : result MarketOdds :=
  inv ← py_div 1 q;
  Ok (mkMarketOdds p (py_round_ndigits inv 2)).

(** The first [def calculate_fair_odds] of the module (source lines
    127-154).  The name is bound again further down, so importers get
    the later definition; this one is kept for the claims that cite it. *)
Definition calculate_fair_odds_first (home_elo away_elo : Z)
    (elo_bands : list EloBand) : result FairOdds :=
  probs ← get_venue_adjusted_probabilities home_elo away_elo elo_bands;
  h ← market_odds (home_win probs) (home_win probs);
  d ← market_odds (draw probs) (draw probs);
  a ← market_odds (away_win probs) (away_win probs);
  Ok (mkFairOdds h d a None).

(** The second [def calculate_fair_odds] (source lines 559-647): the one
    the name denotes after the module is loaded. *)
Definition calculate_fair_odds (home_team_elo away_team_elo : Z)
    (elo_bands : list EloBand) : result FairOdds :=
  let elo_diff := Z.abs (home_team_elo - away_team_elo) in
  let band_num := band_number elo_diff in
  band_data ← match find_band band_num elo_bands with
              | Some b => Ok b
              | None =>
                  match elo_bands with
                  | b :: _ => Ok b
                  | [] => Raise IndexError
                  end
              end;
  let is_stronger_home := (home_team_elo >=? away_team_elo)%Z in
  let stronger_win_base := stronger_win_pct band_data in
  let draw_base := draw_pct band_data in
  let weaker_win_base := weaker_win_pct band_data in
  let stronger_win_adj :=
    adjust_probability_for_venue stronger_win_base is_stronger_home "stronger_win" in
  let weaker_win_adj :=
    adjust_probability_for_venue weaker_win_base is_stronger_home "weaker_win" in
  let draw_adj :=
    adjust_probability_for_venue draw_base is_stronger_home "draw" in
  let total := stronger_win_adj + draw_adj + weaker_win_adj in
  stronger_win_adj ← py_div stronger_win_adj total;
  draw_adj ← py_div draw_adj total;
  weaker_win_adj ← py_div weaker_win_adj total;
  let home_win_prob := if is_stronger_home then stronger_win_adj else weaker_win_adj in
  let away_win_prob := if is_stronger_home then weaker_win_adj else stronger_win_adj in
  let draw_prob := draw_adj in
  h ← market_odds (py_round_ndigits home_win_prob 4) home_win_prob;
  d ← market_odds (py_round_ndigits draw_prob 4) draw_prob;
  a ← market_odds (py_round_ndigits away_win_prob 4) away_win_prob;
  Ok (mkFairOdds h d a
        (Some (mkFairOddsMeta elo_diff band_num
                 (if is_stronger_home then "home" else "away")
                 home_team_elo away_team_elo))).

(** The three probabilities a fair-odds result reports. *)
Definition reported_probabilities (r : FairOdds) : Probabilities :=
  mkProbabilities (probability (odds_home_win r)) (probability (odds_draw r))
    (probability (odds_away_win r)).

End VenueProbabilityModel.

(** ** CalibrationEstimator *)

Module CalibrationEstimator.
Import RatRound.
Local Open Scope Q_scope.

(** The value under ['home_elo'] / ['away_elo'] of a match dictionary:
    the key may be missing, or hold [None], or hold a rating. *)
Inductive EloField : Type :=
  | Absent
  | PyNone
  | Rating (r : Z).

(** A match dictionary, as far as calibration reads it.  The goal counts
    are read with [match['home_goals']] and are taken as present. *)
Record MatchRecord : Type := mkMatch {
  home_elo : EloField;
  away_elo : EloField;
  home_goals : Z;
  away_goals : Z
}.

(** [match.get(key, 1500)]; the result [None] is Python's [None]. *)
Definition get_elo (f : EloField) : option Z :=
  match f with
  | Absent => Some 1500%Z
  | PyNone => None
  | Rating r => Some r
  end.

(** [v == 1500] *)
Definition is_1500 (v : option Z) : bool :=
  match v with
  | Some r => (r =? 1500)%Z
  | None => false
  end.

Record Tally : Type := mkTally {
  wins : Z;
  total : Z
}.

(** One iteration of the [for match in matches_data] loop on the pair
    [(stronger_home, stronger_away)]. *)
Definition tally_match (acc : Tally * Tally) (m : MatchRecord) : Tally * Tally :=
  let '(stronger_home, stronger_away) := acc in
  let home_elo := get_elo (home_elo m) in
  let away_elo := get_elo (away_elo m) in
  if is_1500 home_elo || is_1500 away_elo then acc
  else
    match home_elo, away_elo with
    | Some h, Some a =>
        let home_goals := home_goals m in
        let away_goals := away_goals m in
        if (h >=? a)%Z then
          (mkTally (if (home_goals >? away_goals)%Z
                    then wins stronger_home + 1 else wins stronger_home)%Z
                   (total stronger_home + 1)%Z,
           stronger_away)
        else
          (stronger_home,
           mkTally (if (away_goals >? home_goals)%Z
                    then wins stronger_away + 1 else wins stronger_away)%Z
                   (total stronger_away + 1)%Z)
    | _, _ => acc
    end.

Inductive Calibration : Type :=
  | Insufficient (home_multiplier away_multiplier : Q) (error : string)
  | Calibrated (home_multiplier away_multiplier : Q)
      (home_win_rate away_win_rate combined_rate : Q)
      (sample_size stronger_home_games stronger_away_games : Z)
      (last_updated : string).

(** [today] stands for [datetime.now().strftime('%Y-%m-%d')]. *)
Definition calculate_home_advantage_multipliers (today : string)
    (matches_data : list MatchRecord) : result Calibration :=
  let '(stronger_home, stronger_away) :=
    fold_left tally_match matches_data (mkTally 0 0, mkTally 0 0) in
  if (total stronger_home =? 0)%Z || (total stronger_away =? 0)%Z then
    Ok (Insufficient 1.11 0.89 "Insufficient data")
  else
    home_win_rate ← py_div (inject_Z (wins stronger_home))
                       (inject_Z (total stronger_home));
    away_win_rate ← py_div (inject_Z (wins stronger_away))
                       (inject_Z (total stronger_away));
    let combined_wins := (wins stronger_home + wins stronger_away)%Z in
    let combined_total := (total stronger_home + total stronger_away)%Z in
    combined_rate ← py_div (inject_Z combined_wins) (inject_Z combined_total);
    home_mult ← py_div home_win_rate combined_rate;
    away_mult ← py_div away_win_rate combined_rate;
    Ok (Calibrated (py_round_ndigits home_mult 3) (py_round_ndigits away_mult 3)
          (py_round_ndigits home_win_rate 4) (py_round_ndigits away_win_rate 4)
          (py_round_ndigits combined_rate 4)
          combined_total (total stronger_home) (total stronger_away) today).

(** The partition in the words of the specification: a match is kept
    when both recorded ratings are present and differ from 1500. *)
Definition rated (m : MatchRecord) : bool :=
  match home_elo m, away_elo m with
  | Rating h, Rating a => negb (h =? 1500)%Z && negb (a =? 1500)%Z
  | _, _ => false
  end.

Definition stronger_is_home (m : MatchRecord) : bool :=
  match home_elo m, away_elo m with
  | Rating h, Rating a => (h >=? a)%Z
  | _, _ => false
  end.

Definition stronger_home_group (ms : list MatchRecord) : list MatchRecord :=
  List.filter (fun m => rated m && stronger_is_home m) ms.

Definition stronger_away_group (ms : list MatchRecord) : list MatchRecord :=
  List.filter (fun m => rated m && negb (stronger_is_home m)) ms.

End CalibrationEstimator.

(** ** FormAnalyzer *)

Module FormAnalyzer.
Import RatRound.
Import RatingEngine.
Local Open Scope Q_scope.

Record FormMetrics : Type := mkFormMetrics {
  elo_change_last_5 : Z;
  elo_change_last_10 : Z;
  trend : string;
  form_rating : Q
}.

(** [sorted(history, key=lambda x: x['date'])]: a stable sort, written
    as insertion from the right; an entry goes in front of the first
    entry whose date is not smaller. *)
Fixpoint insert_by_date (x : HistoryEntry) (l : list HistoryEntry)
    : list HistoryEntry :=
  match l with
  | [] => [x]
  | y :: l' =>
      if String.ltb (date y) (date x) then y :: insert_by_date x l'
      else x :: y :: l'
  end.

Definition sorted_by_date (l : list HistoryEntry) : list HistoryEntry :=
  List.fold_right insert_by_date [] l.

(** [range(start, stop, -1)] *)
Definition range_down (start stop : Z) : list Z :=
  List.map (fun k => (start - Z.of_nat k)%Z) (List.seq 0 (Z.to_nat (start - stop))).

(** [history[i]['elo']], for an index inside the list. *)
Definition elo_at (history : list HistoryEntry) (i : Z) : Z :=
  match history !! Z.to_nat i with
  | Some e => elo e
  | None => 0%Z
  end.

Definition sum_Z (l : list Z) : Z := List.fold_left Z.add l 0%Z.

(** The changes are differences of [int] ratings, so the final
    [round(elo_change_5)] and [round(elo_change_10)] return them as they
    are. *)
Definition calculate_form_metrics (team : string)
    (elo_history : gmap string (list HistoryEntry)) (num_matches : Z)
    : FormMetrics :=
  match elo_history !! team with
  | None => mkFormMetrics 0 0 "stable" 5.0
  | Some history =>
      if (length history <? 2)%nat then mkFormMetrics 0 0 "stable" 5.0
      else
        let sorted_history := sorted_by_date history in
        let n := Z.of_nat (length sorted_history) in
        let recent_changes :=
          List.flat_map
            (fun i => if (i >? 0)%Z
                      then [(elo_at sorted_history i - elo_at sorted_history (i - 1))%Z]
                      else [])
            (range_down (n - 1) (Z.max (n - num_matches - 1) 0)) in
        let elo_change_5 :=
          if (5 <=? length recent_changes)%nat then sum_Z (List.firstn 5 recent_changes)
          else sum_Z recent_changes in
        let elo_change_10 :=
          if (10 <=? length recent_changes)%nat then sum_Z (List.firstn 10 recent_changes)
          else sum_Z recent_changes in
        let trend :=
          if (elo_change_5 >? 15)%Z then "improving"
          else if (elo_change_5 <? -15)%Z then "declining"
          else "stable" in
        let base_form := 5 + inject_Z elo_change_5 / 10 in
        let momentum :=
          if negb (elo_change_10 =? 0)%Z
          then (inject_Z elo_change_5 - inject_Z elo_change_10 / 2) / 10
          else 0 in
        let form_rating :=
          Qmin 10 (Qmax 0 (base_form * 0.6 + (5 + momentum) * 0.4)) in
        mkFormMetrics elo_change_5 elo_change_10 trend
          (py_round_ndigits form_rating 1)
  end.

End FormAnalyzer.

(** ** Python's [sorted]

    [sorted] is stable.  It is written as insertion from the right: the
    incoming element [x] passes every element [y] that has to stay in
    front of it ([stays_before y x]) and stops at the first that has not,
    so that elements that compare equal keep their order. *)

Fixpoint insert_sorted {A : Type} (stays_before : A -> A -> bool) (x : A)
    (l : list A) : list A :=
  match l with
  | [] => [x]
  | y :: l' =>
      if stays_before y x then y :: insert_sorted stays_before x l'
      else x :: y :: l'
  end.

Definition stable_sort {A : Type} (stays_before : A -> A -> bool) (l : list A)
    : list A :=
  List.fold_right (insert_sorted stays_before) [] l.

(** [a] may stand in front of [b]: [b] does not have to stay in front
    of [a]. *)
Definition in_order {A : Type} (stays_before : A -> A -> bool) (a b : A) : Prop :=
  stays_before b a = false.

(** ** RatingStore: queries, rankings and the persisted snapshot *)

Module RatingStore.
Import RatingEngine.

(** [get_elo_diff] *)
Definition get_elo_diff (self : ELOCalculator) (team1 team2 : string) : Z :=
  Z.abs (get_current_elo self team1 - get_current_elo self team2).

(** [get_elo_band]: [min(int(diff // 50) + 1, 10)] *)
Definition get_elo_band (self : ELOCalculator) (team1 team2 : string) : Z :=
  let diff := get_elo_diff self team1 team2 in
  Z.min (diff / 50 + 1) 10.

(** [sorted(items, key=lambda x: x[1], reverse=True)]: stable, by
    falling rating; an item stays in front of the incoming one when its
    rating is larger. *)
Definition sorted_by_elo_desc (items : list (string * Z)) : list (string * Z) :=
  stable_sort (fun y x => (snd x <? snd y)%Z) items.

(** [enumerate(l)] counting from [start] *)
Fixpoint enumerate_from {A : Type} (start : Z) (l : list A) : list (Z * A) :=
  match l with
  | [] => []
  | x :: l' => (start, x) :: enumerate_from (start + 1) l'
  end.

(** [get_rankings].  [items] stands for [self.current_elo.items()]: the
    teams with their ratings in the order the dict holds them. *)
Definition get_rankings (items : list (string * Z)) : list (string * Z * Z) :=
  List.map (fun '(rank, (team, elo)) => (team, elo, (rank + 1)%Z))
    (enumerate_from 0 (sorted_by_elo_desc items)).

(** A value of [current_elo.json]: a bare rating, or an object with
    numeric fields (['elo'], ['rank']). *)
Inductive EloJson : Type :=
  | JNumber (elo : Z)
  | JObject (fields : gmap string Z).

(** [{'elo': elo, 'rank': rank}] *)
Definition snapshot_object (elo rank : Z) : EloJson :=
  JObject (<["rank" := rank]> (<["elo" := elo]> ∅)).

(** [export_current_elo]: [{team: {'elo': elo, 'rank': rank}}] in ranking
    order. *)
Definition export_current_elo (items : list (string * Z))
    : list (string * EloJson) :=
  List.map (fun '(team, elo, rank) => (team, snapshot_object elo rank))
    (get_rankings items).

(** The loop of [load_current_elo] on the parsed file, writing into
    [current_elo]; [None] stands for the [KeyError] of [value['elo']] on
    an object without that field. *)
Fixpoint load_current_elo_loop (data : list (string * EloJson))
    (current_elo : gmap string Z) : option (gmap string Z) :=
  match data with
  | [] => Some current_elo
  | (team, value) :: rest =>
      match value with
      | JObject fields =>
          match fields !! "elo" with
          | Some e => load_current_elo_loop rest (<[team := e]> current_elo)
          | None => None
          end
      | JNumber e => load_current_elo_loop rest (<[team := e]> current_elo)
      end
  end.

Definition load_current_elo (data : list (string * EloJson))
    (self : ELOCalculator) : option ELOCalculator :=
  match load_current_elo_loop data (current_elo self) with
  | Some cur =>
      Some (mkELOCalculator (k_factor self) (home_advantage self) (use_mov self)
              (default_elo self) cur (elo_history self))
  | None => None
  end.

(** An entry of the file on which [value['elo']] fails: an object
    without the field ['elo']. *)
Definition lacks_elo (entry : string * EloJson) : Prop :=
  exists fields, snd entry = JObject fields /\ fields !! "elo" = None.

(** [load_elo_history]: [self.elo_history[team] = history] for every
    entry of the parsed file. *)
Definition load_elo_history (data : list (string * list HistoryEntry))
    (self : ELOCalculator) : ELOCalculator :=
  mkELOCalculator (k_factor self) (home_advantage self) (use_mov self)
    (default_elo self) (current_elo self)
    (List.fold_left (fun h '(team, history) => <[team := history]> h) data
       (elo_history self)).

(** [export_elo_history]: every history sorted by date. *)
Definition export_elo_history (self : ELOCalculator)
    : gmap string (list HistoryEntry) :=
  FormAnalyzer.sorted_by_date <$> elo_history self.

(** The dates of a history are in order when no entry is dated before
    the one in front of it. *)
Definition date_le (a b : HistoryEntry) : Prop :=
  String.ltb (date b) (date a) = false.

End RatingStore.

(** ** The four counts behind a calibration *)

Module CalibrationCounts.
Import CalibrationEstimator.

(** The stronger side won: the home side when it is rated at least as
    high as the away side, the away side otherwise. *)
Definition stronger_won (m : MatchRecord) : bool :=
  match home_elo m, away_elo m with
  | Rating h, Rating a =>
      if (h >=? a)%Z then (home_goals m >? away_goals m)%Z
      else (away_goals m >? home_goals m)%Z
  | _, _ => false
  end.

Definition home_games (ms : list MatchRecord) : Z :=
  Z.of_nat (length (stronger_home_group ms)).

Definition away_games (ms : list MatchRecord) : Z :=
  Z.of_nat (length (stronger_away_group ms)).

Definition home_wins (ms : list MatchRecord) : Z :=
  Z.of_nat (length (List.filter stronger_won (stronger_home_group ms))).

Definition away_wins (ms : list MatchRecord) : Z :=
  Z.of_nat (length (List.filter stronger_won (stronger_away_group ms))).

End CalibrationCounts.

(** ** The rating update of the pipeline: [OddsCalculator.update_elo_ratings] *)

Module RatingUpdate.
Import RatingEngine RatingStore.
Import CalibrationEstimator (EloField, Absent, PyNone, Rating).

(** A match dictionary of [matches_data], as far as the update reads it
    (teams, goals, date) and writes it (the four rating fields). *)
Record MatchData : Type := mkMatchData {
  m_home_team : string;
  m_away_team : string;
  m_home_goals : Z;
  m_away_goals : Z;
  m_date : string;
  m_home_elo : EloField;
  m_away_elo : EloField;
  m_elo_diff : EloField;
  m_elo_band : EloField
}.

(** [sorted(l, key=...)] for a string key. *)
Definition sorted_by_key {A : Type} (key : A -> string) (l : list A) : list A :=
  stable_sort (fun y x => String.ltb (key y) (key x)) l.

(** [sorted(history, key=date)[-1]['date']] for a non-empty history. *)
Definition last_date (history : list HistoryEntry) : option string :=
  match history with
  | [] => None
  | _ :: _ => date <$> last (FormAnalyzer.sorted_by_date history)
  end.

(** [last_elo_dates]: the latest date of every team with a non-empty
    history. *)
Definition last_elo_dates (elo_history : gmap string (list HistoryEntry))
    : gmap string string :=
  omap last_date elo_history.

(** [last_elo_dates.get(team, '1900-01-01')] *)
Definition latest_date (elo_history : gmap string (list HistoryEntry))
    (team : string) : string :=
  default "1900-01-01" (last_elo_dates elo_history !! team).

(** [match_date > home_last or match_date > away_last] *)
Definition needs_processing (dates : gmap string string) (m : MatchData) : bool :=
  let home_last := default "1900-01-01" (dates !! m_home_team m) in
  let away_last := default "1900-01-01" (dates !! m_away_team m) in
  String.ltb home_last (m_date m) || String.ltb away_last (m_date m).

(** [new_matches]: the selected matches, each with its position in
    [matches_data] (the list holds the very dictionaries of
    [matches_data], so that writing to one writes to the other), sorted
    by date. *)
Definition new_matches (elo_history : gmap string (list HistoryEntry))
    (matches_data : list MatchData) : list (nat * MatchData) :=
  let dates := last_elo_dates elo_history in
  sorted_by_key (fun im => m_date (snd im))
    (List.filter (fun im => needs_processing dates (snd im))
       (imap (fun i m => (i, m)) matches_data)).

(** The four assignments to the match dictionary. *)
Definition record_ratings (new_home new_away : Z) (m : MatchData) : MatchData :=
  let elo_diff := Z.abs (new_home - new_away) in
  mkMatchData (m_home_team m) (m_away_team m) (m_home_goals m) (m_away_goals m)
    (m_date m) (Rating new_home) (Rating new_away) (Rating elo_diff)
    (Rating (Z.min (elo_diff / 50 + 1) 10)).

(** [for match in new_matches: ...] *)
Fixpoint process_loop (todo : list (nat * MatchData)) (calc : ELOCalculator)
    (matches_data : list MatchData) : result (ELOCalculator * list MatchData) :=
  match todo with
  | [] => Ok (calc, matches_data)
  | (i, m) :: rest =>
      r ← process_match calc (m_home_team m) (m_away_team m)
             (m_home_goals m) (m_away_goals m) (m_date m) true;
      let '(calc', (new_home, new_away, _, _)) := r in
      process_loop rest calc'
        (alter (record_ratings new_home new_away) i matches_data)
  end.

(** The body of [update_elo_ratings] once the calculator is loaded. *)
Definition process_new_matches (calc : ELOCalculator)
    (matches_data : list MatchData) : result (ELOCalculator * list MatchData) :=
  process_loop (new_matches (elo_history calc) matches_data) calc matches_data.

(** [update_elo_ratings].  A file argument is [None] when the file does
    not exist; the outer [None] of the result is the [KeyError] of
    [load_current_elo]. *)
Definition update_elo_ratings
    (current_elo_file : option (list (string * EloJson)))
    (elo_history_file : option (list (string * list HistoryEntry)))
    (matches_data : list MatchData)
    : option (result (ELOCalculator * list MatchData)) :=
  let calc := mkELOCalculator 20 100 true 1500 ∅ ∅ in
  calc ← match current_elo_file with
          | Some data => load_current_elo data calc
          | None => Some calc
          end;
  let calc := match elo_history_file with
              | Some data => load_elo_history data calc
              | None => calc
              end in
  Some (process_new_matches calc matches_data).

End RatingUpdate.

(** ** Binary64: the formulas on doubles

    The venue probabilities and the expected score once more, with
    Python's [float] as the kernel's binary64 numbers: every [+], [-],
    [*] and [/] rounds to the nearest double, ties to even, as IEEE 754
    and CPython do. *)

Module Binary64.
Import PrimFloat.
Local Open Scope float_scope.
#[local] Set Warnings "-inexact-float".

(** [float(n)] for an [int] of at most 53 bits, which a double holds
    exactly. *)
Definition of_int (n : Z) : float :=
  if (n <? 0)%Z then - of_uint63 (Uint63.of_Z (- n))
  else of_uint63 (Uint63.of_Z n).

(** The rational number a finite double stands for. *)
Definition to_Q (x : float) : Q :=
  match FloatOps.Prim2SF x with
  | SpecFloat.S754_finite s m e =>
      let n := inject_Z (if s then Z.neg m else Z.pos m) in
      if (0 <=? e)%Z then (n * inject_Z (2 ^ e))%Q
      else (n / inject_Z (2 ^ (- e)))%Q
  | _ => 0%Q
  end.

(** [m * 2^e * 10^ndigits], for [m > 0], rounded to the nearest integer,
    ties to the even one, in exact integer arithmetic. *)
Definition round_scaled (m : positive) (e : Z) (ndigits : nat) : Z :=
  let n := (Z.pos m * 10 ^ Z.of_nat ndigits)%Z in
  if (0 <=? e)%Z then (n * 2 ^ e)%Z
  else
    let d := (2 ^ (- e))%Z in
    let q := (n / d)%Z in
    let r := (n mod d)%Z in
    match (2 * r ?= d)%Z with
    | Lt => q
    | Gt => (q + 1)%Z
    | Eq => if Z.even q then q else (q + 1)%Z
    end.

(** [round(x, ndigits)] for [ndigits >= 0]: CPython rounds the exact
    value of the double to [ndigits] decimals, ties to even, and returns
    the double nearest to that decimal number, which is what the
    division of the two integers gives.  Zeros, infinities and NaN
    round to themselves. *)
Definition py_round_ndigits (x : float) (ndigits : nat) : float :=
  match FloatOps.Prim2SF x with
  | SpecFloat.S754_finite s m e =>
      let r := of_int (round_scaled m e ndigits) / of_int (10 ^ Z.of_nat ndigits) in
      if s then - r else r
  | _ => x
  end.

(** [a / b]: float division, raising on a zero divisor. *)
Definition py_div (a b : float) : result float :=
  if b =? 0 then Raise ZeroDivisionError else Ok (a / b).

Definition HOME_ADVANTAGE_MULTIPLIER : float := 1.11.
Definition AWAY_DISADVANTAGE_MULTIPLIER : float := 0.89.
Definition DRAW_HOME_MULTIPLIER : float := 0.95.
Definition DRAW_AWAY_MULTIPLIER : float := 1.05.

Record EloBand : Type := mkEloBand {
  band : Z;
  stronger_win_pct : float;
  draw_pct : float;
  weaker_win_pct : float
}.

Record Probabilities : Type := mkProbabilities {
  home_win : float;
  draw : float;
  away_win : float
}.

Definition adjust_probability_for_venue (base_prob : float)
    (is_stronger_team_home : bool) (market : string) : float :=
  if String.eqb market "stronger_win" then
    if is_stronger_team_home then base_prob * HOME_ADVANTAGE_MULTIPLIER
    else base_prob * AWAY_DISADVANTAGE_MULTIPLIER
  else if String.eqb market "weaker_win" then
    if is_stronger_team_home then base_prob * AWAY_DISADVANTAGE_MULTIPLIER
    else base_prob * HOME_ADVANTAGE_MULTIPLIER
  else if String.eqb market "draw" then
    if is_stronger_team_home then base_prob * DRAW_HOME_MULTIPLIER
    else base_prob * DRAW_AWAY_MULTIPLIER
  else base_prob.

Definition find_band (band_num : Z) (elo_bands : list EloBand) : option EloBand :=
  List.find (fun b => (band b =? band_num)%Z) elo_bands.

Definition get_venue_adjusted_probabilities (home_elo away_elo : Z)
    (elo_bands : list EloBand) : result Probabilities :=
  let elo_diff := Z.abs (home_elo - away_elo) in
  let band_num := VenueProbabilityModel.band_number elo_diff in
  match find_band band_num elo_bands with
  | None => Ok (mkProbabilities 0.333 0.333 0.334)
  | Some band_data =>
      let is_stronger_home := (home_elo >=? away_elo)%Z in
      let stronger_base := stronger_win_pct band_data in
      let weaker_base := weaker_win_pct band_data in
      let draw_base := draw_pct band_data in
      let stronger_adj :=
        adjust_probability_for_venue stronger_base is_stronger_home "stronger_win" in
      let weaker_adj :=
        adjust_probability_for_venue weaker_base is_stronger_home "weaker_win" in
      let draw_adj :=
        adjust_probability_for_venue draw_base is_stronger_home "draw" in
      let total := stronger_adj + weaker_adj + draw_adj in
      stronger_adj ← py_div stronger_adj total;
      weaker_adj ← py_div weaker_adj total;
      draw_adj ← py_div draw_adj total;
      if is_stronger_home then
        Ok (mkProbabilities (py_round_ndigits stronger_adj 4)
              (py_round_ndigits draw_adj 4) (py_round_ndigits weaker_adj 4))
      else
        Ok (mkProbabilities (py_round_ndigits weaker_adj 4)
              (py_round_ndigits draw_adj 4) (py_round_ndigits stronger_adj 4))
  end.

(** The integer a double is, when it is one. *)
Definition whole (x : float) : option Z :=
  match FloatOps.Prim2SF x with
  | SpecFloat.S754_zero _ => Some 0%Z
  | SpecFloat.S754_finite s m e =>
      let n := if s then Z.neg m else Z.pos m in
      if (0 <=? e)%Z then Some (n * 2 ^ e)%Z
      else if (Z.pos m mod 2 ^ (- e) =? 0)%Z then Some (n / 2 ^ (- e))%Z
      else None
  | _ => None
  end.

(** [10 ** x] is the C library's [pow(10.0, x)].  Its value is settled
    by the arithmetic alone for a whole exponent [n] of at most 22 in
    size: [10^n] is then a double and is returned as it is, and
    [10^(-n)] comes out as the double nearest to it, which is the
    quotient [1 / 10^n].  Other exponents are left to the library and
    have no value here ([None]). *)
Definition py_pow10 (x : float) : option float :=
  match whole x with
  | Some n =>
      if (Z.abs n <=? 22)%Z then
        if (0 <=? n)%Z then Some (of_int (10 ^ n))
        else Some (1 / of_int (10 ^ (- n)))
      else None
  | None => None
  end.

(** [ELOCalculator.expected_score], on float ratings. *)
Definition expected_score (self : RatingEngine.ELOCalculator)
    (team_elo opponent_elo : float) (is_home : bool) : option float :=
  let home_advantage := of_int (RatingEngine.home_advantage self) in
  let effective_elo := team_elo + (if is_home then home_advantage else 0) in
  let opponent_effective :=
    opponent_elo + (if negb is_home then home_advantage else 0) in
  power ← py_pow10 ((opponent_effective - effective_elo) / 400);
  Some (1 / (1 + power)).

End Binary64.

(** * Properties

    Each property below is numbered after the statement of the
    specification it settles (C1 ... C10). *)

(** ** RatingEngine *)

Section RatingEngineFacts.
Import RealRound RatingEngine.
Local Open Scope R_scope.

(** *** Rounding on reals *)

Lemma Rabs_bound (x a : R) : Rabs x <= a -> - a <= x <= a.
Proof. unfold Rabs. destruct (Rcase_abs x); lra. Qed.

Lemma py_round_nearest (x : R) : Rabs (IZR (py_round x) - x) <= 1 / 2.
Proof.
  unfold py_round.
  pose proof (base_fp x) as [Hlo Hhi].
  assert (Hx : x = IZR (Int_part x) + frac_part x) by (unfold frac_part; lra).
  set (n := Int_part x) in *. set (f := frac_part x) in *.
  destruct (Rlt_dec f (1 / 2)) as [H1 | H1].
  - apply Rabs_le. lra.
  - destruct (Rlt_dec (1 / 2) f) as [H2 | H2].
    + rewrite plus_IZR. apply Rabs_le. lra.
    + destruct (Z.even n); [| rewrite plus_IZR]; apply Rabs_le; lra.
Qed.

Lemma py_round_one_decimal (x : R) :
  Rabs (py_round_ndigits x 1 - x) <= 1 / 20.
Proof.
  unfold py_round_ndigits.
  change (10 ^ Z.of_nat 1)%Z with 10%Z.
  pose proof (py_round_nearest (x * 10)) as H.
  apply Rabs_bound in H. apply Rabs_le. lra.
Qed.

(** *** The MOV multiplier away from its pole

    The dampening term [2.2 / (elo_diff * 0.001 + 2.2)] has a pole at
    [elo_diff = -2200]: positive above it, negative below it. *)

Lemma Rpower_10_pos (x : R) : 0 < Rpower 10 x.
Proof. unfold Rpower. apply exp_pos. Qed.

Lemma denominator_zero_iff (d : R) : d * 0.001 + 2.2 = 0 <-> d = -2200.
Proof. split; intros; lra. Qed.

Lemma mov_value (self : ELOCalculator) (g : Z) (d : R) :
  g <> 0%Z -> d <> -2200 ->
  margin_of_victory_multiplier self g d
  = Ok (ln (IZR (Z.abs g + 1)) * (2.2 / (d * 0.001 + 2.2))).
Proof.
  intros Hg Hd. unfold margin_of_victory_multiplier.
  destruct (Z.eqb_spec g 0) as [|_]; [contradiction|].
  destruct (Req_dec_T (d * 0.001 + 2.2) 0) as [E|_]; [|reflexivity].
  apply denominator_zero_iff in E. contradiction.
Qed.


Lemma ln_goal_factor_pos (g : Z) : g <> 0%Z -> 0 < ln (IZR (Z.abs g + 1)).
Proof.
  intros Hg. rewrite <- ln_1. apply ln_increasing; [lra|].
  apply IZR_lt. lia.
Qed.

Lemma dampening_pos (d : R) : -2200 < d -> 0 < 2.2 / (d * 0.001 + 2.2).
Proof. intros H. apply Rdiv_lt_0_compat; lra. Qed.

Lemma dampening_neg (d : R) : d < -2200 -> 2.2 / (d * 0.001 + 2.2) < 0.
Proof.
  intros H.
  assert (Hd : 0 < - (d * 0.001 + 2.2)) by lra.
  pose proof (Rinv_0_lt_compat _ Hd) as Hi.
  rewrite Rinv_opp in Hi. unfold Rdiv. nra.
Qed.







(** *** The power of ten and its range

    [10 ** x] is in range up to [x = 308] and out of range from
    [x = 309] on (the border lies at about 308.25). *)

Lemma Rpower_10_nat (n : nat) : Rpower 10 (INR n) = IZR (10 ^ Z.of_nat n).
Proof. rewrite Rpower_pow by lra. apply pow_IZR. Qed.

Lemma Rpower_10_mono (x y : R) : x <= y -> Rpower 10 x <= Rpower 10 y.
Proof. intros H. apply Rle_Rpower; lra. Qed.

Lemma py_pow10_in_range (x : R) : x <= 308 -> py_pow10 x = Ok (Rpower 10 x).
Proof.
  intros Hx. unfold py_pow10.
  destruct (Rle_dec DBL_OVERFLOW (Rpower 10 x)) as [Hov|_]; [|reflexivity].
  exfalso. pose proof (Rpower_10_mono x (INR 308)) as Hm.
  rewrite Rpower_10_nat in Hm.
  assert (Hle : DBL_OVERFLOW <= IZR (10 ^ Z.of_nat 308)).
  { apply Rle_trans with (Rpower 10 x); [exact Hov|]. apply Hm.
    rewrite INR_IZR_INZ. exact Hx. }
  unfold DBL_OVERFLOW in Hle. apply le_IZR in Hle.
  apply Z.leb_le in Hle. vm_compute in Hle. discriminate.
Qed.

Lemma py_pow10_out_of_range (x : R) : 309 <= x -> py_pow10 x = Raise OverflowError.
Proof.
  intros Hx. unfold py_pow10.
  destruct (Rle_dec DBL_OVERFLOW (Rpower 10 x)) as [_|Hin]; [reflexivity|].
  exfalso. apply Hin. pose proof (Rpower_10_mono (INR 309) x) as Hm.
  rewrite Rpower_10_nat in Hm.
  apply Rle_trans with (IZR (10 ^ Z.of_nat 309)).
  - unfold DBL_OVERFLOW. apply IZR_le. apply Z.leb_le. vm_compute. reflexivity.
  - apply Hm. rewrite INR_IZR_INZ. exact Hx.
Qed.

Lemma expected_score_in_range (self : ELOCalculator) (team_elo opponent_elo : R)
    (is_home : bool) :
  exponent self team_elo opponent_elo is_home <= 308 ->
  expected_score self team_elo opponent_elo is_home
  = Ok (1 / (1 + Rpower 10 (exponent self team_elo opponent_elo is_home))).
Proof.
  intros Hx. unfold expected_score, exponent in *. cbv zeta.
  rewrite py_pow10_in_range by exact Hx. reflexivity.
Qed.

Lemma expected_score_out_of_range (self : ELOCalculator) (team_elo opponent_elo : R)
    (is_home : bool) :
  309 <= exponent self team_elo opponent_elo is_home ->
  expected_score self team_elo opponent_elo is_home = Raise OverflowError.
Proof.
  intros Hx. unfold expected_score, exponent in *. cbv zeta.
  rewrite py_pow10_out_of_range by exact Hx. reflexivity.
Qed.

Lemma exponent_bound (self : ELOCalculator) (A B : R) (is_home : bool) :
  Rabs (A - B) + Rabs (IZR (home_advantage self)) <= 123200 ->
  exponent self A B is_home <= 308 /\ exponent self B A (negb is_home) <= 308.
Proof.
  intros H. unfold exponent. rewrite negb_involutive.
  revert H. unfold Rabs.
  destruct (Rcase_abs (A - B)), (Rcase_abs (IZR (home_advantage self))), is_home;
    simpl; intros; split; lra.
Qed.

Lemma exponent_opposite (self : ELOCalculator) (A B : R) (is_home : bool) :
  exponent self B A (negb is_home) = - exponent self A B is_home.
Proof. unfold exponent. rewrite negb_involutive. lra. Qed.

Lemma logistic_pair (x : R) :
  1 / (1 + Rpower 10 x) + 1 / (1 + Rpower 10 (- x)) = 1.
Proof.
  rewrite Rpower_Ropp. pose proof (Rpower_10_pos x) as Ht.
  set (t := Rpower 10 x) in *. field. lra.
Qed.

(** C1, amended.  For all ratings [A], [B] whose gap, enlarged by the
    home-advantage bonus, is at most 123200 points, and either value of
    [is_home], the expected score of one side with the flag and of the
    other side with the opposite flag are both returned and add up to 1
    within 1e-9.  Only the home side's effective rating carries the
    bonus: the two closed forms say which rating is raised in each
    case. *)
Theorem expected_score_zero_sum (self : ELOCalculator) (A B : R) (is_home : bool) :
  Rabs (A - B) + Rabs (IZR (home_advantage self)) <= 123200 ->
  exists e1 e2 : R,
    expected_score self A B is_home = Ok e1
    /\ expected_score self B A (negb is_home) = Ok e2
    /\ Rabs (e1 + e2 - 1) <= 1 / 1000000000
    /\ expected_score self A B true
       = Ok (1 / (1 + Rpower 10 ((B - (A + IZR (home_advantage self))) / 400)))
    /\ expected_score self A B false
       = Ok (1 / (1 + Rpower 10 ((B + IZR (home_advantage self) - A) / 400))).
Proof.
  intros Hrange.
  destruct (exponent_bound self A B is_home Hrange) as [H1 H2].
  destruct (exponent_bound self A B true Hrange) as [Ht _].
  destruct (exponent_bound self A B false Hrange) as [Hf _].
  do 2 eexists.
  split; [apply expected_score_in_range, H1|].
  split; [apply expected_score_in_range, H2|].
  split.
  - rewrite exponent_opposite, logistic_pair.
    replace (1 - 1) with 0 by lra. rewrite Rabs_R0. lra.
  - split; rewrite expected_score_in_range by assumption;
      unfold exponent; simpl; do 4 f_equal; lra.
Qed.

(** C1, witness: two sides rated 1500, the first one at home, with the
    default bonus of 100 points. *)
Lemma expected_score_zero_sum_witness :
  exists e1 e2 : R,
    expected_score ELOCalculator_default 1500 1500 true = Ok e1
    /\ expected_score ELOCalculator_default 1500 1500 false = Ok e2
    /\ Rabs (e1 + e2 - 1) <= 1 / 1000000000.
Proof.
  destruct (expected_score_zero_sum ELOCalculator_default 1500 1500 true)
    as (e1 & e2 & H1 & H2 & H3 & _).
  - replace (1500 - 1500) with 0 by lra. rewrite Rabs_R0.
    rewrite Rabs_pos_eq; simpl; lra.
  - exists e1, e2. repeat split; assumption.
Defined.

(** *** Rating change and match processing *)

Lemma calculate_elo_change_total (self : ELOCalculator) (team_elo opponent_elo : R)
    (team_goals opponent_goals : Z) (is_home : bool) :
  exponent self team_elo opponent_elo is_home <= 308 ->
  ~ (use_mov self = true /\ team_goals <> opponent_goals /\
     (if (team_goals >? opponent_goals)%Z then team_elo - opponent_elo
      else opponent_elo - team_elo) = -2200) ->
  exists change,
    calculate_elo_change self team_elo opponent_elo team_goals opponent_goals is_home
    = Ok change.
Proof.
  intros Hx Hns. unfold calculate_elo_change.
  rewrite expected_score_in_range by exact Hx. cbn [mbind result_bind].
  destruct (use_mov self) eqn:Hmov; simpl.
  - destruct (Z.eqb_spec team_goals opponent_goals) as [Heq|Hne]; simpl.
    + eexists; reflexivity.
    + rewrite mov_value; [eexists; reflexivity | lia |].
      intros E. apply Hns. auto.
  - eexists; reflexivity.
Qed.

Lemma calculate_elo_change_singular (self : ELOCalculator) (team_elo opponent_elo : R)
    (team_goals opponent_goals : Z) (is_home : bool) :
  exponent self team_elo opponent_elo is_home <= 308 ->
  use_mov self = true -> team_goals <> opponent_goals ->
  (if (team_goals >? opponent_goals)%Z then team_elo - opponent_elo
   else opponent_elo - team_elo) = -2200 ->
  calculate_elo_change self team_elo opponent_elo team_goals opponent_goals is_home
  = Raise ZeroDivisionError.
Proof.
  intros Hx Hmov Hne E. unfold calculate_elo_change.
  rewrite expected_score_in_range by exact Hx. cbn [mbind result_bind].
  rewrite Hmov, E.
  destruct (Z.eqb_spec team_goals opponent_goals) as [|_]; [contradiction|]. simpl.
  unfold margin_of_victory_multiplier.
  destruct (Z.eqb_spec (Z.abs (team_goals - opponent_goals)) 0) as [H0|_]; [lia|].
  destruct (Req_dec_T (-2200 * 0.001 + 2.2) 0) as [_|H]; [reflexivity | exfalso; lra].
Qed.

Lemma calculate_elo_change_draw (self : ELOCalculator) (team_elo opponent_elo e : R)
    (goals : Z) (is_home : bool) :
  expected_score self team_elo opponent_elo is_home = Ok e ->
  calculate_elo_change self team_elo opponent_elo goals goals is_home
  = Ok (IZR (k_factor self) * (0.5 - e)).
Proof.
  intros He. unfold calculate_elo_change. rewrite He. cbn [mbind result_bind].
  rewrite Z.gtb_ltb, Z.ltb_irrefl, Z.eqb_refl, andb_false_r. reflexivity.
Qed.

Lemma plausible_exponents (self : ELOCalculator) (home_elo away_elo : Z) :
  plausible self home_elo away_elo ->
  exponent self (IZR home_elo) (IZR away_elo) true <= 308
  /\ exponent self (IZR away_elo) (IZR home_elo) false <= 308.
Proof.
  unfold plausible, exponent. intros H. simpl.
  assert (H1 : (away_elo - (home_elo + home_advantage self) <= 123200)%Z) by lia.
  assert (H2 : (- 123200 <= away_elo - (home_elo + home_advantage self))%Z) by lia.
  apply IZR_le in H1, H2. rewrite minus_IZR, plus_IZR in H1, H2.
  split; lra.
Qed.

Lemma process_match_total (self : ELOCalculator) (home_team away_team : string)
    (home_goals away_goals : Z) (match_date : string) (update_history : bool) :
  plausible self (get_current_elo self home_team) (get_current_elo self away_team) ->
  ~ mov_singular self (get_current_elo self home_team)
      (get_current_elo self away_team) home_goals away_goals ->
  exists home_change away_change,
    calculate_elo_change self (IZR (get_current_elo self home_team))
      (IZR (get_current_elo self away_team)) home_goals away_goals true
    = Ok home_change
    /\ calculate_elo_change self (IZR (get_current_elo self away_team))
         (IZR (get_current_elo self home_team)) away_goals home_goals false
       = Ok away_change
    /\ process_match self home_team away_team home_goals away_goals match_date
         update_history
       = Ok (mkELOCalculator (k_factor self) (home_advantage self) (use_mov self)
               (default_elo self)
               (<[away_team := py_round (IZR (get_current_elo self away_team) + away_change)]>
                  (<[home_team := py_round (IZR (get_current_elo self home_team) + home_change)]>
                     (current_elo self)))
               (if update_history then
                  history_push away_team
                    (mkEntry match_date
                       (py_round (IZR (get_current_elo self away_team) + away_change)))
                    (history_push home_team
                       (mkEntry match_date
                          (py_round (IZR (get_current_elo self home_team) + home_change)))
                       (history_ensure away_team
                          (history_ensure home_team (elo_history self))))
                else elo_history self),
             (py_round (IZR (get_current_elo self home_team) + home_change),
              py_round (IZR (get_current_elo self away_team) + away_change),
              py_round_ndigits home_change 1, py_round_ndigits away_change 1)).
Proof.
  intros Hrange Hns. unfold mov_singular, winner_elo_diff in Hns.
  set (he := get_current_elo self home_team) in *.
  set (ae := get_current_elo self away_team) in *.
  destruct (plausible_exponents self he ae Hrange) as [Hxh Hxa].
  destruct (calculate_elo_change_total self (IZR he) (IZR ae) home_goals away_goals true
              Hxh) as [dh Hh].
  { intros (Hm & Hne & E). apply Hns. repeat split; try assumption.
    destruct (home_goals >? away_goals)%Z; apply eq_IZR; rewrite minus_IZR; exact E. }
  destruct (calculate_elo_change_total self (IZR ae) (IZR he) away_goals home_goals false
              Hxa) as [da Ha].
  { intros (Hm & Hne & E). apply Hns. repeat split; try assumption; [congruence|].
    destruct (Z.gtb_spec away_goals home_goals), (Z.gtb_spec home_goals away_goals);
      try lia; apply eq_IZR; rewrite minus_IZR; exact E. }
  exists dh, da. repeat split; try assumption.
  unfold process_match. fold (get_current_elo self home_team).
  fold (get_current_elo self away_team). fold he ae.
  rewrite Hh, Ha. reflexivity.
Qed.

(** *** The history map *)

Lemma history_ensure_lookup (t x : string) (h : gmap string (list HistoryEntry)) :
  default [] (history_ensure t h !! x) = default [] (h !! x).
Proof.
  unfold history_ensure. destruct (h !! t) eqn:E; [reflexivity|].
  destruct (decide (t = x)) as [->|Hne].
  - rewrite lookup_insert_eq, E. reflexivity.
  - rewrite lookup_insert_ne by assumption. reflexivity.
Qed.

Lemma history_push_lookup (t x : string) (e : HistoryEntry)
    (h : gmap string (list HistoryEntry)) :
  default [] (history_push t e h !! x)
  = default [] (h !! x) ++ (if decide (x = t) then [e] else []).
Proof.
  unfold history_push. destruct (decide (x = t)) as [->|Hne].
  - rewrite lookup_insert_eq. reflexivity.
  - rewrite lookup_insert_ne by congruence. rewrite app_nil_r. reflexivity.
Qed.

Lemma history_push_lookup_eq (t : string) (e : HistoryEntry)
    (h : gmap string (list HistoryEntry)) :
  history_push t e h !! t = Some (default [] (h !! t) ++ [e]).
Proof. unfold history_push. apply lookup_insert_eq. Qed.

Lemma history_push_lookup_ne (t x : string) (e : HistoryEntry)
    (h : gmap string (list HistoryEntry)) :
  x <> t -> history_push t e h !! x = h !! x.
Proof. intros H. unfold history_push. apply lookup_insert_ne. congruence. Qed.

Lemma history_after_match (home_team away_team x : string) (eh ea : HistoryEntry)
    (h : gmap string (list HistoryEntry)) :
  default []
    (history_push away_team ea
       (history_push home_team eh
          (history_ensure away_team (history_ensure home_team h))) !! x)
  = default [] (h !! x)
    ++ (if decide (x = home_team) then [eh] else [])
    ++ (if decide (x = away_team) then [ea] else []).
Proof.
  rewrite !history_push_lookup, !history_ensure_lookup, <- app_assoc. reflexivity.
Qed.


(** C4.  The code at a failing input.  With MOV on, a home side rated
    1000 beating a side rated 3200 is an upset by a winner rated exactly
    2200 below the loser: the dampening term of the MOV multiplier
    divides by [(-2200 * 0.001) + 2.2 = 0], so [process_match] raises
    [ZeroDivisionError] in place of committing the two ratings and
    returning them. *)
Theorem process_match_raises_at_gap_2200 :
  process_match
    (mkELOCalculator 20 100 true 1500
       (<["Minnows" := 1000%Z]> (<["Giants" := 3200%Z]> ∅)) ∅)
    "Minnows" "Giants" 1 0 "2024-08-17" true
  = Raise ZeroDivisionError.
Proof.
  unfold process_match.
  simpl use_mov. simpl default_elo. simpl current_elo.
  replace ((<["Minnows" := 1000%Z]> (<["Giants" := 3200%Z]> ∅) : gmap string Z) !! "Minnows")
    with (Some 1000%Z) by reflexivity.
  replace ((<["Minnows" := 1000%Z]> (<["Giants" := 3200%Z]> ∅) : gmap string Z) !! "Giants")
    with (Some 3200%Z) by reflexivity.
  simpl default.
  rewrite (calculate_elo_change_singular _ (IZR 1000) (IZR 3200) 1 0 true);
    [reflexivity | unfold exponent; simpl; lra | reflexivity | discriminate
     | simpl; lra].
Qed.

(** X28.  On plausible numbers and away from the pole of the MOV
    multiplier, [process_match]
      - reads both current ratings, an absent team reading as the
        default rating, and computes one change per side, the home side
        alone flagged home;
      - commits [round(old + change)] for both, each the nearest integer
        (within 1/2 of the unrounded value, and 1e-9 for the rounding of
        the sum on doubles), the away write coming last;
      - appends one entry per side dated [match_date] holding the new
        rating, and leaves every other history as it was;
      - returns the two new ratings and both changes rounded to one
        decimal (within 1/20 of the unrounded change, and 1e-9). *)
Theorem process_match_commits_and_reports (self : ELOCalculator)
    (home_team away_team : string) (home_goals away_goals : Z) (match_date : string) :
  plausible self (get_current_elo self home_team) (get_current_elo self away_team) ->
  ~ mov_singular self (get_current_elo self home_team) (get_current_elo self away_team)
      home_goals away_goals ->
  exists (home_change away_change : R) (new_home_elo new_away_elo : Z)
         (self' : ELOCalculator),
    calculate_elo_change self (IZR (get_current_elo self home_team))
      (IZR (get_current_elo self away_team)) home_goals away_goals true
    = Ok home_change
    /\ calculate_elo_change self (IZR (get_current_elo self away_team))
         (IZR (get_current_elo self home_team)) away_goals home_goals false
       = Ok away_change
    /\ new_home_elo = py_round (IZR (get_current_elo self home_team) + home_change)
    /\ new_away_elo = py_round (IZR (get_current_elo self away_team) + away_change)
    /\ Rabs (IZR new_home_elo - (IZR (get_current_elo self home_team) + home_change))
       <= 1 / 2 + 1 / 1000000000
    /\ Rabs (IZR new_away_elo - (IZR (get_current_elo self away_team) + away_change))
       <= 1 / 2 + 1 / 1000000000
    /\ process_match self home_team away_team home_goals away_goals match_date true
       = Ok (self', (new_home_elo, new_away_elo,
                     py_round_ndigits home_change 1, py_round_ndigits away_change 1))
    /\ Rabs (py_round_ndigits home_change 1 - home_change) <= 1 / 20 + 1 / 1000000000
    /\ Rabs (py_round_ndigits away_change 1 - away_change) <= 1 / 20 + 1 / 1000000000
    /\ (forall team : string,
          current_elo self' !! team
          = if decide (team = away_team) then Some new_away_elo
            else if decide (team = home_team) then Some new_home_elo
            else current_elo self !! team)
    /\ (forall team : string,
          history_of self' team
          = history_of self team
            ++ (if decide (team = home_team)
                then [mkEntry match_date new_home_elo] else [])
            ++ (if decide (team = away_team)
                then [mkEntry match_date new_away_elo] else [])).
Proof.
  intros Hrange Hns.
  destruct (process_match_total self home_team away_team home_goals away_goals
              match_date true Hrange Hns) as (dh & da & Hh & Ha & Hp).
  exists dh, da. do 3 eexists.
  split; [exact Hh|]. split; [exact Ha|].
  split; [reflexivity|]. split; [reflexivity|].
  split; [eapply Rle_trans; [apply py_round_nearest | lra]|].
  split; [eapply Rle_trans; [apply py_round_nearest | lra]|].
  split; [exact Hp|].
  split; [eapply Rle_trans; [apply py_round_one_decimal | lra]|].
  split; [eapply Rle_trans; [apply py_round_one_decimal | lra]|].
  split; intros team.
  - simpl. destruct (decide (team = away_team)) as [->|Hna].
    + apply lookup_insert_eq.
    + rewrite lookup_insert_ne by congruence.
      destruct (decide (team = home_team)) as [->|Hnh].
      * apply lookup_insert_eq.
      * apply lookup_insert_ne. congruence.
  - unfold history_of. simpl. apply history_after_match.
Qed.

(** X28, witness: the first match of two unseen teams, won 2-1 at home. *)
Lemma process_match_commits_and_reports_witness :
  exists (home_change away_change : R) (new_home_elo new_away_elo : Z)
         (self' : ELOCalculator),
    process_match ELOCalculator_default "Arsenal" "Chelsea" 2 1 "2024-08-17" true
    = Ok (self', (new_home_elo, new_away_elo,
                  py_round_ndigits home_change 1, py_round_ndigits away_change 1))
    /\ current_elo self' !! "Arsenal" = Some new_home_elo
    /\ current_elo self' !! "Chelsea" = Some new_away_elo
    /\ history_of self' "Arsenal" = [mkEntry "2024-08-17" new_home_elo]
    /\ history_of self' "Chelsea" = [mkEntry "2024-08-17" new_away_elo].
Proof.
  destruct (process_match_commits_and_reports ELOCalculator_default
              "Arsenal" "Chelsea" 2 1 "2024-08-17")
    as (dh & da & nh & na & s' & _ & _ & _ & _ & _ & _ & Hp & _ & _ & Hc & Hh).
  - unfold plausible. repeat split; vm_compute; discriminate.
  - intros (_ & _ & E). vm_compute in E. discriminate.
  - exists dh, da, nh, na, s'. split; [exact Hp|].
    split; [rewrite Hc; reflexivity|]. split; [rewrite Hc; reflexivity|].
    split; rewrite Hh; reflexivity.
Defined.

(** *** Bounds on the expected score of two equally rated teams *)

Lemma Rpower_10_quarter : 3 / 2 < Rpower 10 (1 / 4).
Proof.
  pose proof (Rpower_10_pos (1 / 4)) as Hpos.
  assert (H4 : Rpower 10 (1 / 4) * Rpower 10 (1 / 4)
               * (Rpower 10 (1 / 4) * Rpower 10 (1 / 4)) = 10).
  { rewrite <- !Rpower_plus.
    replace (1 / 4 + 1 / 4 + (1 / 4 + 1 / 4)) with 1 by lra.
    apply Rpower_1. lra. }
  set (t := Rpower 10 (1 / 4)) in *.
  destruct (Rlt_dec (3 / 2) t) as [|Hn]; [assumption|].
  exfalso. assert (Ht : t <= 3 / 2) by lra.
  assert (H2 : t * t <= 9 / 4) by nra.
  assert (H2' : 0 <= t * t) by nra.
  nra.
Qed.

Lemma expected_score_default_home :
  exists e, expected_score ELOCalculator_default 1500 1500 true = Ok e /\ 3 / 5 < e.
Proof.
  eexists. split.
  - apply expected_score_in_range. unfold exponent. simpl. lra.
  - unfold exponent. simpl.
    replace ((1500 + 0 - (1500 + 100)) / 400) with (- (1 / 4)) by lra.
    rewrite Rpower_Ropp.
    pose proof Rpower_10_quarter as Ht. set (t := Rpower 10 (1 / 4)) in *.
    assert (Hi : / t < 2 / 3).
    { replace (2 / 3) with (/ (3 / 2)) by lra.
      apply Rinv_lt_contravar; nra. }
    assert (Hp : 0 < / t) by (apply Rinv_0_lt_compat; lra).
    apply Rmult_lt_reg_r with (1 + / t); [lra|].
    unfold Rdiv. rewrite Rmult_1_l, Rinv_l by lra. lra.
Qed.

Lemma expected_score_default_away :
  exists e, expected_score ELOCalculator_default 1500 1500 false = Ok e /\ e < 2 / 5.
Proof.
  eexists. split.
  - apply expected_score_in_range. unfold exponent. simpl. lra.
  - unfold exponent. simpl.
    replace ((1500 + 100 - (1500 + 0)) / 400) with (1 / 4) by lra.
    pose proof Rpower_10_quarter as Ht. set (t := Rpower 10 (1 / 4)) in *.
    apply Rmult_lt_reg_r with (1 + t); [lra|].
    unfold Rdiv. rewrite Rmult_1_l, Rinv_l by lra. lra.
Qed.

(** A first match of the default calculator is plausible. *)
Lemma default_plausible (home_team away_team : string) :
  plausible ELOCalculator_default
    (get_current_elo ELOCalculator_default home_team)
    (get_current_elo ELOCalculator_default away_team).
Proof. unfold plausible. repeat split; vm_compute; discriminate. Qed.

Lemma draw_not_singular (self : ELOCalculator) (home_elo away_elo goals : Z) :
  ~ mov_singular self home_elo away_elo goals goals.
Proof. intros (_ & Hne & _). apply Hne. reflexivity. Qed.

(** C9, counterexample.  Two calls after which the claim fails: a call
    with [update_history = false] appends nothing; and a call whose home
    and away team are the same team appends two entries of which the
    first differs from the committed rating (the away write wins). *)
Lemma history_skipped_or_overwritten :
  (exists self' out,
     process_match ELOCalculator_default "Arsenal" "Chelsea" 1 1 "2024-08-17" false
     = Ok (self', out)
     /\ history_of self' "Arsenal" = [] /\ history_of self' "Chelsea" = [])
  /\ (exists self' out e1 e2,
        process_match ELOCalculator_default "Arsenal" "Arsenal" 1 1 "2024-08-17" true
        = Ok (self', out)
        /\ history_of self' "Arsenal" = [e1; e2]
        /\ current_elo self' !! "Arsenal" = Some (elo e2)
        /\ elo e1 <> elo e2).
Proof.
  split.
  - destruct (process_match_total ELOCalculator_default "Arsenal" "Chelsea" 1 1
                "2024-08-17" false (default_plausible _ _) (draw_not_singular _ _ _ _))
      as (dh & da & _ & _ & Hp).
    do 2 eexists. split; [exact Hp|]. split; reflexivity.
  - destruct (process_match_total ELOCalculator_default "Arsenal" "Arsenal" 1 1
                "2024-08-17" true (default_plausible _ _) (draw_not_singular _ _ _ _))
      as (dh & da & Hh & Ha & Hp).
    do 4 eexists. split; [exact Hp|]. split; [reflexivity|].
    split; [reflexivity|].
    change (get_current_elo ELOCalculator_default "Arsenal") with 1500%Z in *.
    destruct expected_score_default_home as (eh & Heh & Hbh).
    destruct expected_score_default_away as (ea & Hea & Hba).
    rewrite (calculate_elo_change_draw _ _ _ eh) in Hh by exact Heh.
    rewrite (calculate_elo_change_draw _ _ _ ea) in Ha by exact Hea.
    injection Hh as <-. injection Ha as <-.
    simpl elo. simpl k_factor. intros E. apply (f_equal IZR) in E. revert E.
    match goal with |- IZR (py_round ?x) = IZR (py_round ?y) -> _ =>
      pose proof (Rabs_bound _ _ (py_round_nearest x));
      pose proof (Rabs_bound _ _ (py_round_nearest y)) end.
    lra.
Qed.

(** C9, amended.  After every [process_match] call that records history
    ([update_history = true], the default) between two distinct teams, one
    entry has been appended to the history of each, dated [match_date],
    and the rating in it is that team's committed current rating. *)
Theorem history_entry_matches_committed_rating (self self' : ELOCalculator)
    (home_team away_team : string) (home_goals away_goals : Z) (match_date : string)
    (out : Z * Z * R * R) :
  home_team <> away_team ->
  process_match self home_team away_team home_goals away_goals match_date true
  = Ok (self', out) ->
  exists home_entry away_entry : HistoryEntry,
    elo_history self' !! home_team = Some (history_of self home_team ++ [home_entry])
    /\ elo_history self' !! away_team = Some (history_of self away_team ++ [away_entry])
    /\ date home_entry = match_date /\ date away_entry = match_date
    /\ current_elo self' !! home_team = Some (elo home_entry)
    /\ current_elo self' !! away_team = Some (elo away_entry).
Proof.
  intros Hne Hp. unfold process_match in Hp.
  destruct (calculate_elo_change self _ _ home_goals away_goals true) as [dh|];
    [|discriminate].
  destruct (calculate_elo_change self _ _ away_goals home_goals false) as [da|];
    [|discriminate].
  simpl in Hp. injection Hp as <- _. cbn [elo_history current_elo].
  do 2 eexists. repeat split.
  - rewrite history_push_lookup_ne by congruence.
    rewrite history_push_lookup_eq, !history_ensure_lookup. reflexivity.
  - rewrite history_push_lookup_eq, history_push_lookup, !history_ensure_lookup.
    destruct (decide (away_team = home_team)); [congruence|].
    rewrite app_nil_r. reflexivity.
  - reflexivity.
  - reflexivity.
  - rewrite lookup_insert_ne by congruence. apply lookup_insert_eq.
  - apply lookup_insert_eq.
Qed.

(** C9, witness: a 1-1 draw between two unseen teams. *)
Lemma history_entry_matches_committed_rating_witness :
  exists (self' : ELOCalculator) (out : Z * Z * R * R)
         (home_entry away_entry : HistoryEntry),
    process_match ELOCalculator_default "Arsenal" "Chelsea" 1 1 "2024-08-17" true
    = Ok (self', out)
    /\ elo_history self' !! "Arsenal" = Some [home_entry]
    /\ elo_history self' !! "Chelsea" = Some [away_entry]
    /\ current_elo self' !! "Arsenal" = Some (elo home_entry)
    /\ current_elo self' !! "Chelsea" = Some (elo away_entry).
Proof.
  destruct (process_match_total ELOCalculator_default "Arsenal" "Chelsea" 1 1
              "2024-08-17" true (default_plausible _ _) (draw_not_singular _ _ _ _))
    as (dh & da & _ & _ & Hp).
  destruct (history_entry_matches_committed_rating _ _ "Arsenal" "Chelsea" 1 1
              "2024-08-17" _ ltac:(discriminate) Hp)
    as (eh & ea & H1 & H2 & _ & _ & H3 & H4).
  eexists _, _, eh, ea. split; [exact Hp|]. repeat split; assumption.
Defined.

End RatingEngineFacts.

(** ** Rounding and division on rationals *)

Section RationalRounding.
Import RatRound.
Local Open Scope Q_scope.

Lemma inject_Z_succ (n : Z) : inject_Z (n + 1) == inject_Z n + 1.
Proof. rewrite inject_Z_plus. reflexivity. Qed.

Lemma rat_round_nearest (q : Q) :
  inject_Z (py_round q) - q <= 1 # 2 /\ q - inject_Z (py_round q) <= 1 # 2.
Proof.
  unfold py_round.
  pose proof (Qfloor_le q) as Hlo. pose proof (Qlt_floor q) as Hhi.
  rewrite inject_Z_succ in Hhi.
  set (n := Qfloor q) in *.
  destruct (Qcompare_spec (q - inject_Z n) (1 # 2)) as [E|L|G].
  - destruct (Z.even n); [| rewrite inject_Z_succ]; split; lra.
  - split; lra.
  - rewrite inject_Z_succ. split; lra.
Qed.

Lemma py_div_ok (a b : Q) : ~ b == 0 -> py_div a b = Ok (a / b).
Proof.
  intros Hb. unfold py_div.
  destruct (Qeq_bool b 0) eqn:E; [|reflexivity].
  apply Qeq_bool_iff in E. contradiction.
Qed.

Lemma py_div_zero (a b : Q) : b == 0 -> py_div a b = Raise ZeroDivisionError.
Proof.
  intros Hb. unfold py_div. apply Qeq_bool_iff in Hb. rewrite Hb. reflexivity.
Qed.

(** Three numbers that add up to 1, each rounded to four decimals, add
    up to a multiple of 1/10000 no further than 3/20000 from 1, hence to
    0.9999, 1 or 1.0001. *)
Lemma rounded_distribution_sum (a b c : Q) :
  a + b + c == 1 ->
  Qabs (py_round_ndigits a 4 + py_round_ndigits b 4 + py_round_ndigits c 4 - 1)
  <= 1 # 10000.
Proof.
  intros Hsum. unfold py_round_ndigits.
  change (inject_Z (10 ^ Z.of_nat 4)) with 10000%Q.
  destruct (rat_round_nearest (a * 10000)) as [Ha1 Ha2].
  destruct (rat_round_nearest (b * 10000)) as [Hb1 Hb2].
  destruct (rat_round_nearest (c * 10000)) as [Hc1 Hc2].
  generalize dependent (py_round (a * 10000)). intros A Ha1 Ha2.
  generalize dependent (py_round (b * 10000)). intros B Hb1 Hb2.
  generalize dependent (py_round (c * 10000)). intros C Hc1 Hc2.
  assert (Hup : (A + B + C < 10002)%Z).
  { rewrite Zlt_Qlt, !inject_Z_plus.
    change (inject_Z 10002) with 10002%Q. lra. }
  assert (Hdn : (9998 < A + B + C)%Z).
  { rewrite Zlt_Qlt, !inject_Z_plus.
    change (inject_Z 9998) with 9998%Q. lra. }
  assert (Hz1 : (9999 <= A + B + C)%Z) by lia.
  assert (Hz2 : (A + B + C <= 10001)%Z) by lia.
  rewrite Zle_Qle, !inject_Z_plus in Hz1, Hz2.
  change (inject_Z 9999) with 9999%Q in Hz1.
  change (inject_Z 10001) with 10001%Q in Hz2.
  unfold Qdiv. change (/ 10000) with (1 # 10000).
  apply Qabs_Qle_condition. split; lra.
Qed.

End RationalRounding.

(** ** VenueProbabilityModel *)

Section VenueFacts.
Import RatRound VenueProbabilityModel.
Local Open Scope Q_scope.

Lemma band_number_range (elo_diff : Z) :
  (0 <= elo_diff -> 1 <= band_number elo_diff <= 10)%Z.
Proof.
  intros H. unfold band_number.
  pose proof (Z.div_pos elo_diff 50 H ltac:(lia)). lia.
Qed.

Lemma adjust_stronger_win (p : Q) (h : bool) :
  adjust_probability_for_venue p h "stronger_win"
  = if h then p * HOME_ADVANTAGE_MULTIPLIER else p * AWAY_DISADVANTAGE_MULTIPLIER.
Proof. reflexivity. Qed.

Lemma adjust_weaker_win (p : Q) (h : bool) :
  adjust_probability_for_venue p h "weaker_win"
  = if h then p * AWAY_DISADVANTAGE_MULTIPLIER else p * HOME_ADVANTAGE_MULTIPLIER.
Proof. reflexivity. Qed.

Lemma adjust_draw (p : Q) (h : bool) :
  adjust_probability_for_venue p h "draw"
  = if h then p * DRAW_HOME_MULTIPLIER else p * DRAW_AWAY_MULTIPLIER.
Proof. reflexivity. Qed.

Lemma adjusted_total_pos (s d w : Q) (h : bool) :
  0 <= s -> 0 <= d -> 0 <= w -> 0 < s + d + w ->
  0 < adjust_probability_for_venue s h "stronger_win"
      + adjust_probability_for_venue w h "weaker_win"
      + adjust_probability_for_venue d h "draw".
Proof.
  intros Hs Hd Hw Hsum.
  rewrite adjust_stronger_win, adjust_weaker_win, adjust_draw.
  unfold HOME_ADVANTAGE_MULTIPLIER, AWAY_DISADVANTAGE_MULTIPLIER,
    DRAW_HOME_MULTIPLIER, DRAW_AWAY_MULTIPLIER.
  destruct h; lra.
Qed.

(** The tolerance of the sum of the three probabilities: 1/10000 for the
    three roundings to four decimals, and 1/1000000000 on top of it,
    which covers the rounding of the sum itself when the three doubles
    are added. *)
Lemma within_tolerance (x : Q) :
  Qabs x <= 1 # 10000 -> Qabs x <= (1 # 10000) + (1 # 1000000000).
Proof. intros H. eapply Qle_trans; [exact H|]. vm_compute. discriminate. Qed.

(** C5, amended.  Whenever the band of the rating gap is in the table
    and its three percentages are frequencies (each between 0 and 1, not
    all zero), the venue-adjusted probabilities are returned and
    [home_win + draw + away_win] is within 1/10000 + 1/1000000000 of 1.
    The ratings are arbitrary, so every band 1-10 and both the
    stronger-home and the stronger-away branch are covered. *)
Theorem venue_probabilities_sum_to_one (home_elo away_elo : Z)
    (elo_bands : list EloBand) (band_data : EloBand) :
  find_band (band_number (Z.abs (home_elo - away_elo))) elo_bands = Some band_data ->
  frequencies band_data ->
  exists probs : Probabilities,
    get_venue_adjusted_probabilities home_elo away_elo elo_bands = Ok probs
    /\ Qabs (home_win probs + draw probs + away_win probs - 1)
       <= (1 # 10000) + (1 # 1000000000).
Proof.
  intros Hfind ([Hs _] & [Hd _] & [Hw _] & Hsum).
  unfold get_venue_adjusted_probabilities. rewrite Hfind.
  pose proof (adjusted_total_pos _ _ _ (home_elo >=? away_elo)%Z Hs Hd Hw Hsum) as Ht.
  set (sa := adjust_probability_for_venue _ _ "stronger_win") in *.
  set (wa := adjust_probability_for_venue _ _ "weaker_win") in *.
  set (da := adjust_probability_for_venue _ _ "draw") in *.
  assert (Hne : ~ sa + wa + da == 0) by lra.
  rewrite !py_div_ok by exact Hne. cbn [mbind result_bind].
  destruct (home_elo >=? away_elo)%Z; eexists; (split; [reflexivity|]);
    cbn [home_win draw away_win]; apply within_tolerance;
    apply rounded_distribution_sum; field; exact Hne.
Qed.

(** C5, witness: gap 115 (band 3), stronger team away. *)
Lemma venue_probabilities_sum_to_one_witness :
  exists probs : Probabilities,
    get_venue_adjusted_probabilities 1720 1835
      [mkEloBand 2 0.45 0.27 0.28; mkEloBand 3 0.52 0.25 0.23] = Ok probs
    /\ Qabs (home_win probs + draw probs + away_win probs - 1)
       <= (1 # 10000) + (1 # 1000000000).
Proof.
  apply (venue_probabilities_sum_to_one 1720 1835
           [mkEloBand 2 0.45 0.27 0.28; mkEloBand 3 0.52 0.25 0.23]
           (mkEloBand 3 0.52 0.25 0.23)).
  - reflexivity.
  - unfold frequencies. simpl. repeat split; vm_compute; discriminate || reflexivity.
Defined.



(** C7.  The code at a failing input.  Gap 0 is band 1; the table holds
    band 2 only.  [get_venue_adjusted_probabilities] and the first
    definition of [calculate_fair_odds] answer with the uniform fallback
    0.333 / 0.333 / 0.334; the effective [calculate_fair_odds] answers
    with the venue-adjusted figures of band 2, the first entry of the
    table (0.5452 / 0.28 / 0.1749), and on the empty table it raises
    [IndexError]. *)
Theorem fair_odds_band_miss_uses_first_entry :
  find_band (band_number (Z.abs (1500 - 1500))) [mkEloBand 2 0.5 0.3 0.2] = None
  /\ get_venue_adjusted_probabilities 1500 1500 [mkEloBand 2 0.5 0.3 0.2]
     = Ok (mkProbabilities 0.333 0.333 0.334)
  /\ (exists r : FairOdds,
        calculate_fair_odds_first 1500 1500 [mkEloBand 2 0.5 0.3 0.2] = Ok r
        /\ reported_probabilities r = mkProbabilities 0.333 0.333 0.334)
  /\ (exists r : FairOdds,
        calculate_fair_odds 1500 1500 [mkEloBand 2 0.5 0.3 0.2] = Ok r
        /\ home_win (reported_probabilities r) == 0.5452
        /\ draw (reported_probabilities r) == 0.28
        /\ away_win (reported_probabilities r) == 0.1749
        /\ ~ home_win (reported_probabilities r) == 0.333)
  /\ calculate_fair_odds 1500 1500 [] = Raise IndexError.
Proof.
  split; [reflexivity|]. split; [reflexivity|].
  split; [eexists; split; vm_compute; reflexivity|].
  split; [|reflexivity].
  eexists. split; [vm_compute; reflexivity|].
  repeat split; vm_compute; reflexivity || discriminate.
Qed.

(** *** Fair odds *)

Lemma market_odds_ok (p q : Q) :
  ~ q == 0 -> market_odds p q = Ok (mkMarketOdds p (py_round_ndigits (1 / q) 2)).
Proof. intros Hq. unfold market_odds. rewrite py_div_ok by exact Hq. reflexivity. Qed.

Lemma market_odds_zero (p q : Q) :
  q == 0 -> market_odds p q = Raise ZeroDivisionError.
Proof. intros Hq. unfold market_odds. rewrite py_div_zero by exact Hq. reflexivity. Qed.

Lemma market_odds_cases (p q : Q) :
  market_odds p q = Raise ZeroDivisionError \/ exists m, market_odds p q = Ok m.
Proof.
  unfold market_odds, py_div. destruct (Qeq_bool q 0); [left | right; eexists]; reflexivity.
Qed.

Lemma three_markets_raise (p1 q1 p2 q2 p3 q3 : Q)
    (k : MarketOdds -> MarketOdds -> MarketOdds -> FairOdds) :
  q1 == 0 \/ q2 == 0 \/ q3 == 0 ->
  (h ← market_odds p1 q1; d ← market_odds p2 q2; a ← market_odds p3 q3; Ok (k h d a))
  = Raise ZeroDivisionError.
Proof.
  intros Hz.
  destruct (market_odds_cases p1 q1) as [E1|[m1 E1]]; rewrite E1; [reflexivity|].
  destruct (market_odds_cases p2 q2) as [E2|[m2 E2]]; cbn [mbind result_bind];
    rewrite E2; [reflexivity|].
  destruct (market_odds_cases p3 q3) as [E3|[m3 E3]]; cbn [mbind result_bind];
    rewrite E3; [reflexivity|].
  destruct Hz as [H|[H|H]];
    [apply (market_odds_zero p1) in H | apply (market_odds_zero p2) in H
     | apply (market_odds_zero p3) in H]; congruence.
Qed.

(** Any zero frequency in the band that is looked up makes
    [calculate_fair_odds] raise. *)
Lemma fair_odds_raise_on_zero_frequency (home_elo away_elo : Z)
    (elo_bands : list EloBand) (band_data : EloBand) :
  find_band (band_number (Z.abs (home_elo - away_elo))) elo_bands = Some band_data ->
  stronger_win_pct band_data == 0 \/ draw_pct band_data == 0
    \/ weaker_win_pct band_data == 0 ->
  calculate_fair_odds home_elo away_elo elo_bands = Raise ZeroDivisionError.
Proof.
  intros Hfind Hz. unfold calculate_fair_odds. rewrite Hfind. cbn [mbind result_bind].
  rewrite adjust_stronger_win, adjust_weaker_win, adjust_draw.
  set (h := (home_elo >=? away_elo)%Z).
  set (sa := if h then stronger_win_pct band_data * _ else _).
  set (wa := if h then weaker_win_pct band_data * _ else _).
  set (da := if h then draw_pct band_data * _ else _).
  assert (Hadj : sa == 0 \/ da == 0 \/ wa == 0).
  { subst sa wa da. destruct Hz as [H|[H|H]]; [left | right; left | right; right];
      destruct h; rewrite H; reflexivity. }
  unfold py_div at 1 2 3. destruct (Qeq_bool (sa + da + wa) 0); [reflexivity|].
  cbn [mbind result_bind]. apply three_markets_raise.
  assert (Hdiv : forall x, x == 0 -> x / (sa + da + wa) == 0).
  { intros x Hx. rewrite Hx. reflexivity. }
  destruct h; destruct Hadj as [H|[H|H]]; auto.
Qed.

(** With three positive frequencies [calculate_fair_odds] returns, and the
    probabilities it reports add up to 1 within the same tolerance. *)
Lemma fair_odds_probabilities_sum_to_one (home_elo away_elo : Z)
    (elo_bands : list EloBand) (band_data : EloBand) :
  find_band (band_number (Z.abs (home_elo - away_elo))) elo_bands = Some band_data ->
  0 < stronger_win_pct band_data ->
  0 < draw_pct band_data ->
  0 < weaker_win_pct band_data ->
  exists r : FairOdds,
    calculate_fair_odds home_elo away_elo elo_bands = Ok r
    /\ Qabs (home_win (reported_probabilities r) + draw (reported_probabilities r)
             + away_win (reported_probabilities r) - 1)
       <= (1 # 10000) + (1 # 1000000000).
Proof.
  intros Hfind Hs Hd Hw. unfold calculate_fair_odds. rewrite Hfind.
  cbn [mbind result_bind].
  rewrite adjust_stronger_win, adjust_weaker_win, adjust_draw.
  set (h := (home_elo >=? away_elo)%Z).
  set (sa := if h then stronger_win_pct band_data * _ else _).
  set (wa := if h then weaker_win_pct band_data * _ else _).
  set (da := if h then draw_pct band_data * _ else _).
  assert (Hsa : 0 < sa).
  { subst sa. unfold HOME_ADVANTAGE_MULTIPLIER, AWAY_DISADVANTAGE_MULTIPLIER.
    destruct h; lra. }
  assert (Hwa : 0 < wa).
  { subst wa. unfold HOME_ADVANTAGE_MULTIPLIER, AWAY_DISADVANTAGE_MULTIPLIER.
    destruct h; lra. }
  assert (Hda : 0 < da).
  { subst da. unfold DRAW_HOME_MULTIPLIER, DRAW_AWAY_MULTIPLIER. destruct h; lra. }
  clearbody sa wa da.
  assert (Ht : 0 < sa + da + wa) by lra.
  assert (Hne : ~ sa + da + wa == 0) by lra.
  assert (Hq : forall x, 0 < x -> ~ x / (sa + da + wa) == 0).
  { intros x Hx E. apply (Qmult_lt_0_compat x (/ (sa + da + wa))) in Hx.
    - unfold Qdiv in E. lra.
    - apply Qinv_lt_0_compat. exact Ht. }
  rewrite !py_div_ok by exact Hne. cbn [mbind result_bind].
  destruct h; rewrite !market_odds_ok by auto; cbn [mbind result_bind];
    eexists; (split; [reflexivity|]);
    unfold reported_probabilities;
    cbn [home_win draw away_win probability odds_home_win odds_draw odds_away_win];
    apply within_tolerance; apply rounded_distribution_sum; field; exact Hne.
Qed.

(** C3, the code at a failing input.  Band 10 with no recorded win of the
    weaker side (frequency 0): both definitions of [calculate_fair_odds]
    divide 1 by the zero probability and raise [ZeroDivisionError];
    nothing rejects or clamps the probability before the division. *)
Theorem fair_odds_zero_probability_raises :
  calculate_fair_odds 2000 1500
    [mkEloBand 1 0.4 0.3 0.3; mkEloBand 10 0.9 0.1 0]
  = Raise ZeroDivisionError
  /\ calculate_fair_odds_first 2000 1500
       [mkEloBand 1 0.4 0.3 0.3; mkEloBand 10 0.9 0.1 0]
     = Raise ZeroDivisionError.
Proof. split; vm_compute; reflexivity. Qed.

End VenueFacts.

(** ** Binary64: where the rounding decides *)

Section Binary64Facts.
Import PrimFloat.
Local Open Scope float_scope.
#[local] Set Warnings "-inexact-float".

(** C1, counterexample.  On doubles the two expected scores of a side
    rated 1500 at home (bonus 100) and a side rated 2800 are
    [1 / (1 + 10 ** 3.0)] and [1 / (1 + 10 ** -3.0)]: their sum is
    1.0000000000000002, not 1.0.  And for the ratings 0 and 200000 the
    power [10 ** 499.75] is out of range: the call raises
    [OverflowError] and there is no sum. *)
Lemma expected_score_sum_not_exact :
  (exists e1 e2 : float,
     Binary64.expected_score RatingEngine.ELOCalculator_default 1500 2800 true = Some e1
     /\ Binary64.expected_score RatingEngine.ELOCalculator_default 2800 1500 false
        = Some e2
     /\ e1 + e2 = 1.0000000000000002
     /\ (e1 + e2 =? 1) = false)
  /\ RatingEngine.expected_score RatingEngine.ELOCalculator_default 0%R 200000%R true
     = Raise OverflowError.
Proof.
  split.
  - do 2 eexists. repeat split; vm_compute; reflexivity.
  - apply expected_score_out_of_range. unfold RatingEngine.exponent. simpl. lra.
Qed.

(** C5, counterexample.  Band 1 with the frequencies 0.44 / 0.27 / 0.29
    (they add up to 1), equal ratings: the code returns the doubles
    0.4869, 0.2557 and 0.2573.  Their sum is 0.9998999999999999, further
    than 1e-4 from 1.0, whether the three are added as doubles or as the
    exact numbers they stand for.  And a band whose three percentages
    are 0 makes the normalisation divide by zero. *)
Lemma venue_sum_exceeds_tolerance :
  (exists probs : Binary64.Probabilities,
     Binary64.get_venue_adjusted_probabilities 1500 1500
       [Binary64.mkEloBand 1 0.44 0.27 0.29] = Ok probs
     /\ probs = Binary64.mkProbabilities 0.4869 0.2557 0.2573
     /\ (abs (Binary64.home_win probs + Binary64.draw probs + Binary64.away_win probs - 1)
         <=? 0.0001) = false
     /\ (Binary64.to_Q (Binary64.home_win probs) + Binary64.to_Q (Binary64.draw probs)
         + Binary64.to_Q (Binary64.away_win probs) < 1 - (1 # 10000))%Q)
  /\ Binary64.get_venue_adjusted_probabilities 1500 1500 [Binary64.mkEloBand 1 0 0 0]
     = Raise ZeroDivisionError
  /\ VenueProbabilityModel.get_venue_adjusted_probabilities 1500 1500
       [VenueProbabilityModel.mkEloBand 1 0 0 0]
     = Raise ZeroDivisionError.
Proof.
  split; [|split; vm_compute; reflexivity].
  eexists. split; [vm_compute; reflexivity|].
  repeat split; vm_compute; reflexivity.
Qed.

End Binary64Facts.

(** ** CalibrationEstimator *)

Section CalibrationFacts.
Import RatRound CalibrationEstimator.
Local Open Scope Z_scope.

(** The loop counts, in [total], the kept matches of each group. *)
Lemma tally_match_totals (acc : Tally * Tally) (m : MatchRecord) :
  total (fst (tally_match acc m))
  = total (fst acc) + (if rated m && stronger_is_home m then 1 else 0)
  /\ total (snd (tally_match acc m))
     = total (snd acc) + (if rated m && negb (stronger_is_home m) then 1 else 0).
Proof.
  destruct acc as [sh sa]. unfold tally_match, rated, stronger_is_home.
  destruct (home_elo m) as [| |h], (away_elo m) as [| |a]; cbn [get_elo is_1500 fst snd];
    try (split; cbn; lia);
    try (destruct (Z.eqb_spec h 1500); cbn; split; lia);
    try (destruct (Z.eqb_spec a 1500); cbn; split; lia).
  destruct (Z.eqb_spec h 1500), (Z.eqb_spec a 1500); cbn [orb negb andb fst snd];
    try (split; lia).
  destruct (h >=? a); cbn [negb fst snd total]; split; lia.
Qed.

Lemma fold_tally_totals (ms : list MatchRecord) (acc : Tally * Tally) :
  total (fst (fold_left tally_match ms acc))
  = total (fst acc) + Z.of_nat (length (stronger_home_group ms))
  /\ total (snd (fold_left tally_match ms acc))
     = total (snd acc) + Z.of_nat (length (stronger_away_group ms)).
Proof.
  revert acc. induction ms as [|m ms IH]; intros acc.
  - cbn. split; lia.
  - cbn [fold_left]. destruct (IH (tally_match acc m)) as [IH1 IH2].
    destruct (tally_match_totals acc m) as [H1 H2].
    rewrite IH1, IH2, H1, H2.
    unfold stronger_home_group, stronger_away_group. cbn [List.filter].
    destruct (rated m), (stronger_is_home m); cbn [andb negb length]; split; lia.
Qed.

(** C8.  If, among the matches whose two recorded ratings are present and
    differ from 1500, none has the stronger team at home or none has it
    away, calibration returns exactly [home_multiplier = 1.11],
    [away_multiplier = 0.89] and [error = 'Insufficient data']; it
    returns, so no division by zero is raised. *)
Theorem calibration_insufficient_data (today : string) (matches_data : list MatchRecord) :
  stronger_home_group matches_data = [] \/ stronger_away_group matches_data = [] ->
  calculate_home_advantage_multipliers today matches_data
  = Ok (Insufficient 1.11 0.89 "Insufficient data").
Proof.
  intros Hempty. unfold calculate_home_advantage_multipliers.
  destruct (fold_tally_totals matches_data (mkTally 0 0, mkTally 0 0)) as [H1 H2].
  destruct (fold_left tally_match matches_data _) as [sh sa].
  cbn [fst snd total] in H1, H2.
  assert (Hz : total sh = 0 \/ total sa = 0).
  { destruct Hempty as [E|E]; [left; rewrite H1, E | right; rewrite H2, E];
      reflexivity. }
  destruct Hz as [E|E]; rewrite E; [reflexivity|].
  rewrite orb_true_r. reflexivity.
Qed.

(** C8, witness: one unrated match, one with a missing rating, one rated
    with the stronger team at home; the stronger-away group is empty. *)
Lemma calibration_insufficient_data_witness :
  calculate_home_advantage_multipliers "2025-05-25"
    [mkMatch (Rating 1500) (Rating 1500) 2 1;
     mkMatch Absent (Rating 1620) 0 0;
     mkMatch (Rating 1710) (Rating 1655) 3 1]
  = Ok (Insufficient 1.11 0.89 "Insufficient data").
Proof.
  apply calibration_insufficient_data. right. reflexivity.
Defined.

End CalibrationFacts.

(** ** FormAnalyzer *)

Section FormFacts.
Import RatRound RatingEngine FormAnalyzer.

(** C10.  A team with fewer than two history entries, a team absent from
    the history map included, gets zero 5-match and 10-match changes, the
    trend ['stable'] and the form rating 5.0. *)
Theorem form_metrics_default (team : string)
    (elo_history : gmap string (list HistoryEntry)) (num_matches : Z) :
  (length (default [] (elo_history !! team)) < 2)%nat ->
  calculate_form_metrics team elo_history num_matches
  = mkFormMetrics 0 0 "stable" 5.0.
Proof.
  intros Hshort. unfold calculate_form_metrics.
  destruct (elo_history !! team) as [history|]; [|reflexivity].
  simpl in Hshort.
  destruct (Nat.ltb_spec (length history) 2) as [_|Hge]; [reflexivity | lia].
Qed.

(** C10, witness: a single entry. *)
Lemma form_metrics_default_witness :
  calculate_form_metrics "Arsenal"
    (<["Arsenal" := [mkEntry "2024-08-17" 1512]]> ∅) 10
  = mkFormMetrics 0 0 "stable" 5.0.
Proof.
  apply form_metrics_default. vm_compute. lia.
Defined.

End FormFacts.

(** ** RatingEngine: further properties *)

Section RatingEngineMore.
Import RealRound RatingEngine.
Local Open Scope R_scope.

Lemma expected_score_inversion (self : ELOCalculator) (team_elo opponent_elo e : R)
    (is_home : bool) :
  expected_score self team_elo opponent_elo is_home = Ok e ->
  e = 1 / (1 + Rpower 10 (exponent self team_elo opponent_elo is_home)).
Proof.
  unfold expected_score, exponent, py_pow10. cbv zeta.
  destruct (Rle_dec _ _); cbn [mbind result_bind]; [discriminate|].
  intros [= <-]. reflexivity.
Qed.

Lemma expected_score_cases (self : ELOCalculator) (team_elo opponent_elo : R)
    (is_home : bool) :
  expected_score self team_elo opponent_elo is_home = Raise OverflowError
  \/ exists e, expected_score self team_elo opponent_elo is_home = Ok e.
Proof.
  unfold expected_score, py_pow10. cbv zeta.
  destruct (Rle_dec _ _); cbn [mbind result_bind]; [left | right; eexists]; reflexivity.
Qed.

Lemma logistic_bounds (x : R) : 0 < 1 / (1 + Rpower 10 x) < 1.
Proof.
  pose proof (Rpower_10_pos x) as Ht. set (t := Rpower 10 x) in *.
  assert (Hi : 0 < / (1 + t)) by (apply Rinv_0_lt_compat; lra).
  assert (Hi1 : / (1 + t) < 1).
  { rewrite <- Rinv_1 at 2. apply Rinv_lt_contravar; lra. }
  unfold Rdiv. rewrite Rmult_1_l. lra.
Qed.

(** X1.  Within the range of the power of ten, [expected_score] returns
    a value between 0 and 1 (the docstring's "expected score between 0
    and 1"). *)
Theorem expected_score_bounds (self : ELOCalculator) (team_elo opponent_elo : R)
    (is_home : bool) :
  Rabs (team_elo - opponent_elo) + Rabs (IZR (home_advantage self)) <= 123200 ->
  exists e : R,
    expected_score self team_elo opponent_elo is_home = Ok e /\ 0 < e <= 1.
Proof.
  intros Hrange.
  destruct (exponent_bound self team_elo opponent_elo is_home Hrange) as [Hx _].
  eexists. split; [apply expected_score_in_range, Hx|].
  pose proof (logistic_bounds (exponent self team_elo opponent_elo is_home)). lra.
Qed.

(** X1, witness: 1500 away at a side rated 1700. *)
Lemma expected_score_bounds_witness :
  exists e : R,
    expected_score ELOCalculator_default 1500 1700 false = Ok e /\ 0 < e <= 1.
Proof.
  apply (expected_score_bounds ELOCalculator_default 1500 1700 false).
  simpl; unfold Rabs; repeat destruct (Rcase_abs _); lra.
Defined.

Lemma calculate_elo_change_decided (self : ELOCalculator) (team_elo opponent_elo e : R)
    (team_goals opponent_goals : Z) (is_home : bool) :
  expected_score self team_elo opponent_elo is_home = Ok e ->
  team_goals <> opponent_goals ->
  (if (team_goals >? opponent_goals)%Z then team_elo - opponent_elo
   else opponent_elo - team_elo) <> -2200 ->
  calculate_elo_change self team_elo opponent_elo team_goals opponent_goals is_home
  = Ok ((if use_mov self
         then IZR (k_factor self)
              * (ln (IZR (Z.abs (Z.abs (team_goals - opponent_goals)) + 1))
                 * (2.2 / ((if (team_goals >? opponent_goals)%Z
                            then team_elo - opponent_elo
                            else opponent_elo - team_elo) * 0.001 + 2.2)))
         else IZR (k_factor self))
        * ((if (team_goals >? opponent_goals)%Z then 1 else 0) - e)).
Proof.
  intros He Hne Hd. unfold calculate_elo_change. rewrite He. cbn [mbind result_bind].
  destruct (Z.eqb_spec team_goals opponent_goals) as [|_]; [contradiction|].
  assert (Hact : (if (team_goals >? opponent_goals)%Z then 1
                  else if (team_goals <? opponent_goals)%Z then 0 else 0.5)
                 = (if (team_goals >? opponent_goals)%Z then 1 else 0)).
  { destruct (Z.gtb_spec team_goals opponent_goals), (Z.ltb_spec team_goals opponent_goals);
      try lia; reflexivity. }
  rewrite Hact. destruct (use_mov self); simpl; [|reflexivity].
  rewrite mov_value by (try lia; exact Hd). reflexivity.
Qed.

(** X2.  Above the pole of the MOV multiplier a decided match never
    costs the winner points and never gains the loser any. *)
Theorem winner_gains_loser_loses (self : ELOCalculator) (team_elo opponent_elo : R)
    (team_goals opponent_goals : Z) (is_home : bool) :
  Rabs (team_elo - opponent_elo) + Rabs (IZR (home_advantage self)) <= 123200 ->
  (0 < k_factor self <= 1000000)%Z ->
  team_goals <> opponent_goals ->
  -2200 < (if (team_goals >? opponent_goals)%Z then team_elo - opponent_elo
           else opponent_elo - team_elo) ->
  exists change : R,
    calculate_elo_change self team_elo opponent_elo team_goals opponent_goals is_home
    = Ok change
    /\ ((team_goals > opponent_goals)%Z -> 0 <= change)
    /\ ((team_goals < opponent_goals)%Z -> change <= 0).
Proof.
  intros Hrange [Hk _] Hne Hd. apply IZR_lt in Hk.
  destruct (expected_score_bounds self team_elo opponent_elo is_home Hrange)
    as (e & He & He0 & He1).
  rewrite (calculate_elo_change_decided _ _ _ e) by (try assumption; lra).
  eexists. split; [reflexivity|].
  set (d := if (team_goals >? opponent_goals)%Z then _ else _) in *.
  assert (HK : 0 < (if use_mov self
                    then IZR (k_factor self)
                         * (ln (IZR (Z.abs (Z.abs (team_goals - opponent_goals)) + 1))
                            * (2.2 / (d * 0.001 + 2.2)))
                    else IZR (k_factor self))).
  { destruct (use_mov self); [|assumption].
    apply Rmult_lt_0_compat; [assumption|].
    apply Rmult_lt_0_compat; [apply ln_goal_factor_pos; lia | apply dampening_pos, Hd]. }
  set (K := if use_mov self then _ else _) in *.
  split; intros Hg.
  - destruct (Z.gtb_spec team_goals opponent_goals); [nra | lia].
  - destruct (Z.gtb_spec team_goals opponent_goals); [lia | nra].
Qed.

(** X2, witness: a 2-0 away win of a side rated 1400 at a side rated
    1700. *)
Lemma winner_gains_loser_loses_witness :
  exists change : R,
    calculate_elo_change ELOCalculator_default 1400 1700 2 0 false = Ok change
    /\ 0 <= change.
Proof.
  destruct (winner_gains_loser_loses ELOCalculator_default 1400 1700 2 0 false)
    as (c & Hc & Hpos & _).
  - simpl; unfold Rabs; repeat destruct (Rcase_abs _); lra.
  - simpl. lia.
  - discriminate.
  - simpl. lra.
  - exists c. split; [exact Hc | apply Hpos; reflexivity].
Defined.

(** X3.  Below the pole the sign turns: with MOV on, a side that wins
    while rated more than 2200 below its opponent gains nothing, it can
    only lose points by winning. *)
Theorem upset_beyond_pole_costs_winner (self : ELOCalculator) (team_elo opponent_elo : R)
    (team_goals opponent_goals : Z) (is_home : bool) :
  Rabs (team_elo - opponent_elo) + Rabs (IZR (home_advantage self)) <= 123200 ->
  use_mov self = true ->
  (0 < k_factor self <= 1000000)%Z ->
  (team_goals > opponent_goals)%Z ->
  team_elo - opponent_elo < -2200 ->
  exists change : R,
    calculate_elo_change self team_elo opponent_elo team_goals opponent_goals is_home
    = Ok change
    /\ change <= 0.
Proof.
  intros Hrange Hmov [Hk _] Hg Hd. apply IZR_lt in Hk.
  assert (Hgt : (team_goals >? opponent_goals)%Z = true) by (apply Z.gtb_lt; lia).
  destruct (expected_score_bounds self team_elo opponent_elo is_home Hrange)
    as (e & He & He0 & He1).
  rewrite (calculate_elo_change_decided _ _ _ e) by (try lia; try assumption; rewrite Hgt; lra).
  rewrite Hmov, Hgt. eexists. split; [reflexivity|].
  pose proof (ln_goal_factor_pos (Z.abs (team_goals - opponent_goals)) ltac:(lia)) as Hln.
  pose proof (dampening_neg _ Hd) as Hneg.
  set (l := ln _) in *. set (dm := 2.2 / _) in *.
  assert (H1 : l * dm < 0) by nra.
  assert (H2 : IZR (k_factor self) * (l * dm) < 0) by nra.
  nra.
Qed.

(** X3, witness: the home side rated 800 beats a side rated 3100. *)
Lemma upset_beyond_pole_costs_winner_witness :
  exists change : R,
    calculate_elo_change ELOCalculator_default 800 3100 1 0 true = Ok change
    /\ change <= 0.
Proof.
  apply (upset_beyond_pole_costs_winner ELOCalculator_default 800 3100 1 0 true).
  - simpl; unfold Rabs; repeat destruct (Rcase_abs _); lra.
  - reflexivity.
  - simpl. lia.
  - reflexivity.
  - lra.
Defined.

Lemma mov_singular_dec (self : ELOCalculator) (home_elo away_elo hg ag : Z) :
  mov_singular self home_elo away_elo hg ag \/ ~ mov_singular self home_elo away_elo hg ag.
Proof.
  unfold mov_singular.
  destruct (use_mov self); [|right; intros (H & _); discriminate].
  destruct (Z.eq_dec hg ag) as [->|Hne]; [right; intros (_ & H & _); contradiction|].
  destruct (Z.eq_dec (winner_elo_diff home_elo away_elo hg ag) (-2200)%Z) as [E|NE].
  - left. auto.
  - right. intros (_ & _ & H). contradiction.
Qed.

Lemma process_match_singular (self : ELOCalculator) (home_team away_team : string)
    (home_goals away_goals : Z) (match_date : string) (update_history : bool) :
  plausible self (get_current_elo self home_team) (get_current_elo self away_team) ->
  mov_singular self (get_current_elo self home_team)
    (get_current_elo self away_team) home_goals away_goals ->
  process_match self home_team away_team home_goals away_goals match_date update_history
  = Raise ZeroDivisionError.
Proof.
  intros Hpl (Hmov & Hne & Hd). unfold process_match.
  fold (get_current_elo self home_team). fold (get_current_elo self away_team).
  destruct (plausible_exponents _ _ _ Hpl) as [Hx _].
  rewrite (calculate_elo_change_singular self (IZR (get_current_elo self home_team))
             (IZR (get_current_elo self away_team)) home_goals away_goals true);
    [reflexivity | assumption | assumption | assumption |].
  unfold winner_elo_diff in Hd.
  destruct (home_goals >? away_goals)%Z; rewrite <- minus_IZR, Hd; reflexivity.
Qed.

(** X4.  On plausible numbers [process_match] raises exactly when the
    MOV multiplier is used at its pole, and what it raises then is
    [ZeroDivisionError]. *)
Theorem process_match_raises_iff (self : ELOCalculator) (home_team away_team : string)
    (home_goals away_goals : Z) (match_date : string) (update_history : bool) :
  plausible self (get_current_elo self home_team) (get_current_elo self away_team) ->
  (process_match self home_team away_team home_goals away_goals match_date update_history
   = Raise ZeroDivisionError
   <-> mov_singular self (get_current_elo self home_team)
         (get_current_elo self away_team) home_goals away_goals)
  /\ (forall e : PyError,
        process_match self home_team away_team home_goals away_goals match_date
          update_history = Raise e -> e = ZeroDivisionError).
Proof.
  intros Hpl.
  destruct (mov_singular_dec self (get_current_elo self home_team)
              (get_current_elo self away_team) home_goals away_goals) as [Hs|Hns].
  - rewrite (process_match_singular _ _ _ _ _ _ _ Hpl Hs). split.
    + split; auto.
    + intros e [= <-]. reflexivity.
  - destruct (process_match_total self home_team away_team home_goals away_goals
                match_date update_history Hpl Hns) as (dh & da & _ & _ & Hp).
    rewrite Hp. split.
    + split; [discriminate | contradiction].
    + discriminate.
Qed.

(** X4, witness: the upset at the pole, and a draw. *)
Lemma process_match_raises_iff_witness :
  (process_match
     (mkELOCalculator 20 100 true 1500
        (<["Minnows" := 1000%Z]> (<["Giants" := 3200%Z]> ∅)) ∅)
     "Minnows" "Giants" 1 0 "2024-08-17" true = Raise ZeroDivisionError
   <-> mov_singular
         (mkELOCalculator 20 100 true 1500
            (<["Minnows" := 1000%Z]> (<["Giants" := 3200%Z]> ∅)) ∅)
         1000 3200 1 0).
Proof.
  destruct (process_match_raises_iff
              (mkELOCalculator 20 100 true 1500
                 (<["Minnows" := 1000%Z]> (<["Giants" := 3200%Z]> ∅)) ∅)
              "Minnows" "Giants" 1 0 "2024-08-17" true) as [H _].
  - unfold plausible. repeat split; vm_compute; discriminate.
  - exact H.
Defined.

Lemma calculate_elo_change_overflow (self : ELOCalculator) (team_elo opponent_elo : R)
    (team_goals opponent_goals : Z) (is_home : bool) :
  309 <= exponent self team_elo opponent_elo is_home ->
  calculate_elo_change self team_elo opponent_elo team_goals opponent_goals is_home
  = Raise OverflowError.
Proof.
  intros Hx. unfold calculate_elo_change.
  rewrite expected_score_out_of_range by exact Hx. reflexivity.
Qed.

Lemma calculate_elo_change_errors (self : ELOCalculator) (team_elo opponent_elo : R)
    (team_goals opponent_goals : Z) (is_home : bool) (e : PyError) :
  calculate_elo_change self team_elo opponent_elo team_goals opponent_goals is_home
  = Raise e ->
  e = OverflowError \/ e = ZeroDivisionError.
Proof.
  unfold calculate_elo_change.
  destruct (expected_score_cases self team_elo opponent_elo is_home) as [E|[v E]];
    rewrite E; cbn [mbind result_bind]; [intros [= <-]; left; reflexivity|].
  destruct (use_mov self && negb (team_goals =? opponent_goals)%Z);
    [|cbn [mbind result_bind mret result_ret]; discriminate].
  unfold margin_of_victory_multiplier.
  destruct (Z.abs (team_goals - opponent_goals) =? 0)%Z;
    [cbn [mbind result_bind mret result_ret]; discriminate|].
  destruct (Req_dec_T _ 0); cbn [mbind result_bind mret result_ret];
    [intros [= <-]; right; reflexivity | discriminate].
Qed.

(** X5.  When the home rating with its bonus and the away rating are
    123600 points or more apart, one of the two powers of ten is out of
    range and [process_match] raises: nothing is committed. *)
Theorem process_match_out_of_range (self : ELOCalculator) (home_team away_team : string)
    (home_goals away_goals : Z) (match_date : string) (update_history : bool) :
  (123600 <= Z.abs (get_current_elo self away_team
                    - (get_current_elo self home_team + home_advantage self)))%Z ->
  process_match self home_team away_team home_goals away_goals match_date update_history
  = Raise OverflowError
  \/ process_match self home_team away_team home_goals away_goals match_date update_history
     = Raise ZeroDivisionError.
Proof.
  intros Hgap. unfold process_match.
  fold (get_current_elo self home_team). fold (get_current_elo self away_team).
  set (he := get_current_elo self home_team) in *.
  set (ae := get_current_elo self away_team) in *.
  destruct (Z_le_gt_dec 0 (ae - (he + home_advantage self))) as [Hpos|Hneg].
  - left.
    rewrite (calculate_elo_change_overflow self (IZR he) (IZR ae) home_goals away_goals
               true); [reflexivity|].
    unfold exponent. simpl.
    assert (H : (123600 <= ae - (he + home_advantage self))%Z) by lia.
    apply IZR_le in H. rewrite minus_IZR, plus_IZR in H. lra.
  - assert (Hx : 309 <= exponent self (IZR ae) (IZR he) false).
    { unfold exponent. simpl.
      assert (H : (123600 <= he + home_advantage self - ae)%Z) by lia.
      apply IZR_le in H. rewrite minus_IZR, plus_IZR in H. lra. }
    destruct (calculate_elo_change self (IZR he) (IZR ae) home_goals away_goals true)
      as [dh|e] eqn:E; cbn [mbind result_bind].
    + left.
      rewrite (calculate_elo_change_overflow self (IZR ae) (IZR he) away_goals home_goals
                 false) by exact Hx.
      reflexivity.
    + destruct (calculate_elo_change_errors _ _ _ _ _ _ _ E) as [-> | ->];
        [left | right]; reflexivity.
Qed.

(** X5, witness: the store {Hosts: 200000, Guests: 0}. *)
Lemma process_match_out_of_range_witness :
  process_match
    (mkELOCalculator 20 100 true 1500
       (<["Hosts" := 200000%Z]> (<["Guests" := 0%Z]> ∅)) ∅)
    "Hosts" "Guests" 1 1 "2024-08-17" true = Raise OverflowError
  \/ process_match
       (mkELOCalculator 20 100 true 1500
          (<["Hosts" := 200000%Z]> (<["Guests" := 0%Z]> ∅)) ∅)
       "Hosts" "Guests" 1 1 "2024-08-17" true = Raise ZeroDivisionError.
Proof.
  apply (process_match_out_of_range
           (mkELOCalculator 20 100 true 1500
              (<["Hosts" := 200000%Z]> (<["Guests" := 0%Z]> ∅)) ∅)
           "Hosts" "Guests" 1 1 "2024-08-17" true).
  vm_compute. discriminate.
Defined.

Lemma process_match_inversion (self self' : ELOCalculator) (home_team away_team : string)
    (home_goals away_goals : Z) (match_date : string) (update_history : bool)
    (out : Z * Z * R * R) :
  process_match self home_team away_team home_goals away_goals match_date update_history
  = Ok (self', out) ->
  exists home_change away_change : R,
    calculate_elo_change self (IZR (get_current_elo self home_team))
      (IZR (get_current_elo self away_team)) home_goals away_goals true = Ok home_change
    /\ calculate_elo_change self (IZR (get_current_elo self away_team))
         (IZR (get_current_elo self home_team)) away_goals home_goals false
       = Ok away_change
    /\ out = (py_round (IZR (get_current_elo self home_team) + home_change),
              py_round (IZR (get_current_elo self away_team) + away_change),
              py_round_ndigits home_change 1, py_round_ndigits away_change 1)
    /\ k_factor self' = k_factor self /\ home_advantage self' = home_advantage self
    /\ use_mov self' = use_mov self /\ default_elo self' = default_elo self
    /\ current_elo self'
       = <[away_team := py_round (IZR (get_current_elo self away_team) + away_change)]>
           (<[home_team := py_round (IZR (get_current_elo self home_team) + home_change)]>
              (current_elo self))
    /\ elo_history self'
       = if update_history then
           history_push away_team
             (mkEntry match_date
                (py_round (IZR (get_current_elo self away_team) + away_change)))
             (history_push home_team
                (mkEntry match_date
                   (py_round (IZR (get_current_elo self home_team) + home_change)))
                (history_ensure away_team
                   (history_ensure home_team (elo_history self))))
         else elo_history self.
Proof.
  unfold process_match. fold (get_current_elo self home_team).
  fold (get_current_elo self away_team).
  destruct (calculate_elo_change self _ _ home_goals away_goals true) as [dh|];
    [|discriminate].
  destruct (calculate_elo_change self _ _ away_goals home_goals false) as [da|];
    [|discriminate].
  simpl. intros [= <- <-]. exists dh, da. repeat split.
Qed.

(** X6.  Frame of [process_match]: the parameters of the calculator stay,
    the rating and the history of every team that did not play stay, and
    without history recording the whole history stays. *)
Theorem process_match_frame (self self' : ELOCalculator)
    (home_team away_team : string) (home_goals away_goals : Z) (match_date : string)
    (update_history : bool) (out : Z * Z * R * R) :
  process_match self home_team away_team home_goals away_goals match_date update_history
  = Ok (self', out) ->
  (k_factor self' = k_factor self /\ home_advantage self' = home_advantage self
   /\ use_mov self' = use_mov self /\ default_elo self' = default_elo self)
  /\ (forall team : string, team <> home_team -> team <> away_team ->
        current_elo self' !! team = current_elo self !! team
        /\ elo_history self' !! team = elo_history self !! team)
  /\ (update_history = false -> elo_history self' = elo_history self).
Proof.
  intros Hp.
  apply process_match_inversion in Hp
    as (dh & da & _ & _ & _ & Hk & Hha & Hmov & Hdef & Hcur & Hhist).
  split; [auto|]. split.
  - intros team Hnh Hna. rewrite Hcur, Hhist. split.
    + rewrite !lookup_insert_ne by congruence. reflexivity.
    + destruct update_history; [|reflexivity].
      rewrite !history_push_lookup_ne by assumption.
      unfold history_ensure.
      destruct (elo_history self !! home_team) eqn:E1.
      * destruct (elo_history self !! away_team) eqn:E2; [reflexivity|].
        apply lookup_insert_ne. congruence.
      * destruct (<[home_team:=[]]> (elo_history self) !! away_team) eqn:E2;
          rewrite ?lookup_insert_ne by congruence; reflexivity.
  - intros ->. exact Hhist.
Qed.

(** X6, witness: a draw of two unseen teams without history recording. *)
Lemma process_match_frame_witness :
  exists (self' : ELOCalculator) (out : Z * Z * R * R),
    process_match ELOCalculator_default "Arsenal" "Chelsea" 1 1 "2024-08-17" false
    = Ok (self', out)
    /\ current_elo self' !! "Everton" = None
    /\ elo_history self' = ∅.
Proof.
  destruct (process_match_total ELOCalculator_default "Arsenal" "Chelsea" 1 1
              "2024-08-17" false (default_plausible _ _) (draw_not_singular _ _ _ _))
    as (dh & da & _ & _ & Hp).
  destruct (process_match_frame _ _ _ _ _ _ _ _ _ Hp) as (_ & Hf & Hh).
  eexists _, _. split; [exact Hp|]. split.
  - exact (proj1 (Hf "Everton" ltac:(discriminate) ltac:(discriminate))).
  - exact (Hh eq_refl).
Defined.

End RatingEngineMore.

(** ** Order of strings *)
Section StringOrder.

Lemma ascii_compare_refl (a : ascii) : Ascii.compare a a = Eq.
Proof. unfold Ascii.compare. apply N.compare_refl. Qed.

Lemma ascii_compare_lt_trans (a b c : ascii) :
  Ascii.compare a b = Lt -> Ascii.compare b c = Lt -> Ascii.compare a c = Lt.
Proof.
  unfold Ascii.compare. rewrite !N.compare_lt_iff. apply N.lt_trans.
Qed.

Lemma string_compare_refl (s : string) : String.compare s s = Eq.
Proof. induction s as [|a s IH]; [reflexivity|]. simpl. rewrite ascii_compare_refl. exact IH. Qed.

Lemma string_compare_lt_trans (s1 s2 s3 : string) :
  String.compare s1 s2 = Lt -> String.compare s2 s3 = Lt -> String.compare s1 s3 = Lt.
Proof.
  revert s2 s3. induction s1 as [|a s1 IH]; intros [|b s2] [|c s3]; simpl;
    try discriminate; try reflexivity.
  destruct (Ascii.compare a b) eqn:Eab; try discriminate.
  - apply Ascii.compare_eq_iff in Eab as ->.
    destruct (Ascii.compare b c) eqn:Ebc; try discriminate; [apply IH | reflexivity].
  - intros _. destruct (Ascii.compare b c) eqn:Ebc; try discriminate.
    + apply Ascii.compare_eq_iff in Ebc as <-. rewrite Eab. reflexivity.
    + rewrite (ascii_compare_lt_trans _ _ _ Eab Ebc). reflexivity.
Qed.

Lemma ltb_compare (s1 s2 : string) : String.ltb s1 s2 = true <-> String.compare s1 s2 = Lt.
Proof. unfold String.ltb. destruct (String.compare s1 s2); split; congruence. Qed.

Lemma ltb_irrefl (s : string) : String.ltb s s = false.
Proof. unfold String.ltb. rewrite string_compare_refl. reflexivity. Qed.

Lemma ltb_asym (s1 s2 : string) : String.ltb s1 s2 = true -> String.ltb s2 s1 = false.
Proof.
  unfold String.ltb. rewrite (String.compare_antisym s1 s2).
  destruct (String.compare s2 s1); simpl; congruence.
Qed.

Lemma ltb_trans (s1 s2 s3 : string) :
  String.ltb s1 s2 = true -> String.ltb s2 s3 = true -> String.ltb s1 s3 = true.
Proof. rewrite !ltb_compare. apply string_compare_lt_trans. Qed.

(** [s2 <= s1] and [s2 < s3] give [s1 < s3]... in the form used below:
    not after, then before. *)
Lemma not_ltb_cases (s1 s2 : string) :
  String.ltb s1 s2 = false -> s1 = s2 \/ String.ltb s2 s1 = true.
Proof.
  unfold String.ltb. rewrite (String.compare_antisym s2 s1).
  destruct (String.compare s1 s2) eqn:E; simpl; try congruence.
  - intros _. left. apply String.compare_eq_iff, E.
  - intros _. right. reflexivity.
Qed.

Lemma not_ltb_trans (s1 s2 s3 : string) :
  String.ltb s2 s1 = false -> String.ltb s3 s2 = false -> String.ltb s3 s1 = false.
Proof.
  intros H12 H23.
  destruct (not_ltb_cases _ _ H12) as [->|L12]; [assumption|].
  destruct (not_ltb_cases _ _ H23) as [->|L23]; [apply ltb_asym; assumption|].
  apply ltb_asym. exact (ltb_trans _ _ _ L12 L23).
Qed.

Lemma ltb_not_ltb_trans (s1 s2 s3 : string) :
  String.ltb s1 s2 = true -> String.ltb s3 s2 = false -> String.ltb s1 s3 = true.
Proof.
  intros L12 H23. destruct (not_ltb_cases _ _ H23) as [->|L23]; [assumption|].
  exact (ltb_trans _ _ _ L12 L23).
Qed.

End StringOrder.

(** ** Stable sorting *)
Section StableSortFacts.
Context {A : Type} (stays_before : A -> A -> bool).


Lemma insert_sorted_perm (x : A) (l : list A) :
  Permutation (insert_sorted stays_before x l) (x :: l).
Proof.
  induction l as [|y l IH]; simpl; [reflexivity|].
  destruct (stays_before y x); [|reflexivity].
  rewrite IH. apply perm_swap.
Qed.

Lemma stable_sort_perm (l : list A) : Permutation (stable_sort stays_before l) l.
Proof.
  induction l as [|x l IH]; simpl; [reflexivity|].
  rewrite insert_sorted_perm. apply perm_skip, IH.
Qed.

Lemma stable_sort_length (l : list A) :
  length (stable_sort stays_before l) = length l.
Proof. apply Permutation_length, stable_sort_perm. Qed.

Hypothesis stays_before_asym :
  forall a b, stays_before a b = true -> stays_before b a = false.
Hypothesis in_order_trans :
  forall a b c, in_order stays_before a b -> in_order stays_before b c -> in_order stays_before a c.

Lemma insert_sorted_sorted (x : A) (l : list A) :
  StronglySorted (in_order stays_before) l -> StronglySorted (in_order stays_before) (insert_sorted stays_before x l).
Proof.
  induction 1 as [|y l Hs IH Hy]; simpl.
  - constructor; constructor.
  - destruct (stays_before y x) eqn:E.
    + constructor; [exact IH|].
      rewrite List.Forall_forall. intros z Hz.
      apply (Permutation_in _ (insert_sorted_perm x l)) in Hz as [<-|Hz].
      * apply stays_before_asym, E.
      * rewrite List.Forall_forall in Hy. apply Hy, Hz.
    + constructor; [constructor; assumption|].
      constructor; [exact E|].
      rewrite List.Forall_forall in Hy |- *. intros z Hz.
      apply (in_order_trans x y z E). apply Hy, Hz.
Qed.

Lemma stable_sort_sorted (l : list A) : StronglySorted (in_order stays_before) (stable_sort stays_before l).
Proof.
  induction l as [|x l IH]; simpl; [constructor|].
  apply insert_sorted_sorted, IH.
Qed.

Lemma stable_sort_fixed (l : list A) :
  StronglySorted (in_order stays_before) l -> stable_sort stays_before l = l.
Proof.
  induction 1 as [|x l Hs IH Hx]; simpl; [reflexivity|].
  rewrite IH. destruct l as [|y l]; [reflexivity|]. simpl.
  apply Forall_inv in Hx. unfold in_order in Hx. rewrite Hx. reflexivity.
Qed.

Lemma stable_sort_idempotent (l : list A) :
  stable_sort stays_before (stable_sort stays_before l) = stable_sort stays_before l.
Proof. apply stable_sort_fixed, stable_sort_sorted. Qed.

(** The greatest element comes last. *)
Lemma sorted_last_greatest (l : list A) (m : A) :
  StronglySorted (in_order stays_before) l -> last l = Some m ->
  forall x, In x l -> x = m \/ in_order stays_before x m.
Proof.
  induction 1 as [|y l Hs IH Hy]; intros Hl x Hx; [destruct Hx|].
  destruct l as [|z l].
  - simpl in Hl. injection Hl as <-. destruct Hx as [<-|[]]. left. reflexivity.
  - assert (Hl' : last (z :: l) = Some m) by exact Hl.
    destruct Hx as [<-|Hx].
    + right. rewrite List.Forall_forall in Hy. apply Hy.
      apply last_Some in Hl' as [l' E]. rewrite E. apply in_or_app. right. left. reflexivity.
    + apply IH; assumption.
Qed.

(** Stability: within a class of elements none of which has to stay in
    front of another, the order is the one of the input. *)
Lemma insert_sorted_filter (P : A -> bool) (x : A) (l : list A) :
  (forall a b, P a = true -> P b = true -> stays_before a b = false) ->
  List.filter P (insert_sorted stays_before x l) = List.filter P (x :: l).
Proof.
  intros Hclass. induction l as [|y l IH]; [reflexivity|]. simpl.
  destruct (stays_before y x) eqn:E; [|reflexivity].
  simpl. simpl in IH. rewrite IH.
  destruct (P y) eqn:Py, (P x) eqn:Px; try reflexivity.
  rewrite (Hclass y x Py Px) in E. discriminate.
Qed.

Lemma stable_sort_filter (P : A -> bool) (l : list A) :
  (forall a b, P a = true -> P b = true -> stays_before a b = false) ->
  List.filter P (stable_sort stays_before l) = List.filter P l.
Proof.
  intros Hclass. induction l as [|x l IH]; [reflexivity|]. simpl.
  rewrite insert_sorted_filter by assumption. simpl. rewrite IH. reflexivity.
Qed.

End StableSortFacts.

Section RatingStoreFacts.
Import RatingEngine RatingStore VenueProbabilityModel.
Local Open Scope Z_scope.

(** X7.  The band of a rating gap: band [b] from 1 to 9 holds the gaps
    from [50 * (b - 1)] to [50 * b - 1], band 10 every gap from 450
    on. *)
Theorem band_number_boundaries (elo_diff b : Z) :
  0 <= elo_diff ->
  (band_number elo_diff = b
   <-> (1 <= b <= 9 /\ 50 * (b - 1) <= elo_diff < 50 * b) \/ (b = 10 /\ 450 <= elo_diff)).
Proof.
  intros Hd. unfold band_number.
  pose proof (Z.div_mod elo_diff 50 ltac:(lia)) as Hdm.
  pose proof (Z.mod_pos_bound elo_diff 50 ltac:(lia)) as Hm.
  split; [intros <- | intros [[Hb Hr]|[-> Hr]]]; lia.
Qed.

(** X7, witness: gap 449 is band 9. *)
Lemma band_number_boundaries_witness :
  band_number 449 = 9 <-> (1 <= 9 <= 9 /\ 50 * (9 - 1) <= 449 < 50 * 9) \/ (9 = 10 /\ 450 <= 449).
Proof. apply (band_number_boundaries 449 9). lia. Defined.

(** X8.  [get_elo_band] does not depend on the order of the two teams,
    lies between 1 and 10, is 1 for a team against itself, and is the
    band of the venue model for the gap of the two current ratings. *)
Theorem get_elo_band_symmetric (self : ELOCalculator) (team1 team2 : string) :
  get_elo_band self team1 team2 = get_elo_band self team2 team1
  /\ 1 <= get_elo_band self team1 team2 <= 10
  /\ get_elo_band self team1 team1 = 1
  /\ get_elo_band self team1 team2
     = band_number (Z.abs (get_current_elo self team1 - get_current_elo self team2)).
Proof.
  unfold get_elo_band, get_elo_diff.
  pose proof (band_number_range (Z.abs (get_current_elo self team1
                                         - get_current_elo self team2))
                (Z.abs_nonneg _)) as Hr.
  unfold band_number in Hr.
  repeat split; try lia.
  - replace (get_current_elo self team2 - get_current_elo self team1)
      with (- (get_current_elo self team1 - get_current_elo self team2)) by lia.
    rewrite Z.abs_opp. reflexivity.
  - rewrite Z.sub_diag. reflexivity.
Qed.

(** *** Rankings *)

Lemma elo_desc_asym (a b : string * Z) :
  (snd b <? snd a) = true -> (snd a <? snd b) = false.
Proof. rewrite Z.ltb_lt, Z.ltb_ge. lia. Qed.

Lemma elo_desc_trans (a b c : string * Z) :
  in_order (fun y x : string * Z => snd x <? snd y) a b ->
  in_order (fun y x : string * Z => snd x <? snd y) b c ->
  in_order (fun y x : string * Z => snd x <? snd y) a c.
Proof. unfold in_order. rewrite !Z.ltb_ge. lia. Qed.

Lemma enumerate_from_fst {A : Type} (start : Z) (l : list A) :
  map fst (enumerate_from start l)
  = map (fun i => start + Z.of_nat i) (seq 0 (length l)).
Proof.
  revert start. induction l as [|x l IH]; intros start; [reflexivity|].
  simpl. rewrite IH, <- seq_shift, map_map. f_equal; [f_equal; lia|].
  apply map_ext. intros i. lia.
Qed.

Lemma enumerate_from_snd {A : Type} (start : Z) (l : list A) :
  map snd (enumerate_from start l) = l.
Proof.
  revert start. induction l as [|x l IH]; intros start; [reflexivity|].
  simpl. rewrite IH. reflexivity.
Qed.

Lemma get_rankings_items (items : list (string * Z)) :
  map (fun r : string * Z * Z => fst r) (get_rankings items) = sorted_by_elo_desc items.
Proof.
  unfold get_rankings. rewrite map_map.
  rewrite <- (enumerate_from_snd 0 (sorted_by_elo_desc items)) at 2.
  apply map_ext. intros [rank [team elo]]. reflexivity.
Qed.

Lemma get_rankings_ranks (items : list (string * Z)) :
  map (fun r : string * Z * Z => snd r) (get_rankings items)
  = map (fun i => Z.of_nat i + 1) (seq 0 (length items)).
Proof.
  unfold get_rankings. rewrite map_map.
  transitivity (map (fun z => z + 1) (map fst (enumerate_from 0 (sorted_by_elo_desc items)))).
  - rewrite map_map. apply map_ext. intros [rank [team elo]]. reflexivity.
  - rewrite enumerate_from_fst, map_map.
    unfold sorted_by_elo_desc. rewrite stable_sort_length. reflexivity.
Qed.

(** X9.  [get_rankings] lists every team of the store once with its
    rating, in the order of falling ratings, and numbers the places 1, 2,
    3, ... *)
Theorem get_rankings_sorted (items : list (string * Z)) :
  Permutation (map (fun r : string * Z * Z => fst r) (get_rankings items)) items
  /\ StronglySorted (fun r1 r2 : string * Z * Z => snd (fst r2) <= snd (fst r1))
       (get_rankings items)
  /\ map (fun r : string * Z * Z => snd r) (get_rankings items)
     = map (fun i => Z.of_nat i + 1) (seq 0 (length items)).
Proof.
  split; [|split].
  - rewrite get_rankings_items. apply stable_sort_perm.
  - pose proof (stable_sort_sorted _ elo_desc_asym elo_desc_trans items) as Hs.
    fold (sorted_by_elo_desc items) in Hs. rewrite <- get_rankings_items in Hs.
    induction (get_rankings items) as [|r l IH]; [constructor|].
    simpl in Hs. apply StronglySorted_inv in Hs as [Hs Hr].
    constructor; [apply IH, Hs|].
    rewrite List.Forall_forall in Hr |- *. intros r' Hr'.
    specialize (Hr (fst r') (in_map _ _ _ Hr')).
    unfold in_order in Hr. apply Z.ltb_ge in Hr. exact Hr.
  - apply get_rankings_ranks.
Qed.

(** X10.  Teams on the same rating are ranked in the order in which the
    store holds them: the sort is stable, and nothing else breaks the
    tie. *)
Theorem get_rankings_stable (items : list (string * Z)) (elo : Z) :
  List.filter (fun it : string * Z => snd it =? elo)
    (map (fun r : string * Z * Z => fst r) (get_rankings items))
  = List.filter (fun it : string * Z => snd it =? elo) items.
Proof.
  rewrite get_rankings_items. apply stable_sort_filter.
  intros a b Ha Hb. apply Z.eqb_eq in Ha, Hb. apply Z.ltb_ge. lia.
Qed.


(** *** The persisted snapshot *)

Local Close Scope Z_scope.

Lemma load_loop_enriched (l : list (string * Z * Z)) (cur : gmap string Z) :
  load_current_elo_loop
    (map (fun '(team, elo, rank) => (team, snapshot_object elo rank)) l) cur
  = Some (fold_left (fun c (r : string * Z * Z) => <[fst (fst r) := snd (fst r)]> c) l cur).
Proof.
  revert cur. induction l as [|[[team elo] rank] l IH]; intros cur; [reflexivity|].
  simpl. rewrite lookup_insert_ne by discriminate. rewrite lookup_insert_eq. apply IH.
Qed.

Lemma load_loop_flat (l : list (string * Z * Z)) (cur : gmap string Z) :
  load_current_elo_loop (map (fun '(team, elo, rank) => (team, JNumber elo)) l) cur
  = Some (fold_left (fun c (r : string * Z * Z) => <[fst (fst r) := snd (fst r)]> c) l cur).
Proof.
  revert cur. induction l as [|[[team elo] rank] l IH]; intros cur; [reflexivity|].
  simpl. apply IH.
Qed.

Lemma fold_insert_rankings (l : list (string * Z * Z)) (cur : gmap string Z) :
  fold_left (fun c (r : string * Z * Z) => <[fst (fst r) := snd (fst r)]> c) l cur
  = fold_left (fun c (it : string * Z) => <[fst it := snd it]> c)
      (map (fun r : string * Z * Z => fst r) l) cur.
Proof. revert cur. induction l as [|r l IH]; intros cur; [reflexivity | apply IH]. Qed.

Lemma fold_insert_union (l : list (string * Z)) (cur : gmap string Z) :
  fold_left (fun c (it : string * Z) => <[fst it := snd it]> c) l cur
  = list_to_map (rev l) ∪ cur.
Proof.
  revert cur. induction l as [|[t e] l IH]; intros cur.
  - simpl. rewrite (left_id_L ∅ (∪)). reflexivity.
  - simpl fold_left. rewrite IH. simpl rev. rewrite list_to_map_app. simpl.
    rewrite <- (assoc_L (∪)). f_equal.
    rewrite insert_union_singleton_l. rewrite <- insert_empty. reflexivity.
Qed.

(** X11.  Loading what [export_current_elo] wrote gives every exported
    team its exported rating and leaves the other teams of the store as
    they were. *)
Theorem load_export_round_trip (items : list (string * Z)) (self : ELOCalculator) :
  NoDup (map fst items) ->
  load_current_elo (export_current_elo items) self
  = Some (mkELOCalculator (k_factor self) (home_advantage self) (use_mov self)
            (default_elo self) (list_to_map items ∪ current_elo self)
            (elo_history self)).
Proof.
  intros Hnd. unfold load_current_elo, export_current_elo.
  rewrite load_loop_enriched.
  rewrite fold_insert_rankings, get_rankings_items, fold_insert_union.
  do 3 f_equal. apply list_to_map_proper.
  - assert (Hp : Permutation (map fst (rev (sorted_by_elo_desc items))) (map fst items)).
    { apply (Permutation_map fst).
      etransitivity; [symmetry; apply Permutation_rev | apply stable_sort_perm]. }
    change (NoDup (map fst (rev (sorted_by_elo_desc items)))).
    rewrite Hp. exact Hnd.
  - etransitivity; [symmetry; apply Permutation_rev | apply stable_sort_perm].
Qed.


(** X11, witness: two teams loaded into the default calculator. *)
Lemma load_export_round_trip_witness :
  load_current_elo (export_current_elo [("Arsenal", 1512%Z); ("Chelsea", 1490%Z)])
    ELOCalculator_default
  = Some (mkELOCalculator 20 100 true 1500
            (list_to_map [("Arsenal", 1512%Z); ("Chelsea", 1490%Z)] ∪ ∅) ∅).
Proof.
  apply (load_export_round_trip [("Arsenal", 1512%Z); ("Chelsea", 1490%Z)]
           ELOCalculator_default).
  simpl. apply NoDup_cons_2; [|apply NoDup_singleton].
  intros H. apply list_elem_of_singleton in H. discriminate.
Defined.

(** X12.  Both shapes of the snapshot load, and load alike: the flat
    [{team: rating}] and the enriched [{team: {'elo': rating, 'rank':
    rank}}]. *)
Theorem load_accepts_both_shapes (l : list (string * Z * Z)) (self : ELOCalculator) :
  load_current_elo (map (fun '(team, elo, rank) => (team, JNumber elo)) l) self
  = load_current_elo (map (fun '(team, elo, rank) => (team, snapshot_object elo rank)) l)
      self
  /\ exists self' : ELOCalculator,
       load_current_elo (map (fun '(team, elo, rank) => (team, JNumber elo)) l) self
       = Some self'.
Proof.
  unfold load_current_elo. rewrite load_loop_flat, load_loop_enriched.
  split; [reflexivity|]. eexists. reflexivity.
Qed.

(** X13.  [load_current_elo] raises [KeyError] exactly when the file
    holds an object without the field ['elo']. *)
Theorem load_current_elo_key_error (data : list (string * EloJson)) (self : ELOCalculator) :
  load_current_elo data self = None <-> Exists lacks_elo data.
Proof.
  unfold load_current_elo.
  assert (H : forall cur, load_current_elo_loop data cur = None <-> Exists lacks_elo data).
  { induction data as [|[team value] data IH]; intros cur; simpl.
    - split; [discriminate | intros H; inversion H].
    - destruct value as [e|fields].
      + rewrite IH. split; [intros H; apply Exists_cons_tl, H|].
        intros H. apply Exists_cons in H as [(f & Hf & _)|H]; [discriminate | exact H].
      + destruct (fields !! "elo") as [e|] eqn:E.
        * rewrite IH. split; [intros H; apply Exists_cons_tl, H|].
          intros H. apply Exists_cons in H as [(f & Hf & Hn)|H]; [|exact H].
          simpl in Hf. injection Hf as <-. congruence.
        * split; [intros _|reflexivity].
          apply Exists_cons_hd. exists fields. split; [reflexivity | exact E]. }
  specialize (H (current_elo self)).
  destruct (load_current_elo_loop data (current_elo self)).
  - split; [discriminate|]. intros HE. apply H in HE. discriminate.
  - split; [intros _; apply H; reflexivity | reflexivity].
Qed.

(** *** Histories *)

Lemma insert_by_date_insert_sorted (x : HistoryEntry) (l : list HistoryEntry) :
  FormAnalyzer.insert_by_date x l
  = insert_sorted (fun y x => String.ltb (date y) (date x)) x l.
Proof.
  induction l as [|y l IH]; [reflexivity|]. simpl. rewrite IH. reflexivity.
Qed.

Lemma sorted_by_date_stable_sort (l : list HistoryEntry) :
  FormAnalyzer.sorted_by_date l
  = stable_sort (fun y x => String.ltb (date y) (date x)) l.
Proof.
  induction l as [|x l IH]; [reflexivity|].
  unfold FormAnalyzer.sorted_by_date in *. simpl.
  rewrite IH. apply insert_by_date_insert_sorted.
Qed.

Lemma date_order_asym (a b : HistoryEntry) :
  String.ltb (date a) (date b) = true -> String.ltb (date b) (date a) = false.
Proof. apply ltb_asym. Qed.

Lemma date_order_trans (a b c : HistoryEntry) :
  date_le a b -> date_le b c -> date_le a c.
Proof. unfold date_le. apply not_ltb_trans. Qed.

Lemma sorted_by_date_perm (l : list HistoryEntry) :
  Permutation (FormAnalyzer.sorted_by_date l) l.
Proof. rewrite sorted_by_date_stable_sort. apply stable_sort_perm. Qed.

Lemma sorted_by_date_sorted (l : list HistoryEntry) :
  StronglySorted date_le (FormAnalyzer.sorted_by_date l).
Proof.
  rewrite sorted_by_date_stable_sort.
  apply (stable_sort_sorted _ date_order_asym date_order_trans).
Qed.

Lemma sorted_by_date_idempotent (l : list HistoryEntry) :
  FormAnalyzer.sorted_by_date (FormAnalyzer.sorted_by_date l)
  = FormAnalyzer.sorted_by_date l.
Proof.
  rewrite !sorted_by_date_stable_sort.
  apply (stable_sort_idempotent _ date_order_asym date_order_trans).
Qed.

(** X14.  [export_elo_history] gives every team the entries of its
    history, sorted by date, the entries of one day in the order in
    which they were appended. *)
Theorem export_elo_history_sorted (self : ELOCalculator) (team : string)
    (history : list HistoryEntry) (day : string) :
  elo_history self !! team = Some history ->
  exists sorted : list HistoryEntry,
    export_elo_history self !! team = Some sorted
    /\ Permutation sorted history
    /\ StronglySorted date_le sorted
    /\ List.filter (fun e => String.eqb (date e) day) sorted
       = List.filter (fun e => String.eqb (date e) day) history.
Proof.
  intros Hh. exists (FormAnalyzer.sorted_by_date history).
  split; [|split; [|split]].
  - unfold export_elo_history. rewrite lookup_fmap, Hh. reflexivity.
  - apply sorted_by_date_perm.
  - apply sorted_by_date_sorted.
  - rewrite sorted_by_date_stable_sort. apply stable_sort_filter.
    intros a b Ha Hb. apply String.eqb_eq in Ha, Hb. rewrite Ha, Hb. apply ltb_irrefl.
Qed.

(** X14, witness: three entries, two of them of one day. *)
Lemma export_elo_history_sorted_witness :
  exists sorted : list HistoryEntry,
    export_elo_history
      (mkELOCalculator 20 100 true 1500 ∅
         (<["Arsenal" := [mkEntry "2024-08-24" 1510; mkEntry "2024-08-17" 1503]]> ∅))
    !! "Arsenal" = Some sorted
    /\ StronglySorted date_le sorted.
Proof.
  destruct (export_elo_history_sorted
              (mkELOCalculator 20 100 true 1500 ∅
                 (<["Arsenal" := [mkEntry "2024-08-24" 1510; mkEntry "2024-08-17" 1503]]> ∅))
              "Arsenal" [mkEntry "2024-08-24" 1510; mkEntry "2024-08-17" 1503] "2024-08-17")
    as (sorted & H1 & _ & H2 & _).
  - reflexivity.
  - exists sorted. split; assumption.
Defined.

Lemma fold_insert_history (data : list (string * list HistoryEntry))
    (h : gmap string (list HistoryEntry)) :
  fold_left (fun h '(team, history) => <[team := history]> h) data h
  = list_to_map (rev data) ∪ h.
Proof.
  revert h. induction data as [|[t l] data IH]; intros h.
  - simpl. rewrite (left_id_L ∅ (∪)). reflexivity.
  - simpl fold_left. rewrite IH. simpl rev. rewrite list_to_map_app. simpl.
    rewrite <- (assoc_L (∪)). f_equal.
    rewrite insert_union_singleton_l. rewrite <- insert_empty. reflexivity.
Qed.

(** X15.  A fresh calculator that loads the exported history holds
    exactly the exported history, and exporting it again changes
    nothing. *)
Theorem history_export_round_trip (self fresh : ELOCalculator) :
  elo_history fresh = ∅ ->
  elo_history (load_elo_history (map_to_list (export_elo_history self)) fresh)
  = export_elo_history self
  /\ export_elo_history (load_elo_history (map_to_list (export_elo_history self)) fresh)
     = export_elo_history self.
Proof.
  intros Hfresh.
  assert (Hload : elo_history (load_elo_history (map_to_list (export_elo_history self)) fresh)
                  = export_elo_history self).
  { unfold load_elo_history. simpl. rewrite fold_insert_history, Hfresh.
    rewrite (right_id_L ∅ (∪)).
    rewrite <- (list_to_map_to_list (export_elo_history self)) at 2.
    apply list_to_map_proper.
    - change (NoDup (map fst (rev (map_to_list (export_elo_history self))))).
      rewrite <- (Permutation_map fst (Permutation_rev _)).
      apply NoDup_fst_map_to_list.
    - symmetry. apply Permutation_rev. }
  split; [exact Hload|].
  unfold export_elo_history at 1. rewrite Hload. unfold export_elo_history.
  rewrite <- map_fmap_compose. apply map_fmap_ext.
  intros team l _. simpl. apply sorted_by_date_idempotent.
Qed.

(** X15, witness: the default calculator loading its own export. *)
Lemma history_export_round_trip_witness :
  export_elo_history
    (load_elo_history (map_to_list (export_elo_history ELOCalculator_default))
       ELOCalculator_default)
  = export_elo_history ELOCalculator_default.
Proof. apply (history_export_round_trip ELOCalculator_default ELOCalculator_default). reflexivity. Defined.

End RatingStoreFacts.

Section RationalRoundingMore.
Import RatRound.
Local Open Scope Q_scope.

Lemma rat_round_comp (x y : Q) : x == y -> py_round x = py_round y.
Proof.
  intros E. unfold py_round. rewrite (Qfloor_comp _ _ E).
  assert (Ec : Qcompare (x - inject_Z (Qfloor y)) (1 # 2)
               = Qcompare (y - inject_Z (Qfloor y)) (1 # 2)).
  { apply Qcompare_comp; [rewrite E|]; reflexivity. }
  rewrite Ec. reflexivity.
Qed.

Lemma rat_round_mono (x y : Q) : x <= y -> (py_round x <= py_round y)%Z.
Proof.
  intros Hxy.
  destruct (Z_le_gt_dec (py_round x) (py_round y)) as [|Hgt]; [assumption|].
  exfalso.
  destruct (rat_round_nearest x) as [Hx1 _]. destruct (rat_round_nearest y) as [_ Hy2].
  assert (Hz : (py_round y + 1 <= py_round x)%Z) by lia.
  rewrite Zle_Qle, inject_Z_succ in Hz.
  assert (E : x == y) by lra.
  apply rat_round_comp in E. lia.
Qed.

Lemma rat_round_integer (k : Z) : py_round (inject_Z k) = k.
Proof.
  unfold py_round. rewrite Qfloor_Z.
  destruct (Qcompare_spec (inject_Z k - inject_Z k) (1 # 2)) as [E|L|G];
    [exfalso; lra | reflexivity | exfalso; lra].
Qed.

Lemma scale_pos (n : nat) : 0 < inject_Z (10 ^ Z.of_nat n).
Proof.
  change 0 with (inject_Z 0). rewrite <- Zlt_Qlt. apply Z.pow_pos_nonneg; lia.
Qed.

Lemma rat_round_ndigits_comp (x y : Q) (n : nat) :
  x == y -> py_round_ndigits x n = py_round_ndigits y n.
Proof.
  intros E. unfold py_round_ndigits. f_equal. f_equal.
  apply rat_round_comp. rewrite E. reflexivity.
Qed.

Lemma rat_round_ndigits_mono (x y : Q) (n : nat) :
  x <= y -> py_round_ndigits x n <= py_round_ndigits y n.
Proof.
  intros Hxy. unfold py_round_ndigits.
  pose proof (scale_pos n) as Hs.
  apply Qmult_le_compat_r.
  - rewrite <- Zle_Qle. apply rat_round_mono.
    apply Qmult_le_compat_r; [assumption | apply Qlt_le_weak, Hs].
  - apply Qlt_le_weak, Qinv_lt_0_compat, Hs.
Qed.

Lemma rat_round_ndigits_integer (k : Z) (n : nat) :
  py_round_ndigits (inject_Z k) n == inject_Z k.
Proof.
  unfold py_round_ndigits. pose proof (scale_pos n) as Hs.
  rewrite <- inject_Z_mult, rat_round_integer, inject_Z_mult.
  field. lra.
Qed.

End RationalRoundingMore.

Section VenueMore.
Import RatRound VenueProbabilityModel.
Local Open Scope Q_scope.

Lemma gvap_value (home_elo away_elo : Z) (elo_bands : list EloBand) (b : EloBand) :
  find_band (band_number (Z.abs (home_elo - away_elo))) elo_bands = Some b ->
  0 <= stronger_win_pct b -> 0 <= draw_pct b -> 0 <= weaker_win_pct b ->
  0 < stronger_win_pct b + draw_pct b + weaker_win_pct b ->
  let h := (home_elo >=? away_elo)%Z in
  let sa := adjust_probability_for_venue (stronger_win_pct b) h "stronger_win" in
  let wa := adjust_probability_for_venue (weaker_win_pct b) h "weaker_win" in
  let da := adjust_probability_for_venue (draw_pct b) h "draw" in
  get_venue_adjusted_probabilities home_elo away_elo elo_bands
  = Ok (if h
        then mkProbabilities (py_round_ndigits (sa / (sa + wa + da)) 4)
               (py_round_ndigits (da / (sa + wa + da)) 4)
               (py_round_ndigits (wa / (sa + wa + da)) 4)
        else mkProbabilities (py_round_ndigits (wa / (sa + wa + da)) 4)
               (py_round_ndigits (da / (sa + wa + da)) 4)
               (py_round_ndigits (sa / (sa + wa + da)) 4)).
Proof.
  intros Hfind Hs Hd Hw Hsum h sa wa da. unfold get_venue_adjusted_probabilities.
  rewrite Hfind.
  pose proof (adjusted_total_pos _ _ _ (home_elo >=? away_elo)%Z Hs Hd Hw Hsum) as Ht.
  fold h in Ht |- *. fold sa wa da in Ht |- *.
  assert (Hne : ~ sa + wa + da == 0) by lra.
  rewrite !py_div_ok by exact Hne. cbn [mbind result_bind].
  destruct h; reflexivity.
Qed.

(** X17.  Playing at home never lowers a side's win probability: for a
    band of frequencies, the stronger side's win probability is at least
    as high when it is the home side as when the same two sides meet at
    the other ground, and so is the weaker side's. *)
Theorem venue_home_advantage (stronger_elo weaker_elo : Z) (elo_bands : list EloBand)
    (b : EloBand) :
  (weaker_elo < stronger_elo)%Z ->
  find_band (band_number (Z.abs (stronger_elo - weaker_elo))) elo_bands = Some b ->
  frequencies b ->
  exists at_home away : Probabilities,
    get_venue_adjusted_probabilities stronger_elo weaker_elo elo_bands = Ok at_home
    /\ get_venue_adjusted_probabilities weaker_elo stronger_elo elo_bands = Ok away
    /\ away_win away <= home_win at_home
    /\ away_win at_home <= home_win away.
Proof.
  intros Hlt Hfind ([Hs _] & [Hd _] & [Hw _] & Hsum).
  assert (Hfind' : find_band (band_number (Z.abs (weaker_elo - stronger_elo))) elo_bands
                   = Some b).
  { replace (weaker_elo - stronger_elo)%Z with (- (stronger_elo - weaker_elo))%Z by lia.
    rewrite Z.abs_opp. exact Hfind. }
  rewrite (gvap_value _ _ _ _ Hfind Hs Hd Hw Hsum).
  rewrite (gvap_value _ _ _ _ Hfind' Hs Hd Hw Hsum).
  assert (H1 : (stronger_elo >=? weaker_elo)%Z = true) by (apply Z.geb_le; lia).
  assert (H2 : (weaker_elo >=? stronger_elo)%Z = false).
  { destruct (Z.geb_spec weaker_elo stronger_elo); [lia | reflexivity]. }
  rewrite H1, H2. do 2 eexists. split; [reflexivity|]. split; [reflexivity|].
  cbn [home_win away_win].
  rewrite !adjust_stronger_win, !adjust_weaker_win, !adjust_draw.
  unfold HOME_ADVANTAGE_MULTIPLIER, AWAY_DISADVANTAGE_MULTIPLIER,
    DRAW_HOME_MULTIPLIER, DRAW_AWAY_MULTIPLIER.
  set (s := stronger_win_pct b) in *. set (d := draw_pct b) in *.
  set (w := weaker_win_pct b) in *.
  assert (Ht1 : 0 < s * 1.11 + w * 0.89 + d * 0.95) by lra.
  assert (Ht2 : 0 < s * 0.89 + w * 1.11 + d * 1.05) by lra.
  split; apply rat_round_ndigits_mono.
  - apply Qle_shift_div_l; [exact Ht1|].
    unfold Qdiv. rewrite <- Qmult_assoc, (Qmult_comm (/ _)), Qmult_assoc.
    apply Qle_shift_div_r; [exact Ht2|]. nra.
  - apply Qle_shift_div_l; [exact Ht2|].
    unfold Qdiv. rewrite <- Qmult_assoc, (Qmult_comm (/ _)), Qmult_assoc.
    apply Qle_shift_div_r; [exact Ht1|]. nra.
Qed.


(** X17, witness: gap 115 (band 3). *)
Lemma venue_home_advantage_witness :
  exists at_home away : Probabilities,
    get_venue_adjusted_probabilities 1835 1720
      [mkEloBand 2 0.45 0.27 0.28; mkEloBand 3 0.52 0.25 0.23] = Ok at_home
    /\ get_venue_adjusted_probabilities 1720 1835
         [mkEloBand 2 0.45 0.27 0.28; mkEloBand 3 0.52 0.25 0.23] = Ok away
    /\ away_win away <= home_win at_home
    /\ away_win at_home <= home_win away.
Proof.
  apply (venue_home_advantage 1835 1720
           [mkEloBand 2 0.45 0.27 0.28; mkEloBand 3 0.52 0.25 0.23]
           (mkEloBand 3 0.52 0.25 0.23)).
  - reflexivity.
  - reflexivity.
  - unfold frequencies. simpl. repeat split; vm_compute; discriminate || reflexivity.
Defined.

Lemma py_div_inversion (a b q : Q) : py_div a b = Ok q -> ~ b == 0 /\ q = a / b.
Proof.
  unfold py_div. destruct (Qeq_bool b 0) eqn:E; [discriminate|].
  intros [= <-]. split; [|reflexivity]. apply Qeq_bool_neq, E.
Qed.

Lemma market_odds_inversion (p q : Q) (m : MarketOdds) :
  market_odds p q = Ok m ->
  ~ q == 0 /\ m = mkMarketOdds p (py_round_ndigits (1 / q) 2).
Proof.
  unfold market_odds. destruct (py_div 1 q) as [inv|] eqn:E; [|discriminate].
  apply py_div_inversion in E as [Hq ->]. simpl. intros [= <-]. auto.
Qed.

Lemma fair_odds_inversion (home_elo away_elo : Z) (elo_bands : list EloBand)
    (b : EloBand) (r : FairOdds) :
  find_band (band_number (Z.abs (home_elo - away_elo))) elo_bands = Some b ->
  calculate_fair_odds home_elo away_elo elo_bands = Ok r ->
  let h := (home_elo >=? away_elo)%Z in
  let sa := adjust_probability_for_venue (stronger_win_pct b) h "stronger_win" in
  let wa := adjust_probability_for_venue (weaker_win_pct b) h "weaker_win" in
  let da := adjust_probability_for_venue (draw_pct b) h "draw" in
  let t := sa + da + wa in
  let hp := if h then sa / t else wa / t in
  let ap := if h then wa / t else sa / t in
  ~ t == 0 /\ ~ hp == 0 /\ ~ da / t == 0 /\ ~ ap == 0
  /\ odds_home_win r = mkMarketOdds (py_round_ndigits hp 4) (py_round_ndigits (1 / hp) 2)
  /\ odds_draw r
     = mkMarketOdds (py_round_ndigits (da / t) 4) (py_round_ndigits (1 / (da / t)) 2)
  /\ odds_away_win r = mkMarketOdds (py_round_ndigits ap 4) (py_round_ndigits (1 / ap) 2).
Proof.
  intros Hfind Hr. cbv zeta. unfold calculate_fair_odds in Hr. rewrite Hfind in Hr.
  cbn [mbind result_bind] in Hr.
  set (h := (home_elo >=? away_elo)%Z) in *.
  set (sa := adjust_probability_for_venue _ h "stronger_win") in *.
  set (wa := adjust_probability_for_venue _ h "weaker_win") in *.
  set (da := adjust_probability_for_venue _ h "draw") in *.
  set (t := sa + da + wa) in *.
  set (hp := if h then sa / t else wa / t).
  set (ap := if h then wa / t else sa / t).
  destruct (py_div sa t) as [q1|] eqn:E1; [|discriminate]. cbn [mbind result_bind] in Hr.
  destruct (py_div da t) as [q2|] eqn:E2; [|discriminate]. cbn [mbind result_bind] in Hr.
  destruct (py_div wa t) as [q3|] eqn:E3; [|discriminate]. cbn [mbind result_bind] in Hr.
  apply py_div_inversion in E1 as [Ht ->].
  apply py_div_inversion in E2 as [_ ->].
  apply py_div_inversion in E3 as [_ ->].
  fold hp ap in Hr.
  destruct (market_odds _ hp) as [m1|] eqn:M1; [|discriminate]. cbn [mbind result_bind] in Hr.
  destruct (market_odds _ (da / t)) as [m2|] eqn:M2; [|discriminate].
  cbn [mbind result_bind] in Hr.
  destruct (market_odds _ ap) as [m3|] eqn:M3; [|discriminate]. cbn [mbind result_bind] in Hr.
  apply market_odds_inversion in M1 as [H1 ->].
  apply market_odds_inversion in M2 as [H2 ->].
  apply market_odds_inversion in M3 as [H3 ->].
  injection Hr as <-. cbn [odds_home_win odds_draw odds_away_win]. repeat split; assumption.
Qed.

Lemma market_bounds (x t : Q) :
  0 <= x -> x <= t -> 0 < t -> ~ x / t == 0 ->
  0 <= py_round_ndigits (x / t) 4 <= 1 /\ 1 <= py_round_ndigits (1 / (x / t)) 2.
Proof.
  intros Hx Hxt Ht Hne.
  assert (Hp0 : 0 <= x / t) by (apply Qle_shift_div_l; [assumption | lra]).
  assert (Hp1 : x / t <= 1) by (apply Qle_shift_div_r; [assumption | lra]).
  assert (Hpos : 0 < x / t).
  { destruct (Qlt_le_dec 0 (x / t)) as [|Hle]; [assumption|].
    exfalso. apply Hne. lra. }
  assert (Hinv : 1 <= 1 / (x / t)).
  { apply Qle_shift_div_l; [exact Hpos | lra]. }
  pose proof (rat_round_ndigits_integer 0 4) as E0.
  pose proof (rat_round_ndigits_integer 1 4) as E1.
  pose proof (rat_round_ndigits_integer 1 2) as E2.
  pose proof (rat_round_ndigits_mono _ _ 4 Hp0) as M0.
  pose proof (rat_round_ndigits_mono _ _ 4 Hp1) as M1.
  pose proof (rat_round_ndigits_mono _ _ 2 Hinv) as M2.
  change (inject_Z 0) with 0 in *. change (inject_Z 1) with 1 in *.
  repeat split; lra.
Qed.

(** X18.  For a band of frequencies, whenever [calculate_fair_odds]
    returns, the three probabilities it reports lie between 0 and 1 and
    the three fair odds are at least 1. *)
Theorem fair_odds_at_least_one (home_elo away_elo : Z) (elo_bands : list EloBand)
    (b : EloBand) (r : FairOdds) :
  find_band (band_number (Z.abs (home_elo - away_elo))) elo_bands = Some b ->
  frequencies b ->
  calculate_fair_odds home_elo away_elo elo_bands = Ok r ->
  Forall (fun m : MarketOdds => 0 <= probability m <= 1 /\ 1 <= fair_odds m)
    [odds_home_win r; odds_draw r; odds_away_win r].
Proof.
  intros Hfind ([Hs _] & [Hd _] & [Hw _] & _) Hr.
  destruct (fair_odds_inversion _ _ _ _ _ Hfind Hr)
    as (Ht & Hhp & Hdp & Hap & -> & -> & ->).
  rewrite adjust_stronger_win, adjust_weaker_win, adjust_draw in *.
  unfold HOME_ADVANTAGE_MULTIPLIER, AWAY_DISADVANTAGE_MULTIPLIER,
    DRAW_HOME_MULTIPLIER, DRAW_AWAY_MULTIPLIER in *.
  set (h := (home_elo >=? away_elo)%Z) in *.
  set (sa := if h then stronger_win_pct b * 1.11 else _) in *.
  set (wa := if h then weaker_win_pct b * 0.89 else _) in *.
  set (da := if h then draw_pct b * 0.95 else _) in *.
  assert (Hsa : 0 <= sa) by (subst sa; destruct h; lra).
  assert (Hwa : 0 <= wa) by (subst wa; destruct h; lra).
  assert (Hda : 0 <= da) by (subst da; destruct h; lra).
  clearbody sa wa da.
  assert (Htp : 0 < sa + da + wa).
  { destruct (Qlt_le_dec 0 (sa + da + wa)) as [|Hle]; [assumption|].
    exfalso. apply Ht. lra. }
  apply List.Forall_cons; [|apply List.Forall_cons; [|apply List.Forall_cons;
    [|apply List.Forall_nil]]]; cbn [probability fair_odds].
  - destruct h; apply market_bounds; (assumption || lra).
  - apply market_bounds; (assumption || lra).
  - destruct h; apply market_bounds; (assumption || lra).
Qed.

(** X18, witness: band 1 at equal ratings. *)
Lemma fair_odds_at_least_one_witness :
  exists r : FairOdds,
    calculate_fair_odds 1500 1500 [mkEloBand 1 0.4 0.3 0.3] = Ok r
    /\ Forall (fun m : MarketOdds => 0 <= probability m <= 1 /\ 1 <= fair_odds m)
         [odds_home_win r; odds_draw r; odds_away_win r].
Proof.
  eexists.
  assert (Hr : calculate_fair_odds 1500 1500 [mkEloBand 1 0.4 0.3 0.3] = Ok _)
    by (vm_compute; reflexivity).
  split; [exact Hr|].
  refine (fair_odds_at_least_one 1500 1500 [mkEloBand 1 0.4 0.3 0.3]
            (mkEloBand 1 0.4 0.3 0.3) _ eq_refl _ Hr).
  unfold frequencies. simpl. repeat split; vm_compute; discriminate || reflexivity.
Defined.

(** X19.  [calculate_fair_odds] raises [IndexError] on the empty table
    and on no other. *)
Theorem fair_odds_index_error_iff (home_elo away_elo : Z) (elo_bands : list EloBand) :
  calculate_fair_odds home_elo away_elo elo_bands = Raise IndexError
  <-> elo_bands = [].
Proof.
  split.
  - intros Hr. destruct elo_bands as [|b0 rest]; [reflexivity|]. exfalso.
    unfold calculate_fair_odds in Hr.
    destruct (find_band _ (b0 :: rest)) as [b|]; cbn [mbind result_bind] in Hr;
      unfold market_odds, py_div in Hr;
      repeat (match type of Hr with
              | context [Qeq_bool ?x ?y] => destruct (Qeq_bool x y)
              end; cbn [mbind result_bind] in Hr; try discriminate).
  - intros ->. reflexivity.
Qed.

End VenueMore.

Section CalibrationMore.
Import RatRound CalibrationEstimator CalibrationCounts.
Local Open Scope Z_scope.

Lemma tally_match_step (sh sa : Tally) (m : MatchRecord) :
  tally_match (sh, sa) m
  = (mkTally (wins sh + (if rated m && stronger_is_home m && stronger_won m then 1 else 0))
       (total sh + (if rated m && stronger_is_home m then 1 else 0)),
     mkTally (wins sa + (if rated m && negb (stronger_is_home m) && stronger_won m
                         then 1 else 0))
       (total sa + (if rated m && negb (stronger_is_home m) then 1 else 0))).
Proof.
  destruct sh as [w0 t0], sa as [w1 t1].
  unfold tally_match, rated, stronger_is_home, stronger_won.
  destruct (home_elo m) as [| |h], (away_elo m) as [| |a];
    cbn [get_elo is_1500 orb andb negb wins total];
    rewrite ?Z.add_0_r; try reflexivity;
    try (destruct (Z.eqb_spec h 1500); cbn [orb andb negb]; rewrite ?Z.add_0_r; reflexivity);
    try (destruct (Z.eqb_spec a 1500); cbn [orb andb negb]; rewrite ?Z.add_0_r; reflexivity).
  destruct (Z.eqb_spec h 1500), (Z.eqb_spec a 1500); cbn [orb andb negb];
    rewrite ?Z.add_0_r; try reflexivity.
  destruct (h >=? a); cbn [andb negb wins total].
  - destruct (home_goals m >? away_goals m); rewrite ?Z.add_0_r; reflexivity.
  - destruct (away_goals m >? home_goals m); rewrite ?Z.add_0_r; reflexivity.
Qed.

Lemma fold_tally_counts (ms : list MatchRecord) (sh sa : Tally) :
  fold_left tally_match ms (sh, sa)
  = (mkTally (wins sh + home_wins ms) (total sh + home_games ms),
     mkTally (wins sa + away_wins ms) (total sa + away_games ms)).
Proof.
  revert sh sa. induction ms as [|m ms IH]; intros sh sa.
  - unfold home_wins, home_games, away_wins, away_games. simpl.
    rewrite !Z.add_0_r. destruct sh, sa. reflexivity.
  - cbn [fold_left]. rewrite tally_match_step, IH. cbn [wins total].
    unfold home_wins, home_games, away_wins, away_games,
      stronger_home_group, stronger_away_group.
    cbn [List.filter].
    destruct (rated m), (stronger_is_home m); cbn [andb negb List.filter];
      destruct (stronger_won m); cbn [andb negb List.filter length];
      rewrite ?Nat2Z.inj_succ; f_equal; f_equal; lia.
Qed.

Lemma counts_bounds (ms : list MatchRecord) :
  0 <= home_wins ms <= home_games ms /\ 0 <= away_wins ms <= away_games ms.
Proof.
  unfold home_wins, home_games, away_wins, away_games.
  pose proof (List.filter_length_le stronger_won (stronger_home_group ms)).
  pose proof (List.filter_length_le stronger_won (stronger_away_group ms)).
  lia.
Qed.

Lemma inject_Z_nonzero (z : Z) : z <> 0 -> ~ (inject_Z z == 0)%Q.
Proof. intros Hz E. apply Hz. change 0%Q with (inject_Z 0) in E. apply inject_Z_injective, E. Qed.

(** What calibration computes when both groups have matches, in terms of
    the four counts. *)
Lemma calibration_outcome (today : string) (ms : list MatchRecord) :
  home_games ms <> 0 -> away_games ms <> 0 ->
  (home_wins ms + away_wins ms = 0 ->
   calculate_home_advantage_multipliers today ms = Raise ZeroDivisionError)
  /\ (home_wins ms + away_wins ms <> 0 ->
      let home_win_rate := (inject_Z (home_wins ms) / inject_Z (home_games ms))%Q in
      let away_win_rate := (inject_Z (away_wins ms) / inject_Z (away_games ms))%Q in
      let combined_rate :=
        (inject_Z (home_wins ms + away_wins ms)
         / inject_Z (home_games ms + away_games ms))%Q in
      calculate_home_advantage_multipliers today ms
      = Ok (Calibrated (py_round_ndigits (home_win_rate / combined_rate) 3)
              (py_round_ndigits (away_win_rate / combined_rate) 3)
              (py_round_ndigits home_win_rate 4) (py_round_ndigits away_win_rate 4)
              (py_round_ndigits combined_rate 4)
              (home_games ms + away_games ms) (home_games ms) (away_games ms) today)).
Proof.
  intros Hh Ha. unfold calculate_home_advantage_multipliers.
  rewrite fold_tally_counts. cbn [wins total]. rewrite !Z.add_0_l.
  destruct (Z.eqb_spec (home_games ms) 0) as [|_]; [contradiction|].
  destruct (Z.eqb_spec (away_games ms) 0) as [|_]; [contradiction|].
  cbn [orb].
  pose proof (counts_bounds ms) as [[Hw0 Hw1] [Hw2 Hw3]].
  assert (Hsum : home_games ms + away_games ms <> 0) by lia.
  rewrite !py_div_ok by (apply inject_Z_nonzero; assumption).
  cbn [mbind result_bind]. split.
  - intros Hz. rewrite Hz. rewrite py_div_zero; [reflexivity|].
    unfold Qdiv. change (inject_Z 0) with 0%Q. ring.
  - intros Hnz. cbv zeta.
    assert (Hc : ~ (inject_Z (home_wins ms + away_wins ms)
                    / inject_Z (home_games ms + away_games ms) == 0)%Q).
    { intros E. apply (inject_Z_nonzero _ Hnz).
      apply (inject_Z_nonzero) in Hsum.
      apply (Qmult_inj_r _ _ (/ inject_Z (home_games ms + away_games ms))%Q).
      - intros E'. apply Hsum.
        rewrite <- (Qinv_involutive (inject_Z (home_games ms + away_games ms))), E'.
        reflexivity.
      - unfold Qdiv in E. rewrite E. ring. }
    rewrite !py_div_ok by exact Hc. reflexivity.
Qed.


(** X23.  Past the safety check calibration can still divide by zero:
    when both groups have matches and the stronger side won none of
    them, the combined win rate is 0 and the multipliers are not
    computed. *)
Theorem calibration_without_wins_raises (today : string) (ms : list MatchRecord) :
  home_games ms <> 0 -> away_games ms <> 0 ->
  home_wins ms + away_wins ms = 0 ->
  calculate_home_advantage_multipliers today ms = Raise ZeroDivisionError.
Proof. intros Hh Ha. apply (proj1 (calibration_outcome today ms Hh Ha)). Qed.

(** X23, witness: two draws, one per group. *)
Lemma calibration_without_wins_raises_witness :
  calculate_home_advantage_multipliers "2025-05-25"
    [mkMatch (Rating 1600) (Rating 1550) 1 1; mkMatch (Rating 1510) (Rating 1700) 1 1]
  = Raise ZeroDivisionError.
Proof.
  apply (calibration_without_wins_raises "2025-05-25"
           [mkMatch (Rating 1600) (Rating 1550) 1 1;
            mkMatch (Rating 1510) (Rating 1700) 1 1]);
    [discriminate | discriminate | reflexivity].
Defined.

Lemma calibration_empty_group (today : string) (ms : list MatchRecord) :
  home_games ms = 0 \/ away_games ms = 0 ->
  calculate_home_advantage_multipliers today ms
  = Ok (Insufficient 1.11 0.89 "Insufficient data").
Proof.
  intros Hz. unfold calculate_home_advantage_multipliers.
  rewrite fold_tally_counts. cbn [wins total]. rewrite !Z.add_0_l.
  destruct Hz as [-> | ->]; [reflexivity|].
  rewrite orb_true_r. reflexivity.
Qed.

Lemma calibration_same_counts (today : string) (ms ms' : list MatchRecord) :
  home_games ms = home_games ms' -> away_games ms = away_games ms' ->
  home_wins ms = home_wins ms' -> away_wins ms = away_wins ms' ->
  calculate_home_advantage_multipliers today ms
  = calculate_home_advantage_multipliers today ms'.
Proof.
  intros E1 E2 E3 E4. unfold calculate_home_advantage_multipliers.
  rewrite !fold_tally_counts, E1, E2, E3, E4. reflexivity.
Qed.

Lemma filter_permutation {A : Type} (P : A -> bool) (l l' : list A) :
  Permutation l l' -> Permutation (List.filter P l) (List.filter P l').
Proof.
  induction 1 as [|x l l' _ IH|x y l|l1 l2 l3 _ IH1 _ IH2]; simpl.
  - constructor.
  - destruct (P x); [apply perm_skip|]; exact IH.
  - destruct (P x), (P y); try reflexivity. apply perm_swap.
  - etransitivity; eassumption.
Qed.

(** X20.  Calibration does not depend on the order of the matches. *)
Theorem calibration_order_independent (today : string) (ms ms' : list MatchRecord) :
  Permutation ms ms' ->
  calculate_home_advantage_multipliers today ms
  = calculate_home_advantage_multipliers today ms'.
Proof.
  intros Hp. apply calibration_same_counts;
    unfold home_games, away_games, home_wins, away_wins,
      stronger_home_group, stronger_away_group;
    f_equal; apply Permutation_length; repeat apply filter_permutation; exact Hp.
Qed.

(** X20, witness: two matches swapped. *)
Lemma calibration_order_independent_witness :
  calculate_home_advantage_multipliers "2025-05-25"
    [mkMatch (Rating 1600) (Rating 1550) 2 1; mkMatch (Rating 1510) (Rating 1700) 0 1]
  = calculate_home_advantage_multipliers "2025-05-25"
      [mkMatch (Rating 1510) (Rating 1700) 0 1; mkMatch (Rating 1600) (Rating 1550) 2 1].
Proof. apply calibration_order_independent. apply perm_swap. Defined.

Lemma filter_rated_group (Q : MatchRecord -> bool) (ms : list MatchRecord) :
  List.filter (fun m => rated m && Q m) (List.filter rated ms)
  = List.filter (fun m => rated m && Q m) ms.
Proof.
  induction ms as [|m ms IH]; [reflexivity|]. simpl.
  destruct (rated m) eqn:E; simpl; rewrite ?E; simpl; rewrite IH; reflexivity.
Qed.

(** X21.  Matches with a missing rating or a rating of 1500 do not
    count: leaving them out of the list changes nothing. *)
Theorem calibration_ignores_unrated (today : string) (ms : list MatchRecord) :
  calculate_home_advantage_multipliers today (List.filter rated ms)
  = calculate_home_advantage_multipliers today ms.
Proof.
  apply calibration_same_counts;
    unfold home_games, away_games, home_wins, away_wins,
      stronger_home_group, stronger_away_group;
    rewrite filter_rated_group; reflexivity.
Qed.

Lemma Qdiv_le_cross (a b c d : Q) :
  (0 < b -> 0 < d -> a * d <= c * b -> a / b <= c / d)%Q.
Proof.
  intros Hb Hd H. apply Qle_shift_div_l; [exact Hd|].
  unfold Qdiv. rewrite <- Qmult_assoc, (Qmult_comm (/ b)), Qmult_assoc.
  apply Qle_shift_div_r; assumption.
Qed.

Lemma rate_ratio_ge_one (w n w' n' : Q) :
  (0 < n -> 0 < n' -> 0 <= w -> 0 <= w' -> 0 < w + w' -> w' * n <= w * n' ->
   1 <= (w / n) / ((w + w') / (n + n')))%Q.
Proof.
  intros Hn Hn' Hw Hw' Hs Hc.
  assert (Hcr : (0 < (w + w') / (n + n'))%Q).
  { apply Qlt_shift_div_l; lra. }
  apply Qle_shift_div_l; [exact Hcr|]. rewrite Qmult_1_l.
  apply Qdiv_le_cross; [lra | lra | nra].
Qed.

Lemma rate_ratio_le_one (w n w' n' : Q) :
  (0 < n -> 0 < n' -> 0 <= w -> 0 <= w' -> 0 < w + w' -> w * n' <= w' * n ->
   (w / n) / ((w + w') / (n + n')) <= 1)%Q.
Proof.
  intros Hn Hn' Hw Hw' Hs Hc.
  assert (Hcr : (0 < (w + w') / (n + n'))%Q).
  { apply Qlt_shift_div_l; lra. }
  apply Qle_shift_div_r; [exact Hcr|]. rewrite Qmult_1_l.
  apply Qdiv_le_cross; [lra | lra | nra].
Qed.

(** X22.  Whenever calibration computes the two multipliers, they lie on
    opposite sides of 1 (or both at 1): the group with the higher win
    rate gets the multiplier that is at least 1. *)
Theorem calibration_multipliers_straddle_one (today : string) (ms : list MatchRecord)
    (home_multiplier away_multiplier home_win_rate away_win_rate combined_rate : Q)
    (sample_size stronger_home_games stronger_away_games : Z) (last_updated : string) :
  calculate_home_advantage_multipliers today ms
  = Ok (Calibrated home_multiplier away_multiplier home_win_rate away_win_rate
          combined_rate sample_size stronger_home_games stronger_away_games
          last_updated) ->
  (away_multiplier <= 1 /\ 1 <= home_multiplier)%Q
  \/ (home_multiplier <= 1 /\ 1 <= away_multiplier)%Q.
Proof.
  intros Hr.
  destruct (Z.eq_dec (home_games ms) 0) as [Eh|Hh].
  { rewrite calibration_empty_group in Hr by auto. discriminate. }
  destruct (Z.eq_dec (away_games ms) 0) as [Ea|Ha].
  { rewrite calibration_empty_group in Hr by auto. discriminate. }
  destruct (calibration_outcome today ms Hh Ha) as [Hzero Hsome].
  destruct (Z.eq_dec (home_wins ms + away_wins ms) 0) as [Ez|Hnz].
  { rewrite Hzero in Hr by exact Ez. discriminate. }
  rewrite (Hsome Hnz) in Hr. cbv zeta in Hr.
  injection Hr as <- <- _ _ _ _ _ _ _.
  pose proof (counts_bounds ms) as [[Hw0 Hw1] [Hw2 Hw3]].
  rewrite !inject_Z_plus.
  assert (Hn : (0 < inject_Z (home_games ms))%Q).
  { change 0%Q with (inject_Z 0). rewrite <- Zlt_Qlt. lia. }
  assert (Hn' : (0 < inject_Z (away_games ms))%Q).
  { change 0%Q with (inject_Z 0). rewrite <- Zlt_Qlt. lia. }
  assert (Hw : (0 <= inject_Z (home_wins ms))%Q).
  { change 0%Q with (inject_Z 0). rewrite <- Zle_Qle. lia. }
  assert (Hw' : (0 <= inject_Z (away_wins ms))%Q).
  { change 0%Q with (inject_Z 0). rewrite <- Zle_Qle. lia. }
  assert (Hs : (0 < inject_Z (home_wins ms) + inject_Z (away_wins ms))%Q).
  { rewrite <- inject_Z_plus. change 0%Q with (inject_Z 0). rewrite <- Zlt_Qlt. lia. }
  pose proof (rat_round_ndigits_integer 1 3) as E1. change (inject_Z 1) with 1%Q in E1.
  destruct (Z_le_gt_dec (away_wins ms * home_games ms) (home_wins ms * away_games ms))
    as [Hc|Hc].
  - left. rewrite Zle_Qle, !inject_Z_mult in Hc.
    split; rewrite <- E1; apply rat_round_ndigits_mono.
    + rewrite (Qplus_comm (inject_Z (home_wins ms))),
        (Qplus_comm (inject_Z (home_games ms))).
      apply rate_ratio_le_one; try assumption; lra.
    + apply rate_ratio_ge_one; assumption.
  - right. assert (Hc' : home_wins ms * away_games ms <= away_wins ms * home_games ms)
      by lia.
    rewrite Zle_Qle, !inject_Z_mult in Hc'.
    split; rewrite <- E1; apply rat_round_ndigits_mono.
    + apply rate_ratio_le_one; assumption.
    + rewrite (Qplus_comm (inject_Z (home_wins ms))),
        (Qplus_comm (inject_Z (home_games ms))).
      apply rate_ratio_ge_one; try assumption; lra.
Qed.

(** X22, witness: one home win of the stronger side, one win in two away
    games. *)
Lemma calibration_multipliers_straddle_one_witness :
  calculate_home_advantage_multipliers "2025-05-25"
    [mkMatch (Rating 1600) (Rating 1550) 2 1;
     mkMatch (Rating 1510) (Rating 1700) 0 1;
     mkMatch (Rating 1510) (Rating 1700) 1 1]
  = Ok (Calibrated 1.500 0.750 1.0000 0.5000 0.6667 3 1 2 "2025-05-25")
  /\ ((0.750 <= 1 /\ 1 <= 1.500)%Q \/ (1.500 <= 1 /\ 1 <= 0.750)%Q).
Proof.
  assert (Hr : calculate_home_advantage_multipliers "2025-05-25"
                 [mkMatch (Rating 1600) (Rating 1550) 2 1;
                  mkMatch (Rating 1510) (Rating 1700) 0 1;
                  mkMatch (Rating 1510) (Rating 1700) 1 1]
               = Ok (Calibrated 1.500 0.750 1.0000 0.5000 0.6667 3 1 2 "2025-05-25"))
    by (vm_compute; reflexivity).
  split; [exact Hr|].
  exact (calibration_multipliers_straddle_one _ _ _ _ _ _ _ _ _ _ _ Hr).
Defined.

End CalibrationMore.

Section FormMore.
Import RatRound RatingEngine FormAnalyzer.

(** X24.  The form rating is clamped: for a history of ratings of at
    most 1000000 in size it lies between 0 and 10. *)
Theorem form_rating_clamped (team : string)
    (elo_history : gmap string (list HistoryEntry)) (num_matches : Z) :
  Forall (fun e => (Z.abs (elo e) <= 1000000)%Z) (default [] (elo_history !! team)) ->
  (0 <= form_rating (calculate_form_metrics team elo_history num_matches) <= 10)%Q.
Proof.
  intros _. unfold calculate_form_metrics.
  destruct (elo_history !! team) as [history|]; [|split; vm_compute; discriminate].
  destruct (length history <? 2)%nat; [split; vm_compute; discriminate|].
  cbn [form_rating].
  match goal with |- (0 <= py_round_ndigits ?x 1 <= 10)%Q => set (clamped := x) end.
  assert (H0 : (0 <= clamped)%Q).
  { subst clamped. apply Q.min_glb; [lra | apply Q.le_max_l]. }
  assert (H10 : (clamped <= 10)%Q) by (subst clamped; apply Q.le_min_l).
  pose proof (rat_round_ndigits_integer 0 1) as E0.
  pose proof (rat_round_ndigits_integer 10 1) as E10.
  pose proof (rat_round_ndigits_mono _ _ 1 H0) as M0.
  pose proof (rat_round_ndigits_mono _ _ 1 H10) as M10.
  change (inject_Z 0) with 0%Q in *. change (inject_Z 10) with 10%Q in *.
  split; lra.
Qed.

(** X24, witness: a run of three wins. *)
Lemma form_rating_clamped_witness :
  (0 <= form_rating
          (calculate_form_metrics "Arsenal"
             (<["Arsenal" := [mkEntry "2024-01-01" 1500; mkEntry "2024-01-02" 1512;
                              mkEntry "2024-01-03" 1525]]> ∅) 10) <= 10)%Q.
Proof.
  apply form_rating_clamped.
  repeat (apply List.Forall_cons; [vm_compute; discriminate|]). apply List.Forall_nil.
Defined.

Local Open Scope Z_scope.

Lemma sum_Z_from (l : list Z) (a : Z) : fold_left Z.add l a = a + sum_Z l.
Proof.
  unfold sum_Z. revert a. induction l as [|x l IH]; intros a; simpl; [lia|].
  rewrite (IH (a + x)), (IH (0 + x)). lia.
Qed.

Lemma sum_Z_cons (x : Z) (l : list Z) : sum_Z (x :: l) = x + sum_Z l.
Proof. unfold sum_Z at 1. simpl. apply sum_Z_from. Qed.

Lemma telescope (g : Z -> Z) (start : nat) (k : nat) :
  sum_Z (map (fun j : nat => g (Z.of_nat j) - g (Z.of_nat j + 1)) (seq start k))
  = g (Z.of_nat start) - g (Z.of_nat start + Z.of_nat k).
Proof.
  revert start. induction k as [|k IH]; intros start.
  - cbn [seq map]. rewrite Z.add_0_r. unfold sum_Z. simpl. lia.
  - cbn [seq map]. rewrite sum_Z_cons, IH.
    replace (Z.of_nat (S start)) with (Z.of_nat start + 1) by lia.
    replace (Z.of_nat start + Z.of_nat (S k))
      with (Z.of_nat start + 1 + Z.of_nat k) by lia.
    lia.
Qed.

Lemma recent_changes_map (s : list HistoryEntry) (start stop : Z) :
  0 <= stop ->
  flat_map (fun i => if i >? 0 then [elo_at s i - elo_at s (i - 1)] else [])
    (range_down start stop)
  = map (fun j : nat => elo_at s (start - Z.of_nat j) - elo_at s (start - (Z.of_nat j + 1)))
      (seq 0 (Z.to_nat (start - stop))).
Proof.
  intros Hstop. unfold range_down.
  assert (H : forall j, In j (seq 0 (Z.to_nat (start - stop))) -> start - Z.of_nat j > 0).
  { intros j Hj. apply in_seq in Hj. lia. }
  induction (seq 0 (Z.to_nat (start - stop))) as [|j l IH]; [reflexivity|].
  simpl. destruct (Z.gtb_spec (start - Z.of_nat j) 0) as [_|Hle].
  - simpl. f_equal; [f_equal; f_equal; lia|]. apply IH. intros j' Hj'. apply H. right. exact Hj'.
  - exfalso. specialize (H j (or_introl eq_refl)). lia.
Qed.

Lemma firstn_of_seq (m start k : nat) :
  firstn m (seq start k) = seq start (Nat.min m k).
Proof.
  revert start k. induction m as [|m IH]; intros start [|k]; try reflexivity.
  simpl. rewrite IH. reflexivity.
Qed.

Lemma firstn_changes_sum (s : list HistoryEntry) (start : Z) (k m : nat) :
  sum_Z (firstn m
           (map (fun j : nat => elo_at s (start - Z.of_nat j)
                                - elo_at s (start - (Z.of_nat j + 1)))
              (seq 0 k)))
  = elo_at s start - elo_at s (start - Z.of_nat (Nat.min m k)).
Proof.
  rewrite firstn_map, firstn_of_seq.
  rewrite (telescope (fun z => elo_at s (start - z)) 0 (Nat.min m k)).
  simpl. rewrite Z.sub_0_r. reflexivity.
Qed.

Lemma capped_sum (l : list Z) (m : nat) :
  (if (m <=? length l)%nat then sum_Z (firstn m l) else sum_Z l) = sum_Z (firstn m l).
Proof.
  destruct (Nat.leb_spec m (length l)) as [|Hlt]; [reflexivity|].
  rewrite firstn_all2 by lia. reflexivity.
Qed.

(** X25.  The changes telescope: for a history of at least two entries
    with ratings of at most 1000000 in size, the 5-match change is the
    latest rating of the history sorted by date minus the rating 5
    entries earlier, or as many entries earlier as [num_matches] and the
    history allow; likewise the 10-match change. *)
Theorem form_changes_telescope (team : string)
    (elo_history : gmap string (list HistoryEntry)) (num_matches : Z)
    (history : list HistoryEntry) :
  elo_history !! team = Some history ->
  (2 <= length history)%nat ->
  Forall (fun e => Z.abs (elo e) <= 1000000) history ->
  let sorted := sorted_by_date history in
  let n := Z.of_nat (length history) in
  let k := Z.max 0 (Z.min num_matches (n - 1)) in
  let metrics := calculate_form_metrics team elo_history num_matches in
  elo_change_last_5 metrics
  = elo_at sorted (n - 1) - elo_at sorted (n - 1 - Z.min 5 k)
  /\ elo_change_last_10 metrics
     = elo_at sorted (n - 1) - elo_at sorted (n - 1 - Z.min 10 k).
Proof.
  intros Hh Hlen _ sorted n k metrics. subst metrics.
  unfold calculate_form_metrics. rewrite Hh.
  destruct (Nat.ltb_spec (length history) 2) as [|_]; [lia|].
  cbn [elo_change_last_5 elo_change_last_10].
  fold sorted.
  assert (Hn : Z.of_nat (length sorted) = n).
  { subst sorted n. f_equal. apply Permutation_length, sorted_by_date_perm. }
  rewrite Hn. rewrite !capped_sum.
  rewrite recent_changes_map by lia.
  rewrite !firstn_changes_sum.
  assert (Hk : Z.of_nat (Z.to_nat (n - 1 - Z.max (n - num_matches - 1) 0)) = k)
    by (subst k; lia).
  split; do 2 f_equal; lia.
Qed.

(** X25, witness: three entries out of order. *)
Lemma form_changes_telescope_witness :
  elo_change_last_5
    (calculate_form_metrics "Arsenal"
       (<["Arsenal" := [mkEntry "2024-01-03" 1520; mkEntry "2024-01-01" 1500;
                        mkEntry "2024-01-02" 1490]]> ∅) 10)
  = 1520 - 1500.
Proof.
  exact (proj1 (form_changes_telescope "Arsenal"
                  (<["Arsenal" := [mkEntry "2024-01-03" 1520; mkEntry "2024-01-01" 1500;
                                   mkEntry "2024-01-02" 1490]]> ∅) 10
                  [mkEntry "2024-01-03" 1520; mkEntry "2024-01-01" 1500;
                   mkEntry "2024-01-02" 1490] eq_refl ltac:(simpl; lia)
                  ltac:(repeat (apply List.Forall_cons; [vm_compute; discriminate|]);
                        apply List.Forall_nil))).
Defined.

End FormMore.

Section RatingUpdateFacts.
Import RatingEngine RatingStore RatingUpdate.

(** *** The latest date of a history *)

Lemma sorted_by_date_in (l : list HistoryEntry) (e : HistoryEntry) :
  In e (FormAnalyzer.sorted_by_date l) <-> In e l.
Proof.
  split; apply Permutation_in; [|symmetry]; apply sorted_by_date_perm.
Qed.

Lemma last_date_some (l : list HistoryEntry) :
  l <> [] -> exists m, last (FormAnalyzer.sorted_by_date l) = Some m
                       /\ last_date l = Some (date m).
Proof.
  intros Hne.
  destruct (last (FormAnalyzer.sorted_by_date l)) as [m|] eqn:E.
  - exists m. split; [reflexivity|]. unfold last_date.
    destruct l; [contradiction|]. rewrite E. reflexivity.
  - apply last_None in E. exfalso. apply Hne.
    apply Permutation_nil. rewrite <- E. apply sorted_by_date_perm.
Qed.

Lemma last_date_greatest (l : list HistoryEntry) (d : string) (e : HistoryEntry) :
  last_date l = Some d -> In e l -> String.ltb d (date e) = false.
Proof.
  intros Hd He.
  assert (Hne : l <> []) by (intros ->; destruct He).
  destruct (last_date_some l Hne) as (m & Hm & Hd').
  rewrite Hd in Hd'. injection Hd' as ->.
  pose proof (sorted_by_date_sorted l) as Hs.
  apply sorted_by_date_in in He.
  destruct (sorted_last_greatest (fun y x => String.ltb (date y) (date x)) _ m Hs Hm e He)
    as [->|Ho].
  - apply ltb_irrefl.
  - exact Ho.
Qed.

Lemma last_date_attained (l : list HistoryEntry) (d : string) :
  last_date l = Some d -> exists e, In e l /\ date e = d.
Proof.
  intros Hd.
  assert (Hne : l <> []) by (intros ->; discriminate).
  destruct (last_date_some l Hne) as (m & Hm & Hd').
  rewrite Hd in Hd'. injection Hd' as ->.
  exists m. split; [|reflexivity].
  apply sorted_by_date_in. apply last_Some in Hm as [l' E]. rewrite E.
  apply in_or_app. right. left. reflexivity.
Qed.

Lemma latest_date_cases (hist : gmap string (list HistoryEntry)) (team : string) :
  (default [] (hist !! team) = [] /\ latest_date hist team = "1900-01-01")
  \/ (exists e, In e (default [] (hist !! team)) /\ date e = latest_date hist team).
Proof.
  unfold latest_date, last_elo_dates. rewrite lookup_omap.
  destruct (hist !! team) as [l|]; simpl; [|left; auto].
  destruct l as [|x l]; [left; auto|].
  right. destruct (last_date_some (x :: l) ltac:(discriminate)) as (m & _ & Hd).
  destruct (last_date_attained (x :: l) _ Hd) as (e & He & Hde).
  exists e. rewrite Hd. split; [exact He | exact Hde].
Qed.

Lemma latest_date_greatest (hist : gmap string (list HistoryEntry)) (team : string)
    (e : HistoryEntry) :
  In e (default [] (hist !! team)) ->
  String.ltb (latest_date hist team) (date e) = false.
Proof.
  intros He. unfold latest_date, last_elo_dates. rewrite lookup_omap.
  destruct (hist !! team) as [l|]; simpl in *; [|destruct He].
  assert (Hne : l <> []) by (intros ->; destruct He).
  destruct (last_date_some l Hne) as (m & _ & Hd). rewrite Hd. simpl.
  apply (last_date_greatest l); assumption.
Qed.


(** *** One match, then the loop *)

Lemma process_match_history (calc calc' : ELOCalculator) (home_team away_team : string)
    (home_goals away_goals : Z) (match_date : string) (out : Z * Z * R * R) :
  process_match calc home_team away_team home_goals away_goals match_date true
  = Ok (calc', out) ->
  exists home_entry away_entry : HistoryEntry,
    date home_entry = match_date /\ date away_entry = match_date
    /\ forall team : string,
         history_of calc' team
         = history_of calc team
           ++ (if decide (team = home_team) then [home_entry] else [])
           ++ (if decide (team = away_team) then [away_entry] else []).
Proof.
  intros Hp.
  apply process_match_inversion in Hp as (dh & da & _ & _ & _ & _ & _ & _ & _ & _ & Hh).
  do 2 eexists. split; [|split]; [| |intros team; unfold history_of; rewrite Hh;
                                       apply history_after_match]; reflexivity.
Qed.

Lemma process_loop_history (todo : list (nat * MatchData)) (calc calc' : ELOCalculator)
    (ms ms' : list MatchData) :
  process_loop todo calc ms = Ok (calc', ms') ->
  (forall team e, In e (history_of calc team) -> In e (history_of calc' team))
  /\ (forall i m, In (i, m) todo ->
        (exists e, In e (history_of calc' (m_home_team m)) /\ date e = m_date m)
        /\ (exists e, In e (history_of calc' (m_away_team m)) /\ date e = m_date m)).
Proof.
  revert calc ms. induction todo as [|[i m] todo IH]; intros calc ms Hl.
  - simpl in Hl. injection Hl as <- <-. split; [auto|]. intros i m [].
  - simpl in Hl.
    destruct (process_match calc _ _ _ _ _ true) as [[calc1 [[[nh na] ch] ca]]|] eqn:Hp;
      [|discriminate].
    cbn [mbind result_bind] in Hl.
    destruct (process_match_history _ _ _ _ _ _ _ _ Hp) as (eh & ea & Hdh & Hda & Hh).
    destruct (IH _ _ Hl) as [Hmono Hproc].
    split.
    + intros team e He. apply Hmono. rewrite Hh. apply in_or_app. left. exact He.
    + intros j mj [Heq|Hin]; [|exact (Hproc j mj Hin)].
      injection Heq as <- <-. split.
      * exists eh. split; [|exact Hdh]. apply Hmono. rewrite Hh.
        apply in_or_app. right. apply in_or_app. left.
        destruct (decide (m_home_team m = m_home_team m)); [left; reflexivity | contradiction].
      * exists ea. split; [|exact Hda]. apply Hmono. rewrite Hh.
        apply in_or_app. right. apply in_or_app. right.
        destruct (decide (m_away_team m = m_away_team m)); [left; reflexivity | contradiction].
Qed.

Lemma process_loop_matches (todo : list (nat * MatchData)) (calc calc' : ELOCalculator)
    (ms ms' : list MatchData) :
  NoDup (map fst todo) ->
  (forall i m, In (i, m) todo -> ms !! i = Some m) ->
  process_loop todo calc ms = Ok (calc', ms') ->
  length ms' = length ms
  /\ (forall i, ~ In i (map fst todo) -> ms' !! i = ms !! i)
  /\ (forall i m, In (i, m) todo ->
        exists new_home new_away, ms' !! i = Some (record_ratings new_home new_away m)).
Proof.
  revert calc ms. induction todo as [|[i m] todo IH]; intros calc ms Hnd Hval Hl.
  - simpl in Hl. injection Hl as <- <-. split; [reflexivity|]. split; [auto|]. intros i m [].
  - simpl in Hl.
    destruct (process_match calc _ _ _ _ _ true) as [[calc1 [[[nh na] ch] ca]]|] eqn:Hp;
      [|discriminate].
    cbn [mbind result_bind] in Hl.
    simpl in Hnd. apply NoDup_cons in Hnd as [Hi Hnd].
    assert (Hi' : ~ In i (map fst todo)).
    { intros H. apply Hi. apply list_elem_of_In. exact H. }
    assert (Hval1 : forall j mj, In (j, mj) todo ->
                                 alter (record_ratings nh na) i ms !! j = Some mj).
    { intros j mj Hj. rewrite list_lookup_alter_ne.
      - apply Hval. right. exact Hj.
      - intros <-. apply Hi'. apply (in_map fst) in Hj. exact Hj. }
    destruct (IH _ _ Hnd Hval1 Hl) as (Hlen & Hout & Hin).
    split; [rewrite Hlen; apply length_alter|]. split.
    + intros j Hj. rewrite Hout by (intros H; apply Hj; right; exact H).
      apply list_lookup_alter_ne. intros <-. apply Hj. left. reflexivity.
    + intros j mj [Heq|Hj]; [|apply Hin; exact Hj].
      injection Heq as <- <-. exists nh, na.
      rewrite Hout by exact Hi'. rewrite list_lookup_alter.
      rewrite (Hval i m (or_introl eq_refl)).
      destruct (decide (i = i)); [reflexivity | contradiction].
Qed.


(** *** The selection *)

Lemma indexed_fst (ms : list MatchData) :
  map fst (imap (fun i m => (i, m)) ms) = seq 0 (length ms).
Proof.
  change (map fst (imap (fun i m => (i, m)) ms))
    with (fst <$> imap (fun (i : nat) (m : MatchData) => (i, m)) ms).
  rewrite fmap_imap.
  rewrite (imap_ext _ (fun (j : nat) (_ : MatchData) => (fun k : nat => k) j))
    by reflexivity.
  rewrite imap_seq_0. apply map_id.
Qed.

Lemma indexed_in (ms : list MatchData) (i : nat) (m : MatchData) :
  In (i, m) (imap (fun i m => (i, m)) ms) <-> ms !! i = Some m.
Proof.
  rewrite <- list_elem_of_In, elem_of_lookup_imap. split.
  - intros (j & y & [= -> ->] & H). exact H.
  - intros H. exists i, m. auto.
Qed.

Lemma filter_keeps_nodup_fst {A B : Type} (P : A * B -> bool) (l : list (A * B)) :
  NoDup (map fst l) -> NoDup (map fst (List.filter P l)).
Proof.
  induction l as [|x l IH]; simpl; [auto|].
  intros Hnd. apply NoDup_cons in Hnd as [Hx Hnd].
  destruct (P x); [|apply IH, Hnd].
  simpl. apply NoDup_cons. split; [|apply IH, Hnd].
  intros Hin. apply Hx. apply list_elem_of_In in Hin. apply list_elem_of_In.
  apply in_map_iff in Hin as (y & Hy & Hin). apply in_map_iff. exists y.
  split; [exact Hy|]. apply List.filter_In in Hin. apply Hin.
Qed.

Lemma new_matches_in (hist : gmap string (list HistoryEntry)) (ms : list MatchData)
    (i : nat) (m : MatchData) :
  In (i, m) (new_matches hist ms)
  <-> ms !! i = Some m /\ needs_processing (last_elo_dates hist) m = true.
Proof.
  unfold new_matches, sorted_by_key.
  split.
  - intros H. apply (Permutation_in _ (stable_sort_perm _ _)) in H.
    apply List.filter_In in H as [H1 H2]. apply indexed_in in H1. auto.
  - intros [H1 H2]. apply (Permutation_in _ (Permutation_sym (stable_sort_perm _ _))).
    apply List.filter_In. split; [apply indexed_in, H1 | exact H2].
Qed.

Lemma new_matches_nodup (hist : gmap string (list HistoryEntry)) (ms : list MatchData) :
  NoDup (map fst (new_matches hist ms)).
Proof.
  unfold new_matches, sorted_by_key.
  rewrite (Permutation_map fst (stable_sort_perm _ _)).
  apply filter_keeps_nodup_fst. rewrite indexed_fst. apply NoDup_seq.
Qed.

Lemma new_matches_nil (hist : gmap string (list HistoryEntry)) (ms : list MatchData) :
  (forall m, In m ms -> needs_processing (last_elo_dates hist) m = false) ->
  new_matches hist ms = [].
Proof.
  intros Hno. destruct (new_matches hist ms) as [|[i m] l] eqn:E; [reflexivity|].
  exfalso.
  assert (Hin : In (i, m) (new_matches hist ms)) by (rewrite E; left; reflexivity).
  apply new_matches_in in Hin as [Hi Hn].
  rewrite Hno in Hn; [discriminate|].
  apply list_elem_of_In. eapply list_elem_of_lookup_2, Hi.
Qed.

Lemma process_new_matches_records (calc calc' : ELOCalculator) (ms ms' : list MatchData) :
  process_new_matches calc ms = Ok (calc', ms') ->
  length ms' = length ms
  /\ forall (i : nat) (m : MatchData), ms !! i = Some m ->
       if needs_processing (last_elo_dates (elo_history calc)) m
       then exists new_home new_away : Z,
              ms' !! i
              = Some (mkMatchData (m_home_team m) (m_away_team m) (m_home_goals m)
                        (m_away_goals m) (m_date m)
                        (CalibrationEstimator.Rating new_home)
                        (CalibrationEstimator.Rating new_away)
                        (CalibrationEstimator.Rating (Z.abs (new_home - new_away)))
                        (CalibrationEstimator.Rating
                           (VenueProbabilityModel.band_number
                              (Z.abs (new_home - new_away)))))
       else ms' !! i = Some m.
Proof.
  intros Hp. unfold process_new_matches in Hp.
  destruct (process_loop_matches _ _ _ _ _ (new_matches_nodup _ _)
              (fun i m H => proj1 (proj1 (new_matches_in _ _ _ _) H)) Hp)
    as (Hlen & Hout & Hin).
  split; [exact Hlen|]. intros i m Hi.
  destruct (needs_processing _ m) eqn:Hn.
  - destruct (Hin i m) as (nh & na & H); [apply new_matches_in; auto|].
    exists nh, na. exact H.
  - rewrite Hout; [exact Hi|].
    intros H. apply in_map_iff in H as ([j mj] & Hj & H). simpl in Hj. subst j.
    apply new_matches_in in H as [H1 H2]. congruence.
Qed.


(** The first update of the default calculator on one match. *)
Lemma first_update_runs :
  exists (calc' : ELOCalculator) (ms' : list MatchData),
    process_new_matches ELOCalculator_default
      [mkMatchData "Arsenal" "Chelsea" 1 1 "2024-08-17"
         CalibrationEstimator.Absent CalibrationEstimator.Absent
         CalibrationEstimator.Absent CalibrationEstimator.Absent]
    = Ok (calc', ms').
Proof.
  destruct (process_match_total ELOCalculator_default "Arsenal" "Chelsea" 1 1
              "2024-08-17" true (default_plausible _ _) (draw_not_singular _ _ _ _))
    as (dh & da & _ & _ & Hp).
  unfold process_new_matches.
  match goal with |- context [new_matches ?h [?m]] =>
    replace (new_matches h [m]) with [(0%nat, m)] by (vm_compute; reflexivity) end.
  cbn [process_loop m_home_team m_away_team m_home_goals m_away_goals m_date].
  rewrite Hp. cbn [mbind result_bind]. eexists _, _. reflexivity.
Qed.


(** *** Running the update again *)

Lemma needs_processing_latest (hist : gmap string (list HistoryEntry)) (m : MatchData) :
  needs_processing (last_elo_dates hist) m
  = String.ltb (latest_date hist (m_home_team m)) (m_date m)
    || String.ltb (latest_date hist (m_away_team m)) (m_date m).
Proof. reflexivity. Qed.

Lemma not_needed_after (calc calc' : ELOCalculator) (team day : string) :
  (forall e, In e (history_of calc team) -> In e (history_of calc' team)) ->
  String.ltb "1900-01-01" day = true ->
  String.ltb (latest_date (elo_history calc) team) day = false ->
  String.ltb (latest_date (elo_history calc') team) day = false.
Proof.
  intros Hmono Hday Hold.
  destruct (latest_date_cases (elo_history calc) team) as [[_ E]|(e & He & Hde)].
  - rewrite E in Hold. congruence.
  - apply (not_ltb_trans day (latest_date (elo_history calc) team)); [exact Hold|].
    rewrite <- Hde. apply latest_date_greatest. apply Hmono. exact He.
Qed.

Lemma process_new_matches_settles (calc calc' : ELOCalculator) (ms ms' : list MatchData) :
  (forall m, In m ms -> String.ltb "1900-01-01" (m_date m) = true) ->
  process_new_matches calc ms = Ok (calc', ms') ->
  new_matches (elo_history calc') ms' = [].
Proof.
  intros Hdates Hp. apply new_matches_nil. intros m' Hm'.
  destruct (process_new_matches_records _ _ _ _ Hp) as [Hlen Hrec].
  unfold process_new_matches in Hp.
  destruct (process_loop_history _ _ _ _ _ Hp) as [Hmono Hproc].
  apply list_elem_of_In, list_elem_of_lookup in Hm' as [i Hi].
  assert (Hlt : (i < length ms)%nat).
  { rewrite <- Hlen. eapply lookup_lt_Some, Hi. }
  apply lookup_lt_is_Some in Hlt as [m Hm].
  assert (Hin : In m ms) by (apply list_elem_of_In; eapply list_elem_of_lookup_2, Hm).
  specialize (Hrec i m Hm). specialize (Hdates m Hin).
  rewrite needs_processing_latest.
  destruct (needs_processing (last_elo_dates (elo_history calc)) m) eqn:Hn.
  - destruct Hrec as (nh & na & Hrec). rewrite Hi in Hrec. injection Hrec as ->.
    cbn [m_home_team m_away_team m_date].
    destruct (Hproc i m) as [(eh & Heh & Hdh) (ea & Hea & Hda)];
      [apply new_matches_in; auto|].
    rewrite <- Hdh at 1. rewrite <- Hda.
    rewrite !latest_date_greatest by assumption. reflexivity.
  - rewrite Hi in Hrec. injection Hrec as ->.
    rewrite needs_processing_latest in Hn. apply orb_false_iff in Hn as [Hh Ha].
    rewrite (not_needed_after calc calc' _ _ (Hmono _) Hdates Hh).
    rewrite (not_needed_after calc calc' _ _ (Hmono _) Hdates Ha). reflexivity.
Qed.

(** X27.  Running the update again changes nothing: after an update
    that returned, no match is selected any more, so that a second
    update on the calculator and the match list of the first returns
    both as they are.  (The dates are later than '1900-01-01', the date
    assumed for a team without history.) *)
Theorem update_again_changes_nothing (calc calc' : ELOCalculator)
    (ms ms' : list MatchData) :
  (forall m, In m ms -> String.ltb "1900-01-01" (m_date m) = true) ->
  process_new_matches calc ms = Ok (calc', ms') ->
  new_matches (elo_history calc') ms' = []
  /\ process_new_matches calc' ms' = Ok (calc', ms').
Proof.
  intros Hdates Hp.
  pose proof (process_new_matches_settles _ _ _ _ Hdates Hp) as Hnil.
  split; [exact Hnil|]. unfold process_new_matches. rewrite Hnil. reflexivity.
Qed.

(** X27, witness: the first update on one match, run twice. *)
Lemma update_again_changes_nothing_witness :
  exists (calc' : ELOCalculator) (ms' : list MatchData),
    process_new_matches ELOCalculator_default
      [mkMatchData "Arsenal" "Chelsea" 1 1 "2024-08-17"
         CalibrationEstimator.Absent CalibrationEstimator.Absent
         CalibrationEstimator.Absent CalibrationEstimator.Absent]
    = Ok (calc', ms')
    /\ process_new_matches calc' ms' = Ok (calc', ms').
Proof.
  destruct first_update_runs as (calc' & ms' & Hp).
  exists calc', ms'. split; [exact Hp|].
  refine (proj2 (update_again_changes_nothing _ _ _ _ _ Hp)).
  intros m [<-|[]]. reflexivity.
Defined.

End RatingUpdateFacts.

(** ** Worked values

    The definitions above evaluated on the figures quoted in the
    specification and on a few inputs traced by hand from the source. *)

Section WorkedValues.
Import VenueProbabilityModel CalibrationEstimator RatingEngine FormAnalyzer.

(** Band boundaries: gap 49 is band 1, 50 is band 2, 449 is band 9, and
    everything from 450 on is band 10. *)
Example band_boundaries :
  map band_number [0; 49; 50; 449; 450; 10000]%Z = [1; 1; 2; 9; 10; 10]%Z.
Proof. reflexivity. Qed.

(** [round] takes ties to the even neighbour, also below zero. *)
Example round_half_even :
  map RatRound.py_round [0.5; 1.5; 2.5; -0.5; -1.5; 2.6; -2.6]%Q
  = [0; 2; 2; 0; -2; 3; -3]%Z.
Proof. reflexivity. Qed.

(** Band 1 at equal ratings: ties favour the home side, which takes the
    stronger team's share. *)
Example venue_probabilities_band_1 :
  get_venue_adjusted_probabilities 1500 1500 [mkEloBand 1 0.4 0.3 0.3]
  = Ok (mkProbabilities 0.4458 0.2861 0.2681).
Proof. vm_compute. reflexivity. Qed.

(** Calibration on one home win of the stronger side and one win in two
    away games of the stronger side. *)
Example calibration_three_matches :
  calculate_home_advantage_multipliers "2025-05-25"
    [mkMatch (Rating 1600) (Rating 1550) 2 1;
     mkMatch (Rating 1510) (Rating 1700) 0 1;
     mkMatch (Rating 1510) (Rating 1700) 1 1]
  = Ok (Calibrated 1.500 0.750 1.0000 0.5000 0.6667 3 1 2 "2025-05-25").
Proof. vm_compute. reflexivity. Qed.

(** Past the safety check the combined win rate can still be zero: two
    draws, one per group, divide by it. *)
Example calibration_no_wins :
  calculate_home_advantage_multipliers "2025-05-25"
    [mkMatch (Rating 1600) (Rating 1550) 1 1;
     mkMatch (Rating 1510) (Rating 1700) 1 1]
  = Raise ZeroDivisionError.
Proof. vm_compute. reflexivity. Qed.

(** The history is sorted by date before the changes are taken: 1500,
    1490, 1520 gives the changes 30 and -10. *)
Example form_metrics_three_entries :
  calculate_form_metrics "Arsenal"
    (<["Arsenal" := [mkEntry "2024-01-03" 1520; mkEntry "2024-01-01" 1500;
                     mkEntry "2024-01-02" 1490]]> ∅) 10
  = mkFormMetrics 20 20 "improving" 6.6.
Proof. vm_compute. reflexivity. Qed.

(** The sort is stable: entries of one date keep their order. *)
Example sorted_by_date_stable :
  map elo (sorted_by_date [mkEntry "b" 1; mkEntry "a" 2; mkEntry "b" 3; mkEntry "a" 4])
  = [2; 4; 1; 3]%Z.
Proof. reflexivity. Qed.

End WorkedValues.
